(** * A virtual storage node over a loop-mounted disk image

    Shallow embedding of [StorageVirtualNode] and [VirtualFile] from
    [SingleVMs/Virtual_machine_1.py] (the lifecycle half of the class is
    repeated verbatim in [Multi_VM_P2P.py]), together with the pieces of
    Python's [str] and [posixpath] the class calls.

    Conventions.
    - A Python [str] is a Rocq [string], one [ascii] per code point; this
      covers the code points below 256.
    - A Python [int] is a [Z]; [int(s)] refuses a literal of more than
      4300 digits, as CPython does by default. The text of a printed int
      is not modelled: a message carries the int itself.
    - The dictionary [self.files] is a [gmap string VirtualFile].
    - [print] appends a structured message to a log; each constructor of
      [msg] documents the text the source prints.
    - [host.cmd] is an operation of an abstract executor which may return
      text or raise; methods run in a small state-and-exception monad over
      the node, the executor and the log.
    - The shell [StorageCLI] is embedded by its handlers, and
      [transfer_file] of [Multi_VM_P2P.py] over a network of hosts with a
      clock; a Python [float] is a binary64 [PrimFloat.float]. *)

From Stdlib Require Import ZArith String Ascii List DecimalString.
From Stdlib Require PrimFloat FloatOps SpecFloat.
From stdpp Require Import base gmap strings list sorting.
Import ListNotations.

#[local] Open Scope string_scope.
#[local] Open Scope list_scope.

(** ** Python [str] methods used by the source *)

Module pystr.

(** [s.startswith(pre)]. *)
Fixpoint startswith (s pre : string) {struct pre} : bool :=
  match pre with
  | EmptyString => true
  | String b pre' =>
      match s with
      | EmptyString => false
      | String a s' => Ascii.eqb a b && startswith s' pre'
      end
  end.

(** [s.endswith(c)] for a one-character [c]. *)
Fixpoint endswith (s : string) (c : ascii) : bool :=
  match s with
  | EmptyString => false
  | String a EmptyString => Ascii.eqb a c
  | String _ r => endswith r c
  end.

(** [s.lstrip(c)] for a one-character set [c]. *)
Fixpoint lstrip (c : ascii) (s : string) : string :=
  match s with
  | EmptyString => EmptyString
  | String a r => if Ascii.eqb a c then lstrip c r else s
  end.

(** [s.rstrip(c)] for a one-character set [c]. *)
Fixpoint rstrip (c : ascii) (s : string) : string :=
  match s with
  | EmptyString => EmptyString
  | String a r =>
      match rstrip c r with
      | EmptyString => if Ascii.eqb a c then EmptyString else String a EmptyString
      | r' => String a r'
      end
  end.

(** [s.replace(old, new, 1)] for one-character [old] and [new]. *)
Fixpoint replace1 (old new : ascii) (s : string) : string :=
  match s with
  | EmptyString => EmptyString
  | String a r => if Ascii.eqb a old then String new r else String a (replace1 old new r)
  end.

(** [s.split(sep)] for a one-character [sep]: never the empty list. *)
Fixpoint split (sep : ascii) (s : string) : list string :=
  match s with
  | EmptyString => [EmptyString]
  | String a r =>
      if Ascii.eqb a sep then EmptyString :: split sep r
      else match split sep r with
           | w :: ws => String a w :: ws
           | [] => [String a EmptyString]
           end
  end.

(** [sep.join(l)]. *)
Definition join (sep : string) (l : list string) : string := String.concat sep l.

(** [c * n] for a one-character [c]. *)
Fixpoint times (c : ascii) (n : nat) : string :=
  match n with
  | O => EmptyString
  | S k => String c (times c k)
  end.

(** [sub in s]. *)
Fixpoint contains (sub s : string) : bool :=
  startswith s sub ||
  match s with
  | EmptyString => false
  | String _ r => contains sub r
  end.

(** [str(n)] and [f"{n}"] for an int. *)
Definition of_int (n : Z) : string := NilZero.string_of_int (Z.to_int n).

(** [f"{s:<w}"]: left-justified, padded with spaces, never truncated. *)
Definition ljust (w : nat) (s : string) : string :=
  s +:+ times " "%char (w - String.length s).

(** [c.isspace()] on the code points below 256. *)
Definition isspace (a : ascii) : bool :=
  let n := N_of_ascii a in
  ((9 <=? n) && (n <=? 13) || (28 <=? n) && (n <=? 32) || (n =? 133) || (n =? 160))%N.

Fixpoint lstrip_ws (s : string) : string :=
  match s with
  | EmptyString => EmptyString
  | String a r => if isspace a then lstrip_ws r else s
  end.

Fixpoint rstrip_ws (s : string) : string :=
  match s with
  | EmptyString => EmptyString
  | String a r =>
      match rstrip_ws r with
      | EmptyString => if isspace a then EmptyString else String a EmptyString
      | r' => String a r'
      end
  end.

(** [s.strip()]. *)
Definition strip (s : string) : string := rstrip_ws (lstrip_ws s).

(** The first whitespace-delimited word of [s] and what follows it. *)
Fixpoint word (s : string) : string * string :=
  match s with
  | EmptyString => (EmptyString, EmptyString)
  | String a r =>
      if isspace a then (EmptyString, s)
      else let '(w, rest) := word r in (String a w, rest)
  end.

(** [s.split(maxsplit=1)]: whitespace-separated, at most two pieces. *)
Definition split_ws_max1 (s : string) : list string :=
  match lstrip_ws s with
  | EmptyString => []
  | s1 =>
      let '(w, rest) := word s1 in
      match lstrip_ws rest with
      | EmptyString => [w]
      | tl => [w; tl]
      end
  end.

(** [s.split('\r\n')]. *)
Fixpoint split_crlf (s : string) : list string :=
  match s with
  | EmptyString => [EmptyString]
  | String a r =>
      let keep :=
        match split_crlf r with
        | w :: ws => String a w :: ws
        | [] => [String a EmptyString]
        end in
      match r with
      | String b r' =>
          if Ascii.eqb a "013"%char && Ascii.eqb b "010"%char
          then EmptyString :: split_crlf r'
          else keep
      | EmptyString => keep
      end
  end.

(** [c.lower()] on the code points below 256. *)
Definition lower_char (a : ascii) : ascii :=
  let n := N_of_ascii a in
  if ((65 <=? n) && (n <=? 90) || (192 <=? n) && (n <=? 222) && negb (n =? 215))%N
  then ascii_of_N (n + 32) else a.

Fixpoint lower (s : string) : string :=
  match s with
  | EmptyString => EmptyString
  | String a r => String (lower_char a) (lower r)
  end.

Definition digit (a : ascii) : option Z :=
  let n := N_of_ascii a in
  if ((48 <=? n) && (n <=? 57))%N then Some (Z.of_N n - 48)%Z else None.

(** Digits with single underscores between them, as [int] accepts. *)
Fixpoint digits (acc : Z) (after_digit : bool) (s : string) : option Z :=
  match s with
  | EmptyString => if after_digit then Some acc else None
  | String a r =>
      match digit a with
      | Some d => digits (10 * acc + d)%Z true r
      | None =>
          if Ascii.eqb a "_"%char && after_digit then digits acc false r else None
      end
  end.

(** The number of digits in [s], leading zeros counted and underscores
    not. *)
Fixpoint count_digits (s : string) : N :=
  match s with
  | EmptyString => 0%N
  | String a r =>
      match digit a with
      | Some _ => N.succ (count_digits r)
      | None => count_digits r
      end
  end.

(** [sys.get_int_max_str_digits()], as CPython sets it by default. *)
Definition max_str_digits : N := 4300%N.

(** The digits of a decimal literal, refused beyond [max_str_digits]. *)
Definition literal (s : string) : option Z :=
  if (max_str_digits <? count_digits s)%N then None else digits 0 false s.

(** [int(s)]: [None] stands for [ValueError]. *)
Definition to_int (s : string) : option Z :=
  match strip s with
  | String "-" r => Z.opp <$> literal r
  | String "+" r => literal r
  | r => literal r
  end.

End pystr.

(** ** [posixpath] *)

Module posixpath.

(** [(p[:i], p[i:])] with [i = p.rfind('/') + 1]. *)
Fixpoint cut (p : string) : string * string :=
  match p with
  | EmptyString => (EmptyString, EmptyString)
  | String a r =>
      match cut r with
      | (EmptyString, _) =>
          if Ascii.eqb a "/"%char then (String a EmptyString, r) else (EmptyString, p)
      | (h, t) => (String a h, t)
      end
  end.

(** [os.path.split]. *)
Definition split (p : string) : string * string :=
  let '(head, tail) := cut p in
  let head :=
    if negb (head =? "")
       && negb (head =? pystr.times "/"%char (String.length head))
    then pystr.rstrip "/"%char head else head in
  (head, tail).

(** [os.path.basename]. *)
Definition basename (p : string) : string := snd (cut p).

(** [os.path.join(a, b)]. *)
Definition join (a b : string) : string :=
  if pystr.startswith b "/" then b
  else if (a =? "") || pystr.endswith a "/"%char then a +:+ b
  else a +:+ "/" +:+ b.

(** [os.path.join(a, *p)]. *)
Definition join_many (a : string) (p : list string) : string := fold_left join p a.

Definition isabs (p : string) : bool := pystr.startswith p "/".

(** One iteration of the loop of [normpath] over the components;
    [new_comps] is the Python list, appended to and popped at its end. *)
Definition norm_step (initial_slashes : nat) (new_comps : list string) (comp : string)
  : list string :=
  if (comp =? "") || (comp =? ".") then new_comps
  else if negb (comp =? "..")
          || (Nat.eqb initial_slashes 0 && bool_decide (new_comps = []))
          || (negb (bool_decide (new_comps = [])) && (List.last new_comps "" =? ".."))
  then new_comps ++ [comp]
  else if negb (bool_decide (new_comps = [])) then removelast new_comps
  else new_comps.

Definition initial_slashes (path : string) : nat :=
  if pystr.startswith path "/" then
    if pystr.startswith path "//" && negb (pystr.startswith path "///") then 2 else 1
  else 0.

(** [os.path.normpath]. *)
Definition normpath (path : string) : string :=
  if path =? "" then "."
  else
    let slashes := initial_slashes path in
    let comps := fold_left (norm_step slashes) (pystr.split "/"%char path) [] in
    let path := pystr.join "/" comps in
    let path := pystr.times "/"%char slashes +:+ path in
    if path =? "" then "." else path.

(** [os.path.abspath], given the result of [os.getcwd()]. *)
Definition abspath (getcwd path : string) : string :=
  normpath (if isabs path then path else join getcwd path).

(** The length of [os.path.commonprefix([l1, l2])] on component lists. *)
Fixpoint common (l1 l2 : list string) : nat :=
  match l1, l2 with
  | x :: l1', y :: l2' => if x =? y then S (common l1' l2') else 0
  | _, _ => 0
  end.

(** [os.path.relpath(path, start)]: [None] stands for [ValueError]. *)
Definition relpath (getcwd path start : string) : option string :=
  if path =? "" then None
  else
    let nonempty := List.filter (fun x => negb (x =? "")) in
    let start_list := nonempty (pystr.split "/"%char (abspath getcwd start)) in
    let path_list := nonempty (pystr.split "/"%char (abspath getcwd path)) in
    let i := common start_list path_list in
    let rel_list := repeat ".." (List.length start_list - i) ++ skipn i path_list in
    match rel_list with
    | [] => Some "."
    | a :: p => Some (join_many a p)
    end.

End posixpath.

(** ** Data model *)

Module Import data.

(** [class VirtualFile]: a file or folder known to the node. *)
Record VirtualFile := mkVirtualFile {
file_id : string;
size_bytes : Z;
is_folder : bool;
content : option string;
path : string
}.

(** [VirtualFile.__init__]. The source's
  [content or f"Content of ..." if not is_folder else None] parses as
  [(content or f"...") if not is_folder else None]. *)
Definition VirtualFile_init (file_id base_path : string) (size_bytes : Z)
  (is_folder : bool) (content : option string) : VirtualFile :=
{| file_id := file_id;
   size_bytes := size_bytes;
   is_folder := is_folder;
   content :=
     if negb is_folder then
       let placeholder :=
         "Content of " +:+ posixpath.basename file_id +:+ " ("
           +:+ pystr.of_int size_bytes +:+ " bytes)" in
       match content with
       | Some c => if c =? "" then Some placeholder else Some c
       | None => Some placeholder
       end
     else None;
   path := posixpath.join base_path file_id |}.

(** [class StorageVirtualNode]: the fields of [self]. *)
Record StorageVirtualNode := mkNode {
total_storage : Z;
used_storage : Z;
files : gmap string VirtualFile;
disk_path : string;
image_path : string;
is_running : bool;
cwd : string
}.

(** [StorageVirtualNode.__init__]. *)
Definition StorageVirtualNode_init (total_storage_bytes : Z) (disk_path image_path : string)
: StorageVirtualNode :=
{| total_storage := total_storage_bytes;
   used_storage := 0;
   files := ∅;
   disk_path := disk_path;
   image_path := image_path;
   is_running := false;
   cwd := "/" |}.

Definition set_used_storage (u : Z) (n : StorageVirtualNode) : StorageVirtualNode :=
{| total_storage := total_storage n; used_storage := u; files := files n;
   disk_path := disk_path n; image_path := image_path n;
   is_running := is_running n; cwd := cwd n |}.

Definition set_files (f : gmap string VirtualFile) (n : StorageVirtualNode)
: StorageVirtualNode :=
{| total_storage := total_storage n; used_storage := used_storage n; files := f;
   disk_path := disk_path n; image_path := image_path n;
   is_running := is_running n; cwd := cwd n |}.

Definition set_is_running (b : bool) (n : StorageVirtualNode) : StorageVirtualNode :=
{| total_storage := total_storage n; used_storage := used_storage n; files := files n;
   disk_path := disk_path n; image_path := image_path n;
   is_running := b; cwd := cwd n |}.

Definition set_cwd (d : string) (n : StorageVirtualNode) : StorageVirtualNode :=
{| total_storage := total_storage n; used_storage := used_storage n; files := files n;
   disk_path := disk_path n; image_path := image_path n;
   is_running := is_running n; cwd := d |}.

End data.

(** ** Exceptions, printed messages and the command executor *)

(** The exceptions that can travel through the methods. *)
Inductive exn :=
| HostError (text : string)        (* raised inside [host.cmd] *)
| NotEnoughValues (got : nat)      (* ValueError: unpacking fewer than 2 values *)
| InvalidLiteral (s : string)      (* ValueError: int() of a non-number *)
| NoPathSpecified.                 (* ValueError: relpath of the empty path *)

(** What the methods print, one constructor per [print] of the source. *)
Inductive msg :=
| Rescanning                       (* Rescanning filesystem for metadata... *)
| DiskEmpty                        (* Disk is empty. *)
| RescanComplete (items : nat) (used : Z)
                                   (* Rescan complete. Found {} items, using {} bytes. *)
| AlreadyRunning                   (* Virtual device already running *)
| ImageNotFound (image : string)   (* Disk image not found. Creating new disk at {}... *)
| Formatting                       (* Formatting disk image with ext4... *)
| ImageFound (image : string)      (* Found existing disk image at {}. *)
| Started (disk : string)          (* Virtual device started with persistent disk mounted at {} *)
| MountFailed (disk : string)      (* Failed to mount virtual disk at {} *)
| StartError (e : exn)             (* Error starting virtual device: {e} *)
| NotRunning                       (* Virtual device not running *)
| Unmounting (disk : string)       (* Unmounting persistent disk from {}... *)
| Stopped (image : string)         (* Virtual device stopped. Data remains in {}. *)
| StopError (e : exn)              (* Error stopping virtual device: {e} *)
| NoSuchDirectory (arg : string)   (* cd: no such file or directory: {path} *)
| FileNotRunning                   (* Cannot create file: Virtual device not running *)
| InsufficientStorage (requested available : Z)
                                   (* Insufficient storage: {} bytes requested,
                                      {} bytes available *)
| Overwriting (key : string)       (* Warning: File {} already exists. Overwriting. *)
| FileNoSuchParent (key : string)  (* Error: cannot create file '{}': No such file or directory *)
| CreatedFile (key : string) (size : Z)
                                   (* Created virtual file '{}' ({} bytes) *)
| FileError (key : string) (e : exn)
                                   (* Error creating file {}: {e} *)
| FolderNotRunning                 (* Cannot create folder: Virtual device not running *)
| FolderExists (key : string)      (* Error: cannot create directory '{}': File exists *)
| FolderNoSuchParent (key : string)
                                   (* Error: cannot create directory '{}':
                                      No such file or directory *)
| CreatedFolder (key : string)     (* Created virtual folder '{}' *)
| FolderError (key : string) (e : exn).
                                   (* Error creating folder {}: {e} *)

(** The outcome of one [host.cmd(...)]: captured output, or an exception. *)
Inductive cmd_result :=
| Output (text : string)
| Raised (text : string).

(** A Mininet [Host] as the class uses it: it runs a shell command,
    changes, and answers. *)
Class Host (H : Type) := cmd : H → string → cmd_result * H.

(** Everything a method can read or change: [self], the executor, the
    standard output, and the working directory of the Python process
    (read by [os.path.relpath]). *)
Record world (H : Type) := World {
  self : StorageVirtualNode;
  host : H;
  printed : list msg;
  getcwd : string
}.
Arguments World {H}.
Arguments self {H}.
Arguments host {H}.
Arguments printed {H}.
Arguments getcwd {H}.

Inductive res (A : Type) :=
| Ret (a : A)
| Exc (e : exn).
Arguments Ret {A}.
Arguments Exc {A}.

(** A method body: it ends with a value or an exception, and leaves a
    world behind in both cases. *)
Definition M (H A : Type) : Type := world H → res A * world H.

#[global] Instance M_ret {H} : MRet (M H) := λ A a w, (Ret a, w).
#[global] Instance M_bind {H} : MBind (M H) := λ A B f m w,
  match m w with
  | (Ret a, w') => f a w'
  | (Exc e, w') => (Exc e, w')
  end.

Section Monad.
Context {H : Type} `{Host H}.

Definition get_self : M H StorageVirtualNode := λ w, (Ret (self w), w).

Definition modify_self (f : StorageVirtualNode → StorageVirtualNode) : M H unit :=
  λ w, (Ret tt, World (f (self w)) (host w) (printed w) (getcwd w)).

Definition print (m : msg) : M H unit :=
  λ w, (Ret tt, World (self w) (host w) (printed w ++ [m]) (getcwd w)).

Definition os_getcwd : M H string := λ w, (Ret (getcwd w), w).

Definition raise {A} (e : exn) : M H A := λ w, (Exc e, w).

(** [host.cmd(c)]. *)
Definition host_cmd (c : string) : M H string := λ w,
  match cmd (host w) c with
  | (Output text, h') => (Ret text, World (self w) h' (printed w) (getcwd w))
  | (Raised text, h') => (Exc (HostError text), World (self w) h' (printed w) (getcwd w))
  end.

(** [try: body  except Exception as e: handler]. *)
Definition try_except {A} (body : M H A) (handler : exn → M H A) : M H A := λ w,
  match body w with
  | (Ret a, w') => (Ret a, w')
  | (Exc e, w') => handler e w'
  end.

(** [for x in l: body]. *)
Fixpoint for_each {A} (l : list A) (body : A → M H unit) : M H unit :=
  match l with
  | [] => mret tt
  | x :: l' => body x;; for_each l' body
  end.

End Monad.

(** ** The methods of [StorageVirtualNode] *)

(** The double-quote character of the shell commands. *)
Definition dq : string := String "034"%char EmptyString.

(** The order [sorted] puts the items of [self.files] in: keys of a
    dictionary are distinct, so the comparison of two items is decided by
    their keys. *)
Definition item_le (x y : string * VirtualFile) : Prop := String.leb x.1 y.1 = true.

#[global] Instance item_le_dec : RelDecision item_le.
Proof. intros x y. unfold item_le. apply _. Defined.

(** [sorted(d.items())]. *)
Definition sorted_items (d : gmap string VirtualFile) : list (string * VirtualFile) :=
  merge_sort item_le (map_to_list d).

(** [parent_path and (parent_path not in self.files or
    not self.files[parent_path].is_folder)], the test both creation
    methods make on [os.path.split(path_key)[0]]. *)
Definition parent_missing (d : gmap string VirtualFile) (path_key : string) : bool :=
  let parent_path := (posixpath.split path_key).1 in
  negb (parent_path =? "")
  && match d !! parent_path with
     | None => true
     | Some f => negb (is_folder f)
     end.

Section Methods.
Context {H : Type} `{Host H}.

(** The body of the loop of [_rescan_filesystem]. *)
Definition rescan_entry (full_path : string) : M H unit :=
  n ← get_self;
  stat_output ← host_cmd ("stat -c " +:+ dq +:+ "%s %F" +:+ dq +:+ " "
                            +:+ dq +:+ full_path +:+ dq);
  if stat_output =? "" then mret tt
  else
    match pystr.split_ws_max1 (pystr.strip stat_output) with
    | [size_str; file_type_str] =>
        match pystr.to_int size_str with
        | None => raise (InvalidLiteral size_str)
        | Some size_bytes =>
            let is_folder := pystr.contains "directory" (pystr.lower file_type_str) in
            here ← os_getcwd;
            match posixpath.relpath here full_path (disk_path n) with
            | None => raise NoPathSpecified
            | Some path_key =>
                if path_key =? "." then mret tt
                else
                  let virtual_file :=
                    VirtualFile_init path_key (disk_path n) size_bytes is_folder None in
                  modify_self (λ s, set_files (<[path_key := virtual_file]> (files s)) s);;
                  if negb is_folder
                  then modify_self (λ s, set_used_storage (used_storage s + size_bytes) s)
                  else mret tt
            end
        end
    | pieces => raise (NotEnoughValues (length pieces))
    end.

(** [_rescan_filesystem]. *)
Definition _rescan_filesystem : M H unit :=
  print Rescanning;;
  modify_self (set_files ∅);;
  modify_self (set_used_storage 0);;
  n ← get_self;
  find_output ← host_cmd ("find " +:+ disk_path n +:+ " -mindepth 1");
  if find_output =? "" then print DiskEmpty
  else
    let paths := pystr.split_crlf (pystr.strip find_output) in
    for_each paths rescan_entry;;
    s ← get_self;
    print (RescanComplete (size (files s)) (used_storage s)).

(** [start]. *)
Definition start : M H bool :=
  n ← get_self;
  if is_running n then print AlreadyRunning;; mret false
  else
    try_except
      (probe ← host_cmd ("test -f " +:+ image_path n +:+ " && echo " +:+ dq +:+ "exists"
                           +:+ dq +:+ " || echo " +:+ dq +:+ "not found" +:+ dq);
       (if negb (pystr.contains "exists" probe) then
          print (ImageNotFound (image_path n));;
          host_cmd ("truncate -s " +:+ pystr.of_int (total_storage n) +:+ " "
                      +:+ image_path n);;
          print Formatting;;
          host_cmd ("sudo mkfs.ext4 -F " +:+ image_path n);;
          mret tt
        else print (ImageFound (image_path n)));;
       host_cmd ("mkdir -p " +:+ disk_path n);;
       host_cmd ("sudo mount -o loop " +:+ image_path n +:+ " " +:+ disk_path n);;
       host_cmd ("sudo chmod 777 " +:+ disk_path n);;
       mounted ← host_cmd ("mount | grep " +:+ disk_path n);
       if negb (mounted =? "") then
         modify_self (set_is_running true);;
         _rescan_filesystem;;
         print (Started (disk_path n));;
         mret true
       else
         print (MountFailed (disk_path n));;
         mret false)
      (λ e, print (StartError e);; mret false).

(** [stop]. *)
Definition stop : M H bool :=
  n ← get_self;
  if negb (is_running n) then print NotRunning;; mret false
  else
    try_except
      (print (Unmounting (disk_path n));;
       host_cmd ("sudo umount -l " +:+ disk_path n);;
       host_cmd ("rmdir " +:+ disk_path n);;
       modify_self (set_is_running false);;
       modify_self (set_used_storage 0);;
       modify_self (set_files ∅);;
       print (Stopped (image_path n));;
       mret true)
      (λ e, print (StopError e);; mret false).

(** [_resolve_path], as a function of [self.cwd]. *)
Definition resolve (cwd path : string) : string :=
  if path =? "" then cwd
  else
    let abs_path :=
      if pystr.startswith path "/" || pystr.startswith path "~"
      then pystr.replace1 "~"%char "/"%char path
      else posixpath.join cwd path in
    posixpath.normpath abs_path.

Definition _resolve_path (path : string) : M H string :=
  n ← get_self;
  mret (resolve (cwd n) path).

(** [change_directory]. *)
Definition change_directory (path : string) : M H (bool * string) :=
  target_path ← _resolve_path path;
  if target_path =? "/" then
    modify_self (set_cwd "/");;
    n ← get_self;
    mret (true, cwd n)
  else
    let key := pystr.lstrip "/"%char target_path in
    n ← get_self;
    if match files n !! key with
       | Some f => is_folder f
       | None => false
       end
    then
      modify_self (set_cwd target_path);;
      s ← get_self;
      mret (true, cwd s)
    else
      print (NoSuchDirectory path);;
      mret (false, cwd n).

(** [create_virtual_file]. *)
Definition create_virtual_file (path_key : string) (size_bytes : Z)
    (content : option string) : M H (option VirtualFile) :=
  n ← get_self;
  if negb (is_running n) then print FileNotRunning;; mret None
  else if (total_storage n <? used_storage n + size_bytes)%Z then
    print (InsufficientStorage size_bytes (total_storage n - used_storage n));;
    mret None
  else
    original_size ←
      match files n !! path_key with
      | Some f => print (Overwriting path_key);; mret (data.size_bytes f)
      | None => mret 0%Z
      end;
    if parent_missing (files n) path_key then
      print (FileNoSuchParent path_key);; mret None
    else
      let virtual_file :=
        VirtualFile_init path_key (disk_path n) size_bytes false content in
      try_except
        (host_cmd ("truncate -s " +:+ pystr.of_int (data.size_bytes virtual_file) +:+ " "
                     +:+ path virtual_file);;
         modify_self (λ s, set_used_storage
                             (used_storage s - original_size + size_bytes) s);;
         modify_self (λ s, set_files (<[path_key := virtual_file]> (files s)) s);;
         print (CreatedFile path_key size_bytes);;
         mret (Some virtual_file))
        (λ e, print (FileError path_key e);; mret None).

(** [create_virtual_folder]. *)
Definition create_virtual_folder (path_key : string) : M H (option VirtualFile) :=
  n ← get_self;
  if negb (is_running n) then print FolderNotRunning;; mret None
  else if bool_decide (is_Some (files n !! path_key)) then
    print (FolderExists path_key);; mret None
  else if parent_missing (files n) path_key then
    print (FolderNoSuchParent path_key);; mret None
  else
    let virtual_folder := VirtualFile_init path_key (disk_path n) 0 true None in
    try_except
      (host_cmd ("mkdir -p " +:+ path virtual_folder);;
       modify_self (λ s, set_files (<[path_key := virtual_folder]> (files s)) s);;
       print (CreatedFolder path_key);;
       mret (Some virtual_folder))
      (λ e, print (FolderError path_key e);; mret None).

(** The directory [list_contents] lists: [self.cwd.lstrip('/')], and
    the empty string at the root. *)
Definition target_dir (n : StorageVirtualNode) : string :=
  let target_dir := pystr.lstrip "/"%char (cwd n) in
  if cwd n =? "/" then "" else target_dir.

(** The test [parent_dir == target_dir] of the loop of [list_contents]. *)
Definition listed (target : string) (item : string * VirtualFile) : bool :=
  (posixpath.split item.1).1 =? target.

(** The line [list_contents] appends for one item. *)
Definition line (item : string * VirtualFile) : string :=
  let basename := (posixpath.split item.1).2 in
  if is_folder item.2 then "d ---        " +:+ basename +:+ "/"
  else
    let size_str := pystr.of_int (data.size_bytes item.2) +:+ "B" in
    "- " +:+ pystr.ljust 10 size_str +:+ " " +:+ basename.

(** The list [output] at the end of the loop of [list_contents]. *)
Definition output (n : StorageVirtualNode) : list string :=
  line <$> List.filter (listed (target_dir n)) (sorted_items (files n)).

(** The line-feed character. *)
Definition lf : string := String "010"%char EmptyString.

(** [list_contents]. *)
Definition list_contents : M H string :=
  n ← get_self;
  if negb (is_running n) then mret "Virtual device is not running."
  else mret (pystr.join lf (output n)).

End Methods.

(** ** Calls, runs and reachable worlds *)

(** One call of a caller on the public methods of the node. *)
Inductive call :=
| Start
| Stop
| Cd (path : string)
| Touch (path_key : string) (size_bytes : Z) (content : option string)
| Mkdir (path_key : string)
| Ls.

Section Runs.
Context {H : Type} `{Host H}.

(** The world a call leaves behind; its value is dropped. *)
Definition invoke (c : call) (w : world H) : world H :=
  match c with
  | Start => (start w).2
  | Stop => (stop w).2
  | Cd p => (change_directory p w).2
  | Touch k s c => (create_virtual_file k s c w).2
  | Mkdir k => (create_virtual_folder k w).2
  | Ls => (list_contents w).2
  end.

Definition run (cs : list call) (w : world H) : world H := fold_left (λ w c, invoke c w) cs w.

(** The world right after [StorageVirtualNode(total, disk, image)]. *)
Definition fresh (total : Z) (disk image : string) (h : H) (here : string) : world H :=
  World (StorageVirtualNode_init total disk image) h [] here.

(** The worlds a caller can bring about from a fresh node. *)
Inductive reachable : world H → Prop :=
| reachable_fresh total disk image h here : reachable (fresh total disk image h here)
| reachable_invoke c w : reachable w → reachable (invoke c w).

(** A method call that returns [None] after printing [said], and
    changes neither the node nor the executor. *)
Definition fails_with {A} (m : M H (option A)) (w : world H) (said : list msg) : Prop :=
  m w = (Ret None, World (self w) (host w) (printed w ++ said) (getcwd w)).

End Runs.

(** The total size of the files (not folders) of an index: what
    [_rescan_filesystem] accumulates into [used_storage]. *)
Definition file_bytes (d : gmap string VirtualFile) : Z :=
  map_fold (λ _ f acc, if is_folder f then acc else (acc + data.size_bytes f)%Z) 0%Z d.

(** [key] is in the index and its entry is a folder. *)
Definition indexed_folder (d : gmap string VirtualFile) (key : string) : bool :=
  match d !! key with
  | Some f => is_folder f
  | None => false
  end.

(** ** A small machine to run the node on

    A stand-in for a Mininet host, enough to drive the methods: it
    remembers whether the image is mounted, lists the paths under the mount
    point and answers [stat] from a table. It never raises. *)

Record machine := Machine {
  mounted : bool;
  disk : list (string * string)   (* path under the mount point, output of stat *)
}.

Definition stat_command (full_path : string) : string :=
  "stat -c " +:+ dq +:+ "%s %F" +:+ dq +:+ " " +:+ dq +:+ full_path +:+ dq.

Definition crlf : string := String "013"%char (String "010"%char EmptyString).

#[global] Instance machine_host : Host machine := λ m c,
  if pystr.startswith c "sudo mount " then (Output "", Machine true (disk m))
  else if pystr.startswith c "sudo umount " then (Output "", Machine false (disk m))
  else if pystr.startswith c "mount | grep " then
    (Output (if mounted m then "/dev/loop0 on /mnt/vm1_disk type ext4 (rw,relatime)" +:+ crlf
             else ""), m)
  else if pystr.startswith c "test -f " then (Output ("exists" +:+ crlf), m)
  else if pystr.startswith c "find " then
    (Output (pystr.join crlf (fst <$> disk m)), m)
  else if pystr.startswith c "stat -c " then
    (Output (match List.find (λ e, c =? stat_command e.1) (disk m) with
             | Some e => e.2 +:+ crlf
             | None => ""
             end), m)
  else (Output "", m).

(** A new 100-byte node on an empty, formatted image. *)
Definition empty_disk : world machine :=
  fresh 100 "/mnt/vm1_disk" "/assets/vm1_disk.img" (Machine false []) "/home/user".

(** A new node on a freshly formatted ext4 image, as [mkfs.ext4] leaves
    it: one directory, lost+found, whose size [stat] reports as 16384. *)
Definition formatted_disk : world machine :=
  fresh 104857600 "/mnt/vm1_disk" "/assets/vm1_disk.img"
        (Machine false [("/mnt/vm1_disk/lost+found", "16384 directory")]) "/home/user".

(** A running 10-byte node that holds one 4-byte file, [f]. *)
Definition tight_disk : world machine :=
  run [Start; Touch "f" 4 None]
      (fresh 10 "/mnt/vm1_disk" "/assets/vm1_disk.img" (Machine false []) "/home/user").

(** A running node on which the folder [a] was replaced by a file after
    [a/b.txt] had been created in it. *)
Definition orphan_disk : world machine :=
  run [Start; Mkdir "a"; Touch "a/b.txt" 10 None; Touch "a" 5 None] empty_disk.

(** ** Vocabulary of the statements *)

(** The node a successful [stop] leaves. *)
Definition stopped_node (n : StorageVirtualNode) : StorageVirtualNode :=
  set_files ∅ (set_used_storage 0 (set_is_running false n)).

(** What [create_virtual_file] prints when it finds [key] in the index. *)
Definition warning (d : gmap string VirtualFile) (key : string) : list msg :=
  match d !! key with
  | Some _ => [Overwriting key]
  | None => []
  end.

(** The size [create_virtual_file] takes off [used_storage]. *)
Definition original_size (d : gmap string VirtualFile) (key : string) : Z :=
  match d !! key with
  | Some f => data.size_bytes f
  | None => 0
  end.

(** The entry [create_virtual_file] builds, and the node it leaves on success. *)
Definition new_file (n : StorageVirtualNode) (key : string) (size : Z)
    (content : option string) : VirtualFile :=
  VirtualFile_init key (disk_path n) size false content.

Definition with_file (n : StorageVirtualNode) (key : string) (size : Z)
    (content : option string) : StorageVirtualNode :=
  set_files (<[key := new_file n key size content]> (files n))
    (set_used_storage (used_storage n - original_size (files n) key + size) n).

(** The shell command [create_virtual_file] issues. *)
Definition truncate_command (n : StorageVirtualNode) (key : string) (size : Z) : string :=
  "truncate -s " +:+ pystr.of_int size +:+ " " +:+ posixpath.join (disk_path n) key.

(** The entry [create_virtual_folder] builds, the node it leaves on
    success, and the shell command it issues. *)
Definition new_folder (n : StorageVirtualNode) (key : string) : VirtualFile :=
  VirtualFile_init key (disk_path n) 0 true None.

Definition with_folder (n : StorageVirtualNode) (key : string) : StorageVirtualNode :=
  set_files (<[key := new_folder n key]> (files n)) n.

Definition mkdir_command (n : StorageVirtualNode) (key : string) : string :=
  "mkdir -p " +:+ posixpath.join (disk_path n) key.

(** What an entry counts for in [used_storage]: its size if it is a file. *)
Definition weight (f : VirtualFile) : Z := if is_folder f then 0%Z else data.size_bytes f.

(** [used_storage] is the total size of the indexed files. *)
Definition accounted (n : StorageVirtualNode) : Prop :=
  used_storage n = file_bytes (files n).

(** Every indexed folder has size 0. *)
Definition weightless (d : gmap string VirtualFile) : Prop :=
  map_Forall (λ _ f, is_folder f = true → data.size_bytes f = 0%Z) d.

(** The calls that create entries. *)
Definition creates (c : call) : Prop :=
  match c with
  | Touch _ _ _ | Mkdir _ => True
  | _ => False
  end.

(** The items [list_contents] shows, in the order it shows them. *)
Definition shown (n : StorageVirtualNode) : list (string * VirtualFile) :=
  List.filter (listed (target_dir n)) (sorted_items (files n)).

(** How a path component moves a walk: not at all for the empty component
    and [.], one level up for [..], one level down for a name. *)
Definition move (comp : string) : Z :=
  if (comp =? "") || (comp =? ".") then 0%Z
  else if comp =? ".." then (-1)%Z
  else 1%Z.

(** The level a walk along [comps] ends at, counted from its start and
    with no floor. *)
Fixpoint net (comps : list string) : Z :=
  match comps with
  | [] => 0%Z
  | c :: cs => (move c + net cs)%Z
  end.


(** An input [_resolve_path] joins with the current directory. *)
Definition relative (path : string) : Prop :=
  path ≠ "" ∧ pystr.startswith path "/" = false ∧ pystr.startswith path "~" = false.

(** A component that names an entry: not empty, not [.], not [..], and
    without a separator in it. *)
Definition name (c : string) : Prop :=
  c ≠ "" ∧ c ≠ "." ∧ c ≠ ".." ∧ pystr.split "/"%char c = [c].

(** A new node on an image from which a file vanishes between [find] and
    [stat]: [stat] answers with its error message. *)
Definition vanishing_disk : world machine :=
  fresh 104857600 "/mnt/vm1_disk" "/assets/vm1_disk.img"
        (Machine false
           [("/mnt/vm1_disk/tmp",
             "stat: cannot statx '/mnt/vm1_disk/tmp': No such file or directory")])
        "/home/user".

(** A new node on an image that holds a folder and a file in it. *)
Definition stocked_disk : world machine :=
  fresh 104857600 "/mnt/vm1_disk" "/assets/vm1_disk.img"
        (Machine false [("/mnt/vm1_disk/docs", "4096 directory");
                        ("/mnt/vm1_disk/docs/a.txt", "1048576 regular file")])
        "/home/user".

(** ** Vocabulary of the further statements *)

(** The node the loop of [_rescan_filesystem] leaves after it has indexed
    one path under the key [k]. *)
Definition scanned (n : StorageVirtualNode) (k : string) (size : Z) (dir : bool)
  : StorageVirtualNode :=
  let n1 := set_files (<[k := VirtualFile_init k (disk_path n) size dir None]> (files n)) n in
  if dir then n1 else set_used_storage (used_storage n1 + size) n1.

(** The fields [__init__] sets from its arguments. *)
Definition same_config (n n' : StorageVirtualNode) : Prop :=
  total_storage n' = total_storage n
  ∧ disk_path n' = disk_path n
  ∧ image_path n' = image_path n.

(** The keys [_rescan_filesystem] computes for a list of paths. *)
Definition scan_keys (here disk : string) (paths : list string) : list string :=
  omap (λ p, posixpath.relpath here p disk) paths.

(** What the loop of [_rescan_filesystem] reads in the output of [stat]:
    the size and whether the type names a directory; [None] where the
    loop raises, for want of two fields or of an int. *)
Definition read_stat (stat_output : string) : option (Z * bool) :=
  match pystr.split_ws_max1 (pystr.strip stat_output) with
  | [size_str; file_type_str] =>
      match pystr.to_int size_str with
      | Some size_bytes =>
          Some (size_bytes, pystr.contains "directory" (pystr.lower file_type_str))
      | None => None
      end
  | _ => None
  end.

(** The entry the loop indexes for the path [p] when [stat] prints
    [table p] for it: none when [stat] prints nothing or the path is the
    mount point itself. *)
Definition scan_entry (here disk : string) (table : string → string) (p : string)
  : option (string * VirtualFile) :=
  if table p =? "" then None
  else
    match read_stat (table p), posixpath.relpath here p disk with
    | Some (size, dir), Some k =>
        if k =? "." then None else Some (k, VirtualFile_init k disk size dir None)
    | _, _ => None
    end.

(** A path the loop gets past: [stat] prints nothing for it, or two
    fields of which the first is an int, and the path is not empty. *)
Definition scans (here disk : string) (table : string → string) (p : string) : Prop :=
  table p = ""
  ∨ is_Some (read_stat (table p)) ∧ is_Some (posixpath.relpath here p disk).

(** The shell command [_rescan_filesystem] lists the disk with. *)
Definition find_command (n : StorageVirtualNode) : string :=
  "find " +:+ disk_path n +:+ " -mindepth 1".

(** What is left alone by every method but [start], [stop] and
    [change_directory]: the configuration, the state of the device and the
    current directory. *)
Definition same_frame (n n' : StorageVirtualNode) : Prop :=
  same_config n n' ∧ is_running n' = is_running n ∧ cwd n' = cwd n.

(** The node [_rescan_filesystem] starts its loop from. *)
Definition cleared (n : StorageVirtualNode) : StorageVirtualNode :=
  set_used_storage 0 (set_files ∅ n).

(** The calls that leave the current directory alone, and those that
    leave the state of the device alone. *)
Definition stays (c : call) : Prop :=
  match c with
  | Cd _ => False
  | _ => True
  end.

Definition no_switch (c : call) : Prop :=
  match c with
  | Start | Stop => False
  | _ => True
  end.

(** No indexed entry has a negative size. *)
Definition sizes_nonneg (d : gmap string VirtualFile) : Prop :=
  map_Forall (λ _ f, (0 ≤ data.size_bytes f)%Z) d.

(** A call that is neither [start] nor [stop] and asks for no negative size. *)
Definition modest (c : call) : Prop :=
  match c with
  | Start | Stop => False
  | Touch _ size _ => (0 ≤ size)%Z
  | _ => True
  end.

(** A string without a separator in it. *)
Definition slashless (c : string) : Prop := pystr.split "/"%char c = [c].

(** An absolute path in normal form: one or two separators, then names
    joined by separators. *)
Definition normalized (p : string) : Prop :=
  ∃ k names,
    (k = 1 ∨ k = 2) ∧ p = pystr.times "/"%char k +:+ pystr.join "/" names
    ∧ Forall name names.

(** A key in normal form: names joined by separators, at least one. *)
Definition normal_key (key : string) : Prop :=
  ∃ names, names ≠ [] ∧ key = pystr.join "/" names ∧ Forall name names.

(** ** The command shell [StorageCLI] *)

(** [s.split(c)] for any whitespace character [c], empty pieces kept. *)
Fixpoint split_spaces (s : string) : list string :=
  match s with
  | EmptyString => [EmptyString]
  | String a r =>
      if pystr.isspace a then EmptyString :: split_spaces r
      else match split_spaces r with
           | w :: ws => String a w :: ws
           | [] => [String a EmptyString]
           end
  end.

(** [s.split()]: the words of [s], separated by runs of whitespace. *)
Definition words (s : string) : list string :=
  List.filter (λ w, negb (w =? "")) (split_spaces s).

(** What the handlers of the shell print themselves. *)
Inductive shell_msg :=
| MkdirUsage                       (* Usage: mkdir <folder_name> *)
| MkdirRoot                        (* Error: cannot create directory '/': File exists *)
| TouchUsage                       (* Usage: touch <file_name> [size_in_mb] *)
| TouchRoot                        (* Error: cannot touch '/': Is a directory *)
| Listing (text : string).         (* the text [list_contents] returned *)

(** The shell: the node and its executor, the prompt, and what the
    handlers have printed. In each handler either the node prints or the
    handler does, never both, so the two logs lose no order. *)
Record shell (H : Type) := Shell {
  under : world H;
  prompt : string;
  console : list shell_msg
}.
Arguments Shell {H}.
Arguments under {H}.
Arguments prompt {H}.
Arguments console {H}.

Section Shell.
Context {H : Type} `{Host H}.

Definition say (m : shell_msg) (sh : shell H) : shell H :=
  Shell (under sh) (prompt sh) (console sh ++ [m]).

(** [do_cd]. *)
Definition do_cd (line : string) (sh : shell H) : res unit * shell H :=
  let path := pystr.strip line in
  let path := if path =? "" then "/" else path in
  match change_directory path (under sh) with
  | (Ret (success, new_path), w') =>
      (Ret tt,
       Shell w' (if success then "mininet:" +:+ new_path +:+ "> " else prompt sh)
             (console sh))
  | (Exc e, w') => (Exc e, Shell w' (prompt sh) (console sh))
  end.

(** [do_mkdir]. *)
Definition do_mkdir (line : string) (sh : shell H) : res unit * shell H :=
  let folder_name := pystr.strip line in
  if folder_name =? "" then (Ret tt, say MkdirUsage sh)
  else
    match _resolve_path folder_name (under sh) with
    | (Ret full_path, w1) =>
        let path_key := pystr.lstrip "/"%char full_path in
        if path_key =? "" then (Ret tt, say MkdirRoot (Shell w1 (prompt sh) (console sh)))
        else
          match create_virtual_folder path_key w1 with
          | (Ret _, w2) => (Ret tt, Shell w2 (prompt sh) (console sh))
          | (Exc e, w2) => (Exc e, Shell w2 (prompt sh) (console sh))
          end
    | (Exc e, w1) => (Exc e, Shell w1 (prompt sh) (console sh))
    end.

(** [do_touch]. *)
Definition do_touch (line : string) (sh : shell H) : res unit * shell H :=
  match words (pystr.strip line) with
  | [] => (Ret tt, say TouchUsage sh)
  | file_name :: more =>
      let create (size_mb : Z) :=
        let size_bytes := (size_mb * 1024 * 1024)%Z in
        match _resolve_path file_name (under sh) with
        | (Ret full_path, w1) =>
            let path_key := pystr.lstrip "/"%char full_path in
            if path_key =? "" then
              (Ret tt, say TouchRoot (Shell w1 (prompt sh) (console sh)))
            else
              match create_virtual_file path_key size_bytes None w1 with
              | (Ret _, w2) => (Ret tt, Shell w2 (prompt sh) (console sh))
              | (Exc e, w2) => (Exc e, Shell w2 (prompt sh) (console sh))
              end
        | (Exc e, w1) => (Exc e, Shell w1 (prompt sh) (console sh))
        end in
      match more with
      | [] => create 0%Z
      | size :: _ =>
          match pystr.to_int size with
          | Some size_mb => create size_mb
          | None => (Exc (InvalidLiteral size), sh)
          end
      end
  end.

(** [do_ls]. *)
Definition do_ls (line : string) (sh : shell H) : res unit * shell H :=
  match list_contents (under sh) with
  | (Ret text, w') => (Ret tt, say (Listing text) (Shell w' (prompt sh) (console sh)))
  | (Exc e, w') => (Exc e, Shell w' (prompt sh) (console sh))
  end.

End Shell.

(** One line typed at the shell. *)
Inductive command :=
| DoCd (line : string)
| DoMkdir (line : string)
| DoTouch (line : string)
| DoLs (line : string).

Section Sessions.
Context {H : Type} `{Host H}.

Definition exec (c : command) (sh : shell H) : res unit * shell H :=
  match c with
  | DoCd line => do_cd line sh
  | DoMkdir line => do_mkdir line sh
  | DoTouch line => do_touch line sh
  | DoLs line => do_ls line sh
  end.

(** A session: the lines are handled in turn, and an exception that
    leaves a handler ends the session. *)
Fixpoint session (cs : list command) (sh : shell H) : res unit * shell H :=
  match cs with
  | [] => (Ret tt, sh)
  | c :: cs' =>
      match exec c sh with
      | (Ret _, sh') => session cs' sh'
      | (Exc e, sh') => (Exc e, sh')
      end
  end.

End Sessions.

(** What [stat] prints on [stocked_disk]. *)
Definition stocked_table (p : string) : string :=
  if p =? "/mnt/vm1_disk/docs" then "4096 directory" +:+ crlf
  else if p =? "/mnt/vm1_disk/docs/a.txt" then "1048576 regular file" +:+ crlf
  else "".

(** A shell on a started, empty node. *)
Definition new_shell : shell machine :=
  Shell (run [Start] empty_disk) "mininet:/> " [].

(** The prompt shows the current directory. *)
Definition prompt_shows {H} (sh : shell H) : Prop :=
  prompt sh = "mininet:" +:+ cwd (self (under sh)) +:+ "> ".

(** Every indexed key is in normal form. *)
Definition keys_normal (d : gmap string VirtualFile) : Prop :=
  ∀ k, is_Some (d !! k) → normal_key k.

(** What every entry of the index of [n] looks like: its key does not
    begin with a separator, it carries its key, and its path on the disk is
    the mount path joined with the key. *)
Definition index_ok (n : StorageVirtualNode) : Prop :=
  ∀ k f, files n !! k = Some f →
    pystr.startswith k "/" = false
    ∧ file_id f = k
    ∧ path f = posixpath.join (disk_path n) k.

(** ** The timed transfer of [Multi_VM_P2P.py] *)

Module transfer.

Import PrimFloat.

(** A Mininet host as [transfer_file] uses it: its [name], the address
    [IP()] returns, and the commands run on it through the network. *)
Record vm := VM {
  name : string;
  IP : string
}.

Inductive exn :=
| HostError (text : string)   (* an exception raised under [host.cmd] *)
| OverflowError.              (* int too large to convert to float *)

(** What [transfer_file] returns: the int [-1], or a float. *)
Inductive value :=
| Minus1
| Seconds (transfer_duration : float).

(** [float(n)] for an int: correctly rounded, and an [OverflowError] where
    the rounded value is out of range. *)
Definition float_of_int (n : Z) : option float :=
  match SpecFloat.binary_normalize FloatOps.prec FloatOps.emax n 0 false with
  | SpecFloat.S754_infinity _ => None
  | x => Some (FloatOps.SF2Prim x)
  end.

(** What [transfer_file] prints; times are kept as the floats the source
    formats. *)
Inductive msg :=
| Starting (source ip dest : string)
                     (* *** Starting file transfer from {} ({}) to {} *** *)
| StartedAt (start_time : float)           (* Transfer started at: {} *)
| Creating (file_size_mb : Z) (source path : string)
                                     (* Creating {}MB file on {} at {}... *)
| StartingServer (source : string)        (* Starting web server on {}... *)
| Downloading (dest path : string)    (* Downloading file to {} at {}... *)
| TransferFailed (wget_output : string)
                        (* Error: File transfer failed. wget output: {} *)
| StoppingServer (source : string)        (* Stopping web server on {}... *)
| NotFound (path : string)     (* Error: Transferred file not found at {} *)
| ErrorDuring (e : exn)                (* Error during file transfer: {e} *)
| EndedAt (end_time : float)                 (* Transfer ended at:   {} *)
| TotalDuration (transfer_duration : float)
                                     (* Total duration:      {:.2f} seconds *)
| Throughput (throughput_mbps : option float)
        (* Achieved throughput: {:.2f} Mb/s (Link speed: 100 Mb/s); [None] is the int 0 *)
| Completed (source dest : string).
                           (* *** File transfer from {} to {} completed. *** *)

(** The hosts and the clock: a command runs on one host and may change
    what the others see; [time.time()] reads the clock and
    [time.sleep(n)] lets time pass. *)
Class Network (N : Type) := {
  cmd : N → vm → string → cmd_result * N;
  time : N → float * N;
  sleep : N → Z → N
}.

Record state (N : Type) := State {
  net : N;
  printed : list msg
}.
Arguments State {N}.
Arguments net {N}.
Arguments printed {N}.

Inductive res (A : Type) :=
| Ret (a : A)
| Exc (e : exn).
Arguments Ret {A}.
Arguments Exc {A}.

Definition T (N A : Type) : Type := state N → res A * state N.

#[global] Instance T_ret {N} : MRet (T N) := λ A a s, (Ret a, s).
#[global] Instance T_bind {N} : MBind (T N) := λ A B f m s,
  match m s with
  | (Ret a, s') => f a s'
  | (Exc e, s') => (Exc e, s')
  end.

Section Transfer.
Context {N : Type} `{Network N}.

Definition print (m : msg) : T N unit :=
  λ s, (Ret tt, State (net s) (printed s ++ [m])).

Definition raise {A} (e : exn) : T N A := λ s, (Exc e, s).

(** [host.cmd(c)]. *)
Definition host_cmd (host : vm) (c : string) : T N string := λ s,
  match cmd (net s) host c with
  | (Output text, n') => (Ret text, State n' (printed s))
  | (Raised text, n') => (Exc (HostError text), State n' (printed s))
  end.

Definition time_time : T N float := λ s,
  let '(t, n') := time (net s) in (Ret t, State n' (printed s)).

Definition time_sleep (seconds : Z) : T N unit := λ s,
  (Ret tt, State (sleep (net s) seconds) (printed s)).

(** [try: body  except Exception as e: handler]. *)
Definition try_except {A} (body : T N A) (handler : exn → T N A) : T N A := λ s,
  match body s with
  | (Ret a, s') => (Ret a, s')
  | (Exc e, s') => handler e s'
  end.

(** [transfer_file]. Inside the [try], [Some v] is [return v] and [None]
    is reaching the end of the block. *)
Definition transfer_file (source_vm dest_vm : vm)
    (source_disk_path dest_disk_path : string) (file_size_mb : Z) : T N value :=
  let file_name := "transfer_test.dat" in
  let source_file_path := source_disk_path +:+ "/" +:+ file_name in
  let dest_file_path := dest_disk_path +:+ "/received_" +:+ file_name in
  let source_ip := IP source_vm in
  print (Starting (name source_vm) source_ip (name dest_vm));;
  start_time ← time_time;
  print (StartedAt start_time);;
  returned ←
    try_except
      (print (Creating file_size_mb (name source_vm) source_file_path);;
       host_cmd source_vm
         ("truncate -s " +:+ pystr.of_int file_size_mb +:+ "M " +:+ source_file_path);;
       print (StartingServer (name source_vm));;
       host_cmd source_vm
         ("python3 -m http.server 80 --directory " +:+ source_disk_path +:+ " &");;
       time_sleep 1;;
       print (Downloading (name dest_vm) dest_file_path);;
       wget_output ← host_cmd dest_vm
         ("wget http://" +:+ source_ip +:+ "/" +:+ file_name +:+ " -O " +:+ dest_file_path);
       if negb (pystr.contains "saved" (pystr.lower wget_output)) then
         print (TransferFailed wget_output);;
         mret (Some Minus1)
       else
         print (StoppingServer (name source_vm));;
         host_cmd source_vm "pkill -f http.server";;
         ls_output ← host_cmd dest_vm ("ls " +:+ dest_file_path);
         if negb (pystr.contains file_name ls_output) then
           print (NotFound dest_file_path);;
           mret (Some Minus1)
         else mret None)
      (λ e,
         print (ErrorDuring e);;
         host_cmd source_vm "pkill -f http.server";;
         mret (Some Minus1));
  match returned with
  | Some v => mret v
  | None =>
      end_time ← time_time;
      let transfer_duration := (end_time - start_time)%float in
      let file_size_bits := (file_size_mb * 1024 * 1024 * 8)%Z in
      throughput_mbps ←
        (if (0 <? transfer_duration)%float then
           match float_of_int file_size_bits with
           | Some bits => mret (Some (bits / transfer_duration / 1000000)%float)
           | None => raise OverflowError
           end
         else mret None);
      print (EndedAt end_time);;
      print (TotalDuration transfer_duration);;
      print (Throughput throughput_mbps);;
      print (Completed (name source_vm) (name dest_vm));;
      mret (Seconds transfer_duration)
  end.

End Transfer.

(** *** A network that keeps a record

    Every network can be run under a recorder, which notes each command
    with the host it ran on and what came of it, and changes nothing. *)

Record recorded (N : Type) := Recorded {
  inner : N;
  log : list (vm * string * cmd_result)
}.
Arguments Recorded {N}.
Arguments inner {N}.
Arguments log {N}.

#[global] Instance recorded_network {N} `{Network N} : Network (recorded N) := {
  cmd r host c :=
    let '(answer, n') := cmd (inner r) host c in
    (answer, Recorded n' (log r ++ [(host, c, answer)]));
  time r := let '(t, n') := time (inner r) in (t, Recorded n' (log r));
  sleep r seconds := Recorded (sleep (inner r) seconds) (log r)
}.

(** *** A scripted network

    It answers the commands from a list, in turn, and reads the clock from
    another; when a list is used up the answer is empty and the clock
    stands at 0. *)

Record script := Script {
  answers : list cmd_result;
  clock : list float
}.

#[global] Instance script_network : Network script := {
  cmd s host c :=
    match answers s with
    | [] => (Output "", s)
    | a :: rest => (a, Script rest (clock s))
    end;
  time s :=
    match clock s with
    | [] => (0%float, s)
    | t :: rest => (t, Script (answers s) rest)
    end;
  sleep s seconds := s
}.

(** The commands [transfer_file] sends. *)
Definition file_name : string := "transfer_test.dat".

Definition truncate_command (source_disk_path : string) (file_size_mb : Z) : string :=
  "truncate -s " +:+ pystr.of_int file_size_mb +:+ "M " +:+ source_disk_path
    +:+ "/" +:+ file_name.

Definition server_command (source_disk_path : string) : string :=
  "python3 -m http.server 80 --directory " +:+ source_disk_path +:+ " &".

Definition dest_file_path (dest_disk_path : string) : string :=
  dest_disk_path +:+ "/received_" +:+ file_name.

Definition wget_command (source_ip dest_disk_path : string) : string :=
  "wget http://" +:+ source_ip +:+ "/" +:+ file_name +:+ " -O "
    +:+ dest_file_path dest_disk_path.

Definition pkill_command : string := "pkill -f http.server".

Definition ls_command (dest_disk_path : string) : string :=
  "ls " +:+ dest_file_path dest_disk_path.

(** The command was answered, not interrupted by an exception. *)
Definition answered (e : vm * string * cmd_result) : Prop := ∃ text, e.2 = Output text.

(** The two hosts of [MultiVMTopo]. *)
Definition vm1 : vm := VM "vm1" "192.168.1.1".
Definition vm2 : vm := VM "vm2" "192.168.1.2".

(** A network on which every command is answered, [wget] reports the
    download and [ls] reports that the file is not there. *)
Definition missing_file : script :=
  Script [Output ""; Output ""; Output "saved"; Output "";
          Output "ls: cannot access '/mnt/vm2_disk/received_transfer_test.dat': No such file or directory"]
         [100%float; 101.5%float].

(** A run of [transfer_file] under the recorder, from an empty record. *)
Definition observe {N} `{Network N} (source_vm dest_vm : vm)
    (source_disk_path dest_disk_path : string) (file_size_mb : Z) (n : N)
  : res value * state (recorded N) :=
  transfer_file source_vm dest_vm source_disk_path dest_disk_path file_size_mb
                (State (Recorded n []) []).

End transfer.

(** * Properties *)

(** ** Running method bodies symbolically *)

Ltac unfold_m :=
  unfold _resolve_path, mbind, M_bind, mret, M_ret, get_self, modify_self, print,
    os_getcwd, raise, try_except, host_cmd in *;
  cbn [self host printed getcwd fst snd] in *.

(** ** The library functions on examples *)

Example normpath_up : posixpath.normpath "/x/y/.." = "/x".
Proof. reflexivity. Qed.
Example normpath_two : posixpath.normpath "//foo" = "//foo".
Proof. reflexivity. Qed.
Example normpath_three : posixpath.normpath "///foo/" = "/foo".
Proof. reflexivity. Qed.
Example normpath_rel : posixpath.normpath "a/./b/../c" = "a/c".
Proof. reflexivity. Qed.
Example normpath_rel_up : posixpath.normpath "../a/.." = "..".
Proof. reflexivity. Qed.
Example split_nested : posixpath.split "a/b/c.txt" = ("a/b", "c.txt").
Proof. reflexivity. Qed.
Example split_top : posixpath.split "c.txt" = ("", "c.txt").
Proof. reflexivity. Qed.
Example split_root : posixpath.split "//c" = ("//", "c").
Proof. reflexivity. Qed.
Example relpath_below : posixpath.relpath "/home" "/mnt/d/a/b" "/mnt/d" = Some "a/b".
Proof. reflexivity. Qed.
Example relpath_self : posixpath.relpath "/home" "/mnt/d/" "/mnt/d" = Some ".".
Proof. reflexivity. Qed.
Example to_int_ok : pystr.to_int "4096" = Some 4096%Z.
Proof. reflexivity. Qed.
Example to_int_bad : pystr.to_int "40a" = None.
Proof. reflexivity. Qed.
Example of_int_neg : pystr.of_int (-12) = "-12".
Proof. reflexivity. Qed.
Example of_int_zero : pystr.of_int 0 = "0".
Proof. reflexivity. Qed.
Example split_ws : pystr.split_ws_max1 "4096 regular empty file" = ["4096"; "regular empty file"].
Proof. reflexivity. Qed.
Example split_lines : pystr.split_crlf ("/m/a" +:+ crlf +:+ "/m/b") = ["/m/a"; "/m/b"].
Proof. reflexivity. Qed.

(** ** Lifecycle *)

Section Lifecycle.
Context {H : Type} `{Host H}.

Lemma start_running (w : world H) :
  is_running (self w) = true →
  start w = (Ret false, World (self w) (host w) (printed w ++ [AlreadyRunning]) (getcwd w)).
Proof. intros Hrun. unfold start. unfold_m. by rewrite Hrun. Qed.

Lemma stop_stopped (w : world H) :
  is_running (self w) = false →
  stop w = (Ret false, World (self w) (host w) (printed w ++ [NotRunning]) (getcwd w)).
Proof. intros Hrun. unfold stop. unfold_m. by rewrite Hrun. Qed.

Lemma stop_answers (w : world H) o1 h1 o2 h2 :
  is_running (self w) = true →
  cmd (host w) ("sudo umount -l " +:+ disk_path (self w)) = (Output o1, h1) →
  cmd h1 ("rmdir " +:+ disk_path (self w)) = (Output o2, h2) →
  stop w = (Ret true,
            World (stopped_node (self w)) h2
                  (printed w ++ [Unmounting (disk_path (self w))]
                     ++ [Stopped (image_path (self w))])
                  (getcwd w)).
Proof.
  intros Hrun H1 H2. unfold stop. unfold_m. rewrite Hrun. cbn.
  rewrite H1. cbn. rewrite H2. cbn. by rewrite <- app_assoc.
Qed.

Lemma stop_true (w w' : world H) :
  stop w = (Ret true, w') → self w' = stopped_node (self w).
Proof.
  unfold stop. unfold_m. destruct (is_running (self w)); cbn; [| congruence].
  destruct (cmd (host w) _) as [[o1 | e1] h1]; cbn; [| congruence].
  destruct (cmd h1 _) as [[o2 | e2] h2]; cbn; [| congruence].
  by intros [= <-].
Qed.

End Lifecycle.

(** ** Creating files and folders *)

Section Creation.
Context {H : Type} `{Host H}.
Implicit Types (w : world H) (key : string) (size : Z) (content : option string).

Lemma create_file_stopped w key size content :
  is_running (self w) = false →
  fails_with (create_virtual_file key size content) w [FileNotRunning].
Proof. intros Hrun. unfold fails_with, create_virtual_file. unfold_m. by rewrite Hrun. Qed.

Lemma create_file_over_quota w key size content :
  is_running (self w) = true →
  (used_storage (self w) + size > total_storage (self w))%Z →
  fails_with (create_virtual_file key size content) w
    [InsufficientStorage size (total_storage (self w) - used_storage (self w))].
Proof.
  intros Hrun Hq. unfold fails_with, create_virtual_file. unfold_m. rewrite Hrun. cbn.
  destruct (Z.ltb_spec (total_storage (self w)) (used_storage (self w) + size)); [done | lia].
Qed.

Lemma create_file_no_parent w key size content :
  is_running (self w) = true →
  (used_storage (self w) + size ≤ total_storage (self w))%Z →
  parent_missing (files (self w)) key = true →
  fails_with (create_virtual_file key size content) w
    (warning (files (self w)) key ++ [FileNoSuchParent key]).
Proof.
  intros Hrun Hq Hp. unfold fails_with, create_virtual_file, warning. unfold_m.
  rewrite Hrun. cbn.
  destruct (Z.ltb_spec (total_storage (self w)) (used_storage (self w) + size)); [lia |].
  destruct (files (self w) !! key) as [old |]; cbn; rewrite Hp; cbn.
  - by rewrite <- app_assoc.
  - done.
Qed.

Lemma create_file_ok w key size content out h' :
  is_running (self w) = true →
  (used_storage (self w) + size ≤ total_storage (self w))%Z →
  parent_missing (files (self w)) key = false →
  cmd (host w) (truncate_command (self w) key size) = (Output out, h') →
  create_virtual_file key size content w =
    (Ret (Some (new_file (self w) key size content)),
     World (with_file (self w) key size content) h'
           (printed w ++ warning (files (self w)) key ++ [CreatedFile key size])
           (getcwd w)).
Proof.
  intros Hrun Hq Hp Hc. unfold create_virtual_file, warning, with_file, original_size.
  unfold truncate_command in Hc. unfold_m. rewrite Hrun. cbn.
  destruct (Z.ltb_spec (total_storage (self w)) (used_storage (self w) + size)); [lia |].
  destruct (files (self w) !! key) as [old |]; cbn; rewrite Hp; cbn; rewrite Hc; cbn.
  - by rewrite <- app_assoc.
  - done.
Qed.

Lemma create_file_raises w key size content text h' :
  is_running (self w) = true →
  (used_storage (self w) + size ≤ total_storage (self w))%Z →
  parent_missing (files (self w)) key = false →
  cmd (host w) (truncate_command (self w) key size) = (Raised text, h') →
  create_virtual_file key size content w =
    (Ret None,
     World (self w) h'
           (printed w ++ warning (files (self w)) key ++ [FileError key (HostError text)])
           (getcwd w)).
Proof.
  intros Hrun Hq Hp Hc. unfold create_virtual_file, warning.
  unfold truncate_command in Hc. unfold_m. rewrite Hrun. cbn.
  destruct (Z.ltb_spec (total_storage (self w)) (used_storage (self w) + size)); [lia |].
  destruct (files (self w) !! key) as [old |]; cbn; rewrite Hp; cbn; rewrite Hc; cbn.
  - by rewrite <- app_assoc.
  - done.
Qed.

Lemma create_folder_stopped w key :
  is_running (self w) = false →
  fails_with (create_virtual_folder key) w [FolderNotRunning].
Proof. intros Hrun. unfold fails_with, create_virtual_folder. unfold_m. by rewrite Hrun. Qed.

Lemma create_folder_exists w key :
  is_running (self w) = true →
  is_Some (files (self w) !! key) →
  fails_with (create_virtual_folder key) w [FolderExists key].
Proof.
  intros Hrun Hk. unfold fails_with, create_virtual_folder. unfold_m. rewrite Hrun. cbn.
  by rewrite bool_decide_eq_true_2.
Qed.

Lemma create_folder_no_parent w key :
  is_running (self w) = true →
  files (self w) !! key = None →
  parent_missing (files (self w)) key = true →
  fails_with (create_virtual_folder key) w [FolderNoSuchParent key].
Proof.
  intros Hrun Hk Hp. unfold fails_with, create_virtual_folder. unfold_m. rewrite Hrun. cbn.
  rewrite bool_decide_eq_false_2; [| rewrite Hk; by intros [? ?]].
  by rewrite Hp.
Qed.

Lemma create_folder_ok w key out h' :
  is_running (self w) = true →
  files (self w) !! key = None →
  parent_missing (files (self w)) key = false →
  cmd (host w) (mkdir_command (self w) key) = (Output out, h') →
  create_virtual_folder key w =
    (Ret (Some (new_folder (self w) key)),
     World (with_folder (self w) key) h' (printed w ++ [CreatedFolder key]) (getcwd w)).
Proof.
  intros Hrun Hk Hp Hc. unfold create_virtual_folder, with_folder.
  unfold mkdir_command in Hc. unfold_m. rewrite Hrun. cbn.
  rewrite bool_decide_eq_false_2; [| rewrite Hk; by intros [? ?]].
  rewrite Hp. cbn. by rewrite Hc.
Qed.

Lemma create_folder_raises w key text h' :
  is_running (self w) = true →
  files (self w) !! key = None →
  parent_missing (files (self w)) key = false →
  cmd (host w) (mkdir_command (self w) key) = (Raised text, h') →
  create_virtual_folder key w =
    (Ret None,
     World (self w) h' (printed w ++ [FolderError key (HostError text)]) (getcwd w)).
Proof.
  intros Hrun Hk Hp Hc. unfold create_virtual_folder.
  unfold mkdir_command in Hc. unfold_m. rewrite Hrun. cbn.
  rewrite bool_decide_eq_false_2; [| rewrite Hk; by intros [? ?]].
  rewrite Hp. cbn. by rewrite Hc.
Qed.

Lemma create_file_under_quota_says w key size content :
  is_running (self w) = true →
  (used_storage (self w) + size ≤ total_storage (self w))%Z →
  ∃ (r : option VirtualFile) (h' : H) (last : msg),
    create_virtual_file key size content w =
      (Ret r, World (match r with
                    | Some _ => with_file (self w) key size content
                    | None => self w
                    end) h'
                    (printed w ++ warning (files (self w)) key ++ [last]) (getcwd w))
    ∧ last ≠ InsufficientStorage size (total_storage (self w) - used_storage (self w)).
Proof.
  intros Hrun Hq.
  destruct (parent_missing (files (self w)) key) eqn:Hp.
  - exists None, (host w), (FileNoSuchParent key). split; [| done].
    by apply create_file_no_parent.
  - destruct (cmd (host w) (truncate_command (self w) key size)) as [[out | text] h'] eqn:Hc.
    + exists (Some (new_file (self w) key size content)), h', (CreatedFile key size).
      split; [| done]. by eapply create_file_ok.
    + exists None, h', (FileError key (HostError text)).
      split; [| done]. by eapply create_file_raises.
Qed.

Lemma create_folder_some w key vf w1 :
  create_virtual_folder key w = (Ret (Some vf), w1) →
  is_running (self w) = true
  ∧ files (self w) !! key = None
  ∧ ∃ h', w1 = World (with_folder (self w) key) h' (printed w ++ [CreatedFolder key])
                     (getcwd w).
Proof.
  intros Hc.
  destruct (is_running (self w)) eqn:Hrun;
    [| rewrite (create_folder_stopped w key Hrun) in Hc; congruence].
  destruct (files (self w) !! key) as [old |] eqn:Hk;
    [rewrite (create_folder_exists w key Hrun) in Hc; [congruence | by rewrite Hk] |].
  destruct (parent_missing (files (self w)) key) eqn:Hp;
    [rewrite (create_folder_no_parent w key Hrun Hk Hp) in Hc; congruence |].
  destruct (cmd (host w) (mkdir_command (self w) key)) as [[out | text] h'] eqn:Hm.
  - rewrite (create_folder_ok w key out h' Hrun Hk Hp Hm) in Hc.
    injection Hc as _ <-. eauto.
  - rewrite (create_folder_raises w key text h' Hrun Hk Hp Hm) in Hc. congruence.
Qed.

Lemma parent_of_a_b (d : gmap string VirtualFile) :
  parent_missing d "a/b.txt" = negb (indexed_folder d "a").
Proof.
  unfold parent_missing, indexed_folder.
  change (posixpath.split "a/b.txt") with ("a", "b.txt"). cbn.
  by destruct (d !! "a").
Qed.

End Creation.

(** ** Path resolution *)

Lemma startswith_char (c : ascii) (s : string) :
  pystr.startswith s (String c EmptyString) = true ↔ ∃ r, s = String c r.
Proof.
  destruct s as [| a r]; cbn [pystr.startswith].
  - split; [done | by intros [? ?]].
  - rewrite andb_true_r. destruct (Ascii.eqb_spec a c) as [-> | Hne].
    + split; eauto.
    + split; [done | intros [? [= ? _]]; done].
Qed.

Lemma startswith_slash (s : string) :
  pystr.startswith s "/" = true ↔ ∃ r, s = String "/" r.
Proof. apply startswith_char. Qed.

Lemma startswith_tilde (s : string) :
  pystr.startswith s "~" = true ↔ ∃ r, s = String "~" r.
Proof. apply startswith_char. Qed.

Lemma initial_slashes_cases (r : string) :
  posixpath.initial_slashes (String "/" r) = 1 ∨ posixpath.initial_slashes (String "/" r) = 2.
Proof.
  unfold posixpath.initial_slashes.
  replace (pystr.startswith (String "/" r) "/") with true
    by (symmetry; apply startswith_slash; eauto).
  destruct (_ && _); auto.
Qed.


(** ** Accounting of the used storage *)

Lemma file_bytes_insert_fresh (d : gmap string VirtualFile) k v :
  d !! k = None → file_bytes (<[k := v]> d) = (file_bytes d + weight v)%Z.
Proof.
  intros Hk. unfold file_bytes. rewrite map_fold_insert_L; [| | done].
  - unfold weight. destruct (is_folder v); lia.
  - intros j1 j2 z1 z2 y _ _ _. destruct (is_folder z1), (is_folder z2); lia.
Qed.

Lemma file_bytes_insert (d : gmap string VirtualFile) k v :
  file_bytes (<[k := v]> d)
  = (file_bytes d - match d !! k with Some old => weight old | None => 0 end + weight v)%Z.
Proof.
  destruct (d !! k) as [old |] eqn:Hk.
  - rewrite <- (insert_delete_eq d k v).
    rewrite <- (insert_delete_id d k old Hk) at 2.
    rewrite !file_bytes_insert_fresh by apply lookup_delete_eq. lia.
  - rewrite file_bytes_insert_fresh by done. lia.
Qed.

Lemma weightless_insert (d : gmap string VirtualFile) k v :
  weightless d → (is_folder v = true → data.size_bytes v = 0%Z) → weightless (<[k := v]> d).
Proof. intros Hd Hv. by apply map_Forall_insert_2. Qed.

Section Accounting.
Context {H : Type} `{Host H}.
Implicit Types (w : world H) (key : string) (size : Z) (content : option string).

Lemma create_file_self w key size content :
  self (create_virtual_file key size content w).2 = self w
  ∨ self (create_virtual_file key size content w).2 = with_file (self w) key size content.
Proof.
  destruct (is_running (self w)) eqn:Hrun;
    [| left; by rewrite (create_file_stopped w key size content Hrun)].
  destruct (Z_le_gt_dec (used_storage (self w) + size) (total_storage (self w)))
    as [Hq | Hq]; [| left; by rewrite (create_file_over_quota w key size content Hrun Hq)].
  destruct (create_file_under_quota_says w key size content Hrun Hq)
    as (r & h' & last & -> & _).
  destruct r; cbn; auto.
Qed.

Lemma create_folder_self w key :
  self (create_virtual_folder key w).2 = self w
  ∨ files (self w) !! key = None
    ∧ self (create_virtual_folder key w).2 = with_folder (self w) key.
Proof.
  destruct (is_running (self w)) eqn:Hrun;
    [| left; by rewrite (create_folder_stopped w key Hrun)].
  destruct (files (self w) !! key) as [old |] eqn:Hk;
    [left; rewrite (create_folder_exists w key Hrun); [done | by rewrite Hk] |].
  destruct (parent_missing (files (self w)) key) eqn:Hp;
    [left; by rewrite (create_folder_no_parent w key Hrun Hk Hp) |].
  destruct (cmd (host w) (mkdir_command (self w) key)) as [[out | text] h'] eqn:Hm.
  - right. by rewrite (create_folder_ok w key out h' Hrun Hk Hp Hm).
  - left. by rewrite (create_folder_raises w key text h' Hrun Hk Hp Hm).
Qed.

(** [create_virtual_folder] never changes [used_storage]. *)
Lemma create_folder_used w key :
  used_storage (self (create_virtual_folder key w).2) = used_storage (self w).
Proof. by destruct (create_folder_self w key) as [-> | [_ ->]]. Qed.

(** While every indexed folder has size 0, creating entries keeps
    [used_storage] equal to the total size of the indexed files. *)
Lemma create_keeps_accounted (c : call) w :
  creates c →
  accounted (self w) → weightless (files (self w)) →
  accounted (self (invoke c w)) ∧ weightless (files (self (invoke c w))).
Proof.
  intros Hc Hacc Hwl. destruct c as [| | | key size content | key |]; try done; cbn.
  - destruct (create_file_self w key size content) as [-> | ->]; [done |].
    split; [| by apply weightless_insert].
    unfold accounted, with_file, original_size in *. cbn.
    rewrite file_bytes_insert, <- Hacc. unfold weight at 2. cbn.
    destruct (files (self w) !! key) as [old |] eqn:Hk; [| lia].
    unfold weight. destruct (is_folder old) eqn:Hf; [| lia].
    rewrite (Hwl key old Hk Hf). lia.
  - destruct (create_folder_self w key) as [-> | [Hk ->]]; [done |].
    split; [| by apply weightless_insert].
    unfold accounted, with_folder in *. cbn.
    rewrite file_bytes_insert, Hk, <- Hacc. unfold weight. cbn. lia.
Qed.

Lemma run_keeps_accounted (cs : list call) w :
  Forall creates cs →
  accounted (self w) → weightless (files (self w)) →
  accounted (self (run cs w)) ∧ weightless (files (self (run cs w))).
Proof.
  intros Hcs. revert w. induction Hcs as [| c cs Hc _ IH]; intros w Hacc Hwl; [done |].
  cbn. destruct (create_keeps_accounted c w Hc Hacc Hwl). by apply IH.
Qed.

Lemma reachable_run (cs : list call) w : reachable w → reachable (run cs w).
Proof.
  revert w. induction cs as [| c cs IH]; intros w Hw; [done |].
  cbn. apply IH. by constructor.
Qed.

End Accounting.

(** ** Normalization under the root *)

Lemma split_pieces (sep : ascii) (s : string) :
  Forall (λ c, pystr.split sep c = [c]) (pystr.split sep s).
Proof.
  induction s as [| a r IH]; cbn; [by constructor |].
  destruct (Ascii.eqb a sep) eqn:Ha; [by constructor |].
  destruct (pystr.split sep r) as [| w ws]; cbn.
  - constructor; [| done]. cbn. by rewrite Ha.
  - inversion_clear IH as [| ? ? Hw Hws]. constructor; [| done].
    cbn. by rewrite Ha, Hw.
Qed.

Lemma stack_cases {A} (s : list A) : s = [] ∨ ∃ s' x, s = s' ++ [x].
Proof. induction s using rev_ind; eauto. Qed.


Section Walk.
Variable k : nat.
Hypothesis rooted : k ≠ 0.

(** Under a root the loop of [normpath] is a stack machine: it skips the
    empty component and [.], pops for [..], and pushes a name. *)
Lemma norm_step_rooted (s : list string) (comp : string) :
  Forall name s →
  posixpath.norm_step k s comp
  = if (comp =? "") || (comp =? ".") then s
    else if comp =? ".." then removelast s
    else s ++ [comp].
Proof.
  intros Hs. unfold posixpath.norm_step.
  destruct ((comp =? "") || (comp =? ".")); [done |].
  destruct (String.eqb_spec comp "..") as [-> | Hne]; [| done].
  replace (Nat.eqb k 0) with false by (symmetry; by apply Nat.eqb_neq).
  cbn [negb orb andb].
  destruct (stack_cases s) as [-> | (s' & x & ->)]; [done |].
  rewrite bool_decide_eq_false_2 by (by destruct s').
  cbn [negb andb]. rewrite last_last, removelast_last.
  apply Forall_app in Hs as [_ Hx]. inversion_clear Hx as [| ? ? (_ & _ & Hup & _) _].
  by destruct (String.eqb_spec x "..").
Qed.

Lemma norm_step_names (s : list string) (comp : string) :
  Forall name s → pystr.split "/"%char comp = [comp] →
  Forall name (posixpath.norm_step k s comp).
Proof.
  intros Hs Hc. rewrite norm_step_rooted by done.
  destruct (String.eqb_spec comp "") as [| He]; [done |].
  destruct (String.eqb_spec comp ".") as [| Hd]; [done |].
  destruct (String.eqb_spec comp "..") as [| Hu]; cbn [orb].
  - destruct (stack_cases s) as [-> | (s' & x & ->)]; [done |].
    rewrite removelast_last. by apply Forall_app in Hs as [? _].
  - apply Forall_app. split; [done |]. by repeat constructor.
Qed.

Lemma walk_names (cs s : list string) :
  Forall name s → Forall (λ c, pystr.split "/"%char c = [c]) cs →
  Forall name (fold_left (posixpath.norm_step k) cs s).
Proof.
  intros Hs Hcs. revert s Hs. induction Hcs as [| c cs Hc _ IH]; intros s Hs; [done |].
  cbn. apply IH. by apply norm_step_names.
Qed.



End Walk.

Lemma normpath_rooted (r : string) :
  posixpath.normpath (String "/" r)
  = pystr.times "/"%char (posixpath.initial_slashes (String "/" r))
      +:+ pystr.join "/"
            (fold_left (posixpath.norm_step (posixpath.initial_slashes (String "/" r)))
                       (pystr.split "/"%char r) []).
Proof.
  unfold posixpath.normpath.
  change (String "/" r =? "") with false. cbv iota.
  change (pystr.split "/"%char (String "/" r)) with ("" :: pystr.split "/"%char r).
  cbn [fold_left].
  change (posixpath.norm_step (posixpath.initial_slashes (String "/" r)) [] "")
    with (@nil string).
  by destruct (initial_slashes_cases r) as [-> | ->].
Qed.

Lemma initial_slashes_single (p : string) :
  pystr.startswith p "/" = false → posixpath.initial_slashes (String "/" p) = 1.
Proof.
  intros Hp. unfold posixpath.initial_slashes.
  change (pystr.startswith (String "/" p) "/") with true.
  change (pystr.startswith (String "/" p) "//") with (true && pystr.startswith p "/").
  by rewrite Hp.
Qed.



(** ** Listing *)

Lemma compare_not_gt_trans (a b c : string) :
  String.compare a b ≠ Gt → String.compare b c ≠ Gt → String.compare a c ≠ Gt.
Proof.
  revert b c. induction a as [| x a IH]; intros [| y b] [| z c]; cbn; try done.
  unfold Ascii.compare.
  destruct (N.compare_spec (N_of_ascii x) (N_of_ascii y)),
           (N.compare_spec (N_of_ascii y) (N_of_ascii z)),
           (N.compare_spec (N_of_ascii x) (N_of_ascii z));
    try done; try lia.
  apply IH.
Qed.

Lemma leb_not_gt (a b : string) : String.leb a b = true ↔ String.compare a b ≠ Gt.
Proof. unfold String.leb. by destruct (String.compare a b). Qed.

#[global] Instance item_le_trans : Transitive item_le.
Proof.
  intros x y z. unfold item_le. rewrite !leb_not_gt. apply compare_not_gt_trans.
Qed.

#[global] Instance item_le_total : Total item_le.
Proof. intros x y. apply String.leb_total. Qed.

Lemma sorted_items_sorted (d : gmap string VirtualFile) :
  StronglySorted item_le (sorted_items d).
Proof. apply StronglySorted_merge_sort; apply _. Qed.

Lemma sorted_items_elem (d : gmap string VirtualFile) k f :
  (k, f) ∈ sorted_items d ↔ d !! k = Some f.
Proof.
  unfold sorted_items. rewrite merge_sort_Permutation. apply elem_of_map_to_list.
Qed.

Lemma sorted_items_keys (d : gmap string VirtualFile) : NoDup (sorted_items d).*1.
Proof.
  unfold sorted_items. rewrite merge_sort_Permutation. apply NoDup_fst_map_to_list.
Qed.

Lemma filter_sorted {A} (R : relation A) (p : A → bool) (l : list A) :
  StronglySorted R l → StronglySorted R (List.filter p l).
Proof.
  induction 1 as [| x l _ IH Hx]; cbn; [constructor |].
  destruct (p x); [| done]. constructor; [done |].
  apply Forall_forall. intros y Hy%list_elem_of_In%filter_In.
  rewrite Forall_forall in Hx. apply Hx. apply list_elem_of_In. tauto.
Qed.

Lemma filter_keys {A B} (p : A * B → bool) (l : list (A * B)) :
  NoDup l.*1 → NoDup (List.filter p l).*1.
Proof.
  induction l as [| x l IH]; cbn; [done |].
  rewrite NoDup_cons. intros [Hx Hl]. destruct (p x); cbn; [| auto].
  apply NoDup_cons. split; [| auto].
  intros Hin. apply Hx.
  apply list_elem_of_fmap in Hin as (y & -> & Hy).
  apply list_elem_of_fmap. exists y. split; [done |].
  apply list_elem_of_In. apply list_elem_of_In, filter_In in Hy. tauto.
Qed.

Lemma target_dir_lstrip (n : StorageVirtualNode) :
  target_dir n = pystr.lstrip "/"%char (cwd n).
Proof. unfold target_dir. by destruct (String.eqb_spec (cwd n) "/") as [-> |]. Qed.

Lemma shown_elem (n : StorageVirtualNode) k f :
  (k, f) ∈ shown n
  ↔ files n !! k = Some f ∧ (posixpath.split k).1 = pystr.lstrip "/"%char (cwd n).
Proof.
  unfold shown, listed. rewrite list_elem_of_In, filter_In, <- list_elem_of_In.
  rewrite sorted_items_elem, target_dir_lstrip. cbn.
  by rewrite String.eqb_eq.
Qed.

(** ** Navigation *)

Section Navigation.
Context {H : Type} `{Host H}.
Implicit Types (w : world H) (path : string).

Lemma cd_root w path :
  resolve (cwd (self w)) path = "/" →
  change_directory path w
  = (Ret (true, "/"), World (set_cwd "/" (self w)) (host w) (printed w) (getcwd w)).
Proof. intros Ht. unfold change_directory. unfold_m. by rewrite Ht. Qed.

Lemma cd_folder w path :
  resolve (cwd (self w)) path ≠ "/" →
  indexed_folder (files (self w)) (pystr.lstrip "/"%char (resolve (cwd (self w)) path))
  = true →
  change_directory path w
  = (Ret (true, resolve (cwd (self w)) path),
     World (set_cwd (resolve (cwd (self w)) path) (self w)) (host w) (printed w)
           (getcwd w)).
Proof.
  intros Ht Hf. unfold change_directory. unfold_m.
  destruct (String.eqb_spec (resolve (cwd (self w)) path) "/"); [done |].
  unfold indexed_folder in Hf. by rewrite Hf.
Qed.

Lemma cd_missing w path :
  resolve (cwd (self w)) path ≠ "/" →
  indexed_folder (files (self w)) (pystr.lstrip "/"%char (resolve (cwd (self w)) path))
  = false →
  change_directory path w
  = (Ret (false, cwd (self w)),
     World (self w) (host w) (printed w ++ [NoSuchDirectory path]) (getcwd w)).
Proof.
  intros Ht Hf. unfold change_directory. unfold_m.
  destruct (String.eqb_spec (resolve (cwd (self w)) path) "/"); [done |].
  unfold indexed_folder in Hf. by rewrite Hf.
Qed.


End Navigation.

Lemma replace1_absolute (path : string) :
  (pystr.startswith path "/" || pystr.startswith path "~") = true →
  ∃ r, pystr.replace1 "~"%char "/"%char path = String "/" r.
Proof.
  intros [Hs | Hs]%orb_true_iff;
    [apply startswith_slash in Hs | apply startswith_tilde in Hs];
    destruct Hs as [r ->]; cbn; eauto.
Qed.

Section Claims.
Context {H : Type} `{Host H}.
Implicit Types (w : world H) (key : string) (size : Z) (content : option string).

(** C1: on a running node [create_virtual_file] is rejected for lack of
    storage exactly when [used_storage + size_bytes > total_storage]; the
    test looks at the requested size alone, also when the key is already
    indexed and the overwrite would fit; a request of exactly the free
    space passes the test, and creates the entry once the parent test
    passes and the command does not raise; one more byte is rejected; a
    rejected request leaves the node as it was. *)
Theorem quota_enforcement w key size content :
  is_running (self w) = true →
  (fails_with (create_virtual_file key size content) w
     [InsufficientStorage size (total_storage (self w) - used_storage (self w))]
   ↔ (used_storage (self w) + size > total_storage (self w))%Z)
  ∧ (∀ old, files (self w) !! key = Some old →
       (used_storage (self w) - data.size_bytes old + size ≤ total_storage (self w))%Z →
       (used_storage (self w) + size > total_storage (self w))%Z →
       fails_with (create_virtual_file key size content) w
         [InsufficientStorage size (total_storage (self w) - used_storage (self w))])
  ∧ (size = (total_storage (self w) - used_storage (self w))%Z →
       ¬ fails_with (create_virtual_file key size content) w
           [InsufficientStorage size (total_storage (self w) - used_storage (self w))]
       ∧ (parent_missing (files (self w)) key = false →
          ∀ out h', cmd (host w) (truncate_command (self w) key size) = (Output out, h') →
            create_virtual_file key size content w =
              (Ret (Some (new_file (self w) key size content)),
               World (with_file (self w) key size content) h'
                     (printed w ++ warning (files (self w)) key ++ [CreatedFile key size])
                     (getcwd w))))
  ∧ (size = (total_storage (self w) - used_storage (self w) + 1)%Z →
       fails_with (create_virtual_file key size content) w
         [InsufficientStorage size (total_storage (self w) - used_storage (self w))]
       ∧ self (create_virtual_file key size content w).2 = self w).
Proof.
  intros Hrun.
  assert (Hiff : fails_with (create_virtual_file key size content) w
     [InsufficientStorage size (total_storage (self w) - used_storage (self w))]
   ↔ (used_storage (self w) + size > total_storage (self w))%Z).
  { split; [| by apply create_file_over_quota].
    intros Hf.
    destruct (Z_le_gt_dec (used_storage (self w) + size) (total_storage (self w)))
      as [Hq | Hq]; [| done].
    destruct (create_file_under_quota_says w key size content Hrun Hq)
      as (r & h' & last & Hr & Hlast).
    unfold fails_with in Hf. rewrite Hr in Hf.
    injection Hf as _ _ _ Hpr. apply app_inv_head in Hpr.
    unfold warning in Hpr. destruct (files (self w) !! key); cbn in Hpr; congruence. }
  split; [exact Hiff |]. split; [| split].
  - intros old _ _ Hq. by apply Hiff.
  - intros ->. split.
    + rewrite Hiff. lia.
    + intros Hp out h' Hc. eapply create_file_ok; eauto. lia.
  - intros ->.
    assert (Hf : fails_with (create_virtual_file key
                   (total_storage (self w) - used_storage (self w) + 1) content) w
                   [InsufficientStorage (total_storage (self w) - used_storage (self w) + 1)
                      (total_storage (self w) - used_storage (self w))])
      by (apply Hiff; lia).
    split; [exact Hf |]. unfold fails_with in Hf. by rewrite Hf.
Qed.

(** C3, as amended: on a running node a key that is already indexed is
    no error for [create_virtual_file]: once the quota test passes the
    warning is printed, and when the parent test passes too and the
    command does not raise, the entry is overwritten and [used_storage]
    becomes [used_storage - previous size + new size]; whereas
    [create_virtual_folder] on an indexed key, file or folder, fails with
    "File exists" and leaves the node as it was. *)
Theorem collision_policy w key old size content :
  is_running (self w) = true →
  files (self w) !! key = Some old →
  ((used_storage (self w) + size ≤ total_storage (self w))%Z →
     ∃ rest, printed (create_virtual_file key size content w).2
             = printed w ++ Overwriting key :: rest)
  ∧ ((used_storage (self w) + size ≤ total_storage (self w))%Z →
     parent_missing (files (self w)) key = false →
     ∀ out h', cmd (host w) (truncate_command (self w) key size) = (Output out, h') →
       ∃ w', create_virtual_file key size content w
               = (Ret (Some (new_file (self w) key size content)), w')
             ∧ printed w' = printed w ++ [Overwriting key; CreatedFile key size]
             ∧ used_storage (self w')
               = (used_storage (self w) - data.size_bytes old + size)%Z
             ∧ files (self w') = <[key := new_file (self w) key size content]> (files (self w)))
  ∧ fails_with (create_virtual_folder key) w [FolderExists key].
Proof.
  intros Hrun Hk. split; [| split].
  - intros Hq.
    destruct (create_file_under_quota_says w key size content Hrun Hq)
      as (r & h' & last & Hr & _).
    rewrite Hr. cbn. unfold warning. rewrite Hk. by exists [last].
  - intros Hq Hp out h' Hc. eexists. split; [by eapply create_file_ok |].
    cbn. unfold warning, original_size. rewrite Hk. done.
  - apply create_folder_exists; [done | by rewrite Hk].
Qed.

(** C4, as amended: on a running node, when the parent component of the
    key is non-empty and is not indexed as a folder, both creation
    methods fail, create no entry and leave the node as it was; the
    failure is "No such file or directory" when the checks made before
    the parent test pass (the quota test for a file, the collision test
    for a folder), and the failure of the earlier check otherwise.
    Concretely, with 10 bytes free, creating a/b.txt of 10 bytes fails so
    while a is no folder entry, and after a successful creation of the
    folder a the same call succeeds if the command does not raise. *)
Theorem parent_must_exist w key size content :
  is_running (self w) = true →
  (parent_missing (files (self w)) key = true →
     (∃ said, fails_with (create_virtual_file key size content) w said)
     ∧ (∃ said, fails_with (create_virtual_folder key) w said)
     ∧ ((used_storage (self w) + size ≤ total_storage (self w))%Z →
        fails_with (create_virtual_file key size content) w
          (warning (files (self w)) key ++ [FileNoSuchParent key]))
     ∧ (files (self w) !! key = None →
        fails_with (create_virtual_folder key) w [FolderNoSuchParent key]))
  ∧ ((used_storage (self w) + 10 ≤ total_storage (self w))%Z →
     (indexed_folder (files (self w)) "a" = false →
        fails_with (create_virtual_file "a/b.txt" 10 content) w
          (warning (files (self w)) "a/b.txt" ++ [FileNoSuchParent "a/b.txt"]))
     ∧ (∀ vf w1, create_virtual_folder "a" w = (Ret (Some vf), w1) →
        ∀ out h', cmd (host w1) (truncate_command (self w1) "a/b.txt" 10) = (Output out, h') →
          create_virtual_file "a/b.txt" 10 content w1 =
            (Ret (Some (new_file (self w1) "a/b.txt" 10 content)),
             World (with_file (self w1) "a/b.txt" 10 content) h'
                   (printed w1 ++ warning (files (self w1)) "a/b.txt"
                      ++ [CreatedFile "a/b.txt" 10])
                   (getcwd w1)))).
Proof.
  intros Hrun. split.
  - intros Hp. split; [| split; [| split]].
    + destruct (Z_le_gt_dec (used_storage (self w) + size) (total_storage (self w))).
      * eexists. by apply create_file_no_parent.
      * eexists. by apply create_file_over_quota.
    + destruct (files (self w) !! key) as [old |] eqn:Hk.
      * eexists. apply create_folder_exists; [done | by rewrite Hk].
      * eexists. by apply create_folder_no_parent.
    + intros Hq. by apply create_file_no_parent.
    + intros Hk. by apply create_folder_no_parent.
  - intros Hq. split.
    + intros Ha. apply create_file_no_parent; [done | done |].
      by rewrite parent_of_a_b, Ha.
    + intros vf w1 Hmk out h' Hc.
      destruct (create_folder_some w "a" vf w1 Hmk) as (_ & _ & h1 & ->).
      eapply create_file_ok; [done | done | | exact Hc].
      rewrite parent_of_a_b. unfold indexed_folder. cbn.
      by rewrite lookup_insert_eq.
Qed.

(** C7: [start] on a running node and [stop] on a stopped node return
    [False] and change nothing; a [stop] that returns [True] leaves the
    node stopped, with [used_storage] 0 and an empty index, and with the
    image path and the mount path it had; [stop] on a running node does
    return [True] when the two commands it issues do not raise. *)
Theorem lifecycle_guards w :
  (is_running (self w) = true →
     start w = (Ret false,
                World (self w) (host w) (printed w ++ [AlreadyRunning]) (getcwd w)))
  ∧ (is_running (self w) = false →
     stop w = (Ret false, World (self w) (host w) (printed w ++ [NotRunning]) (getcwd w)))
  ∧ (∀ w', stop w = (Ret true, w') →
       is_running (self w') = false
       ∧ used_storage (self w') = 0%Z
       ∧ files (self w') = ∅
       ∧ image_path (self w') = image_path (self w)
       ∧ disk_path (self w') = disk_path (self w))
  ∧ (is_running (self w) = true →
     ∀ o1 h1 o2 h2,
       cmd (host w) ("sudo umount -l " +:+ disk_path (self w)) = (Output o1, h1) →
       cmd h1 ("rmdir " +:+ disk_path (self w)) = (Output o2, h2) →
       ∃ w', stop w = (Ret true, w')).
Proof.
  split; [apply start_running |]. split; [apply stop_stopped |]. split.
  - intros w' Hs. by rewrite (stop_true w w' Hs).
  - intros Hrun o1 h1 o2 h2 H1 H2. eexists. by eapply stop_answers.
Qed.

(** C5: [change_directory] resolves its argument; when the resolved
    path is the root it succeeds and the current directory becomes the
    root; otherwise it succeeds, and the current directory becomes the
    resolved path, exactly when the resolved path without its leading
    separators is indexed as a folder; in every other case it fails and
    leaves the node as it was. *)
Theorem change_directory_spec w path :
  let target := resolve (cwd (self w)) path in
  (target = "/" →
     change_directory path w
     = (Ret (true, "/"),
        World (set_cwd "/" (self w)) (host w) (printed w) (getcwd w)))
  ∧ (target ≠ "/" →
     indexed_folder (files (self w)) (pystr.lstrip "/"%char target) = true →
     change_directory path w
     = (Ret (true, target),
        World (set_cwd target (self w)) (host w) (printed w) (getcwd w)))
  ∧ (target ≠ "/" →
     indexed_folder (files (self w)) (pystr.lstrip "/"%char target) = false →
     change_directory path w
     = (Ret (false, cwd (self w)),
        World (self w) (host w) (printed w ++ [NoSuchDirectory path]) (getcwd w)))
  ∧ ((∃ d, (change_directory path w).1 = Ret (true, d))
     ↔ target = "/"
       ∨ indexed_folder (files (self w)) (pystr.lstrip "/"%char target) = true).
Proof.
  intros target.
  split; [apply cd_root |]. split; [apply cd_folder |]. split; [apply cd_missing |].
  split.
  - intros [d Hd].
    destruct (String.eqb_spec target "/") as [| Hne]; [by left |]. right.
    destruct (bool_decide_reflect
                (indexed_folder (files (self w)) (pystr.lstrip "/"%char target) = true))
      as [Hf | Hf]; [done |].
    apply not_true_is_false in Hf.
    rewrite (cd_missing w path Hne Hf) in Hd. cbn in Hd. congruence.
  - intros [Ht | Hf].
    + exists "/". by rewrite (cd_root w path Ht).
    + destruct (String.eqb_spec target "/") as [Ht | Hne].
      * exists "/". by rewrite (cd_root w path Ht).
      * exists target. by rewrite (cd_folder w path Hne Hf).
Qed.

(** C8: [list_contents] returns the "not running" message on a stopped
    node; on a running node it returns, joined by line feeds, one line for
    each indexed entry whose parent component is the current directory
    without its leading separators (the empty string at the root), and
    for no other, in the order of the keys; the line of a folder starts
    with [d] and ends with a separator, the line of a file starts with [-]
    and carries its size; and the call changes nothing. *)
Theorem listing_spec w :
  (is_running (self w) = false →
     list_contents w = (Ret "Virtual device is not running.", w))
  ∧ (is_running (self w) = true →
     list_contents w = (Ret (pystr.join lf (line <$> shown (self w))), w))
  ∧ (∀ k f, (k, f) ∈ shown (self w)
            ↔ files (self w) !! k = Some f
              ∧ (posixpath.split k).1 = pystr.lstrip "/"%char (cwd (self w)))
  ∧ (cwd (self w) = "/" →
     ∀ k f, (k, f) ∈ shown (self w)
            ↔ files (self w) !! k = Some f ∧ (posixpath.split k).1 = "")
  ∧ StronglySorted item_le (shown (self w))
  ∧ NoDup (shown (self w)).*1
  ∧ length (line <$> shown (self w)) = length (shown (self w))
  ∧ (∀ item, is_folder item.2 = true →
       line item = "d ---        " +:+ (posixpath.split item.1).2 +:+ "/")
  ∧ (∀ item, is_folder item.2 = false →
       line item = "- " +:+ pystr.ljust 10 (pystr.of_int (data.size_bytes item.2) +:+ "B")
                     +:+ " " +:+ (posixpath.split item.1).2)
  ∧ (∀ x y, is_folder x.2 = true → is_folder y.2 = false → line x ≠ line y).
Proof.
  split; [| split; [| split; [| split; [| split; [| split; [| split; [| split; [| split]]]]]]]].
  - intros Hrun. unfold list_contents. unfold_m. by rewrite Hrun.
  - intros Hrun. unfold list_contents. unfold_m. by rewrite Hrun.
  - apply shown_elem.
  - intros Hroot k f. by rewrite shown_elem, Hroot.
  - apply filter_sorted, sorted_items_sorted.
  - apply filter_keys, sorted_items_keys.
  - apply length_fmap.
  - intros item Hf. unfold line. by rewrite Hf.
  - intros item Hf. unfold line. by rewrite Hf.
  - intros x y Hx Hy. unfold line. rewrite Hx, Hy. discriminate.
Qed.


End Claims.

Lemma quota_enforcement_witness :
  is_running (self tight_disk) = true
  ∧ create_virtual_file "g" 6 None tight_disk =
      (Ret (Some (new_file (self tight_disk) "g" 6 None)),
       World (with_file (self tight_disk) "g" 6 None) (host tight_disk)
             (printed tight_disk ++ [CreatedFile "g" 6]) (getcwd tight_disk))
  ∧ fails_with (create_virtual_file "g" 7 None) tight_disk [InsufficientStorage 7 6]
  ∧ fails_with (create_virtual_file "f" 7 None) tight_disk [InsufficientStorage 7 6].
Proof.
  assert (Hrun : is_running (self tight_disk) = true) by (vm_compute; reflexivity).
  split; [exact Hrun |]. split; [| split].
  - destruct (quota_enforcement tight_disk "g" 6 None Hrun) as (_ & _ & Hfit & _).
    destruct (Hfit ltac:(vm_compute; reflexivity)) as [_ Hok].
    exact (Hok ltac:(vm_compute; reflexivity) "" (host tight_disk)
               ltac:(vm_compute; reflexivity)).
  - destruct (quota_enforcement tight_disk "g" 7 None Hrun) as (_ & _ & _ & Hover).
    exact (proj1 (Hover ltac:(vm_compute; reflexivity))).
  - destruct (quota_enforcement tight_disk "f" 7 None Hrun) as (_ & Hraw & _).
    exact (Hraw (new_file (self tight_disk) "f" 4 None) ltac:(vm_compute; reflexivity)
                ltac:(vm_compute; discriminate) ltac:(vm_compute; reflexivity)).
Defined.

Lemma overwrite_can_be_rejected :
  (is_running (self tight_disk) = true
   ∧ files (self tight_disk) !! "f" = Some (new_file (self tight_disk) "f" 4 None)
   ∧ (used_storage (self tight_disk) - 4 + 7 ≤ total_storage (self tight_disk))%Z
   ∧ create_virtual_file "f" 7 None tight_disk =
       (Ret None,
        World (self tight_disk) (host tight_disk)
              (printed tight_disk ++ [InsufficientStorage 7 6]) (getcwd tight_disk))
   ∧ (Overwriting "f" ∉ printed (create_virtual_file "f" 7 None tight_disk).2)
   ∧ used_storage (self (create_virtual_file "f" 7 None tight_disk).2) ≠ (4 - 4 + 7)%Z)
  ∧ (is_running (self orphan_disk) = true
     ∧ files (self orphan_disk) !! "a/b.txt"
       = Some (VirtualFile_init "a/b.txt" "/mnt/vm1_disk" 10 false None)
     ∧ (used_storage (self orphan_disk) + 1 ≤ total_storage (self orphan_disk))%Z
     ∧ create_virtual_file "a/b.txt" 1 None orphan_disk =
         (Ret None,
          World (self orphan_disk) (host orphan_disk)
                (printed orphan_disk ++ [Overwriting "a/b.txt"; FileNoSuchParent "a/b.txt"])
                (getcwd orphan_disk))).
Proof.
  split.
  - split; [vm_compute; reflexivity |]. split; [vm_compute; reflexivity |].
    split; [vm_compute; discriminate |]. split; [vm_compute; reflexivity |]. split.
    + rewrite list_elem_of_In. vm_compute. intuition discriminate.
    + vm_compute. discriminate.
  - split; [vm_compute; reflexivity |]. split; [vm_compute; reflexivity |].
    split; [vm_compute; discriminate |]. vm_compute. reflexivity.
Qed.

Lemma collision_policy_witness :
  is_running (self tight_disk) = true
  ∧ (∃ w', create_virtual_file "f" 6 None tight_disk
             = (Ret (Some (new_file (self tight_disk) "f" 6 None)), w')
           ∧ printed w' = printed tight_disk ++ [Overwriting "f"; CreatedFile "f" 6]
           ∧ used_storage (self w') = (4 - 4 + 6)%Z
           ∧ files (self w') = <["f" := new_file (self tight_disk) "f" 6 None]>
                                 (files (self tight_disk)))
  ∧ fails_with (create_virtual_folder "f") tight_disk [FolderExists "f"].
Proof.
  assert (Hrun : is_running (self tight_disk) = true) by (vm_compute; reflexivity).
  assert (Hk : files (self tight_disk) !! "f" = Some (new_file (self tight_disk) "f" 4 None))
    by (vm_compute; reflexivity).
  destruct (collision_policy tight_disk "f" _ 6 None Hrun Hk) as (_ & Hover & Hdir).
  split; [exact Hrun |]. split; [| exact Hdir].
  exact (Hover ltac:(vm_compute; discriminate) ltac:(vm_compute; reflexivity)
               "" (host tight_disk) ltac:(vm_compute; reflexivity)).
Defined.

Lemma missing_parent_reports_other_errors :
  (is_running (self tight_disk) = true
   ∧ parent_missing (files (self tight_disk)) "a/b.txt" = true
   ∧ create_virtual_file "a/b.txt" 10 None tight_disk =
       (Ret None,
        World (self tight_disk) (host tight_disk)
              (printed tight_disk ++ [InsufficientStorage 10 6]) (getcwd tight_disk))
   ∧ ¬ fails_with (create_virtual_file "a/b.txt" 10 None) tight_disk
         (warning (files (self tight_disk)) "a/b.txt" ++ [FileNoSuchParent "a/b.txt"]))
  ∧ (is_running (self orphan_disk) = true
     ∧ parent_missing (files (self orphan_disk)) "a/b.txt" = true
     ∧ create_virtual_folder "a/b.txt" orphan_disk =
         (Ret None,
          World (self orphan_disk) (host orphan_disk)
                (printed orphan_disk ++ [FolderExists "a/b.txt"]) (getcwd orphan_disk))
     ∧ ¬ fails_with (create_virtual_folder "a/b.txt") orphan_disk
           [FolderNoSuchParent "a/b.txt"]).
Proof.
  split.
  - split; [vm_compute; reflexivity |]. split; [vm_compute; reflexivity |].
    split; [vm_compute; reflexivity |].
    unfold fails_with. vm_compute. discriminate.
  - split; [vm_compute; reflexivity |]. split; [vm_compute; reflexivity |].
    split; [vm_compute; reflexivity |].
    unfold fails_with. vm_compute. discriminate.
Qed.

Lemma parent_must_exist_witness :
  is_running (self (run [Start] empty_disk)) = true
  ∧ fails_with (create_virtual_file "a/b.txt" 10 None) (run [Start] empty_disk)
      [FileNoSuchParent "a/b.txt"]
  ∧ fails_with (create_virtual_folder "a/b") (run [Start] empty_disk)
      [FolderNoSuchParent "a/b"]
  ∧ (create_virtual_file "a/b.txt" 10 None (run [Start; Mkdir "a"] empty_disk)).1
    = Ret (Some (new_file (self (run [Start] empty_disk)) "a/b.txt" 10 None)).
Proof.
  set (w := run [Start] empty_disk).
  set (w1 := run [Start; Mkdir "a"] empty_disk).
  assert (Hrun : is_running (self w) = true) by (vm_compute; reflexivity).
  assert (Hroom : (used_storage (self w) + 10 ≤ total_storage (self w))%Z)
    by (vm_compute; discriminate).
  assert (Hfile : parent_missing (files (self w)) "a/b.txt" = true)
    by (vm_compute; reflexivity).
  assert (Hdir : parent_missing (files (self w)) "a/b" = true)
    by (vm_compute; reflexivity).
  assert (Hfree : files (self w) !! "a/b" = None) by (vm_compute; reflexivity).
  assert (Hmk : create_virtual_folder "a" w = (Ret (Some (new_folder (self w) "a")), w1))
    by (vm_compute; reflexivity).
  assert (Hcmd : cmd (host w1) (truncate_command (self w1) "a/b.txt" 10)
                 = (Output "", host w))
    by (vm_compute; reflexivity).
  split; [exact Hrun |]. split; [| split].
  - destruct (parent_must_exist w "a/b.txt" 10 None Hrun) as [Hgen _].
    destruct (Hgen Hfile) as (_ & _ & Hno & _). exact (Hno Hroom).
  - destruct (parent_must_exist w "a/b" 10 None Hrun) as [Hgen _].
    destruct (Hgen Hdir) as (_ & _ & _ & Hno). exact (Hno Hfree).
  - destruct (parent_must_exist w "a/b.txt" 10 None Hrun) as [_ Hab].
    destruct (Hab Hroom) as [_ Hafter].
    rewrite (Hafter _ _ Hmk _ _ Hcmd). vm_compute. reflexivity.
Defined.

Lemma lifecycle_guards_witness :
  start tight_disk
    = (Ret false,
       World (self tight_disk) (host tight_disk) (printed tight_disk ++ [AlreadyRunning])
             (getcwd tight_disk))
  ∧ stop empty_disk
    = (Ret false,
       World (self empty_disk) (host empty_disk) (printed empty_disk ++ [NotRunning])
             (getcwd empty_disk))
  ∧ ∃ w', stop tight_disk = (Ret true, w').
Proof.
  destruct (lifecycle_guards tight_disk) as (Hstart & _ & _ & Hstop).
  destruct (lifecycle_guards empty_disk) as (_ & Hidle & _).
  split; [exact (Hstart ltac:(vm_compute; reflexivity)) |].
  split; [exact (Hidle ltac:(vm_compute; reflexivity)) |].
  exact (Hstop ltac:(vm_compute; reflexivity) "" (Machine false []) "" (Machine false [])
               ltac:(vm_compute; reflexivity) ltac:(vm_compute; reflexivity)).
Defined.

Lemma change_directory_spec_witness :
  change_directory "missing" orphan_disk
  = (Ret (false, "/"),
     World (self orphan_disk) (host orphan_disk)
           (printed orphan_disk ++ [NoSuchDirectory "missing"]) (getcwd orphan_disk))
  ∧ (change_directory "a" orphan_disk).1 = Ret (false, "/")
  ∧ (change_directory "a" (run [Start; Mkdir "a"] empty_disk)).1 = Ret (true, "/a")
  ∧ (change_directory "~" (run [Start; Mkdir "a"; Cd "a"] empty_disk)).1 = Ret (true, "/").
Proof.
  split; [| split; [| split]].
  - pose proof (change_directory_spec orphan_disk "missing") as (_ & _ & Hno & _).
    exact (Hno ltac:(vm_compute; discriminate) ltac:(vm_compute; reflexivity)).
  - pose proof (change_directory_spec orphan_disk "a") as (_ & _ & Hno & _).
    rewrite (Hno ltac:(vm_compute; discriminate) ltac:(vm_compute; reflexivity)).
    reflexivity.
  - pose proof (change_directory_spec (run [Start; Mkdir "a"] empty_disk) "a")
      as (_ & Hdir & _).
    rewrite (Hdir ltac:(vm_compute; discriminate) ltac:(vm_compute; reflexivity)).
    reflexivity.
  - pose proof (change_directory_spec (run [Start; Mkdir "a"; Cd "a"] empty_disk) "~")
      as (Hroot & _).
    rewrite (Hroot ltac:(vm_compute; reflexivity)). reflexivity.
Defined.

(** C2: the total kept in [used_storage] drifts from the index. On a
    freshly formatted image the rescan indexes the directory lost+found
    with the size [stat] reports, and counts nothing; creating a file under
    that key then takes the 16384 bytes of the directory off [used_storage],
    which ends at -16384 while the only indexed file has size 0. *)
Theorem used_storage_drifts :
  reachable (run [Start] formatted_disk)
  ∧ is_running (self (run [Start] formatted_disk)) = true
  ∧ accounted (self (run [Start] formatted_disk))
  ∧ used_storage (self (run [Start; Touch "lost+found" 0 None] formatted_disk)) = (-16384)%Z
  ∧ file_bytes (files (self (run [Start; Touch "lost+found" 0 None] formatted_disk))) = 0%Z
  ∧ ¬ accounted (self (run [Start; Touch "lost+found" 0 None] formatted_disk)).
Proof.
  split; [apply reachable_run; constructor |].
  split; [vm_compute; reflexivity |]. split; [vm_compute; reflexivity |].
  split; [vm_compute; reflexivity |]. split; [vm_compute; reflexivity |].
  unfold accounted. vm_compute. discriminate.
Qed.

(** C9: a reachable running node indexes the folder a and the file
    a/b.txt in it; creating a file under the key a succeeds and replaces
    the folder entry by a file entry of the requested size, while a/b.txt
    stays indexed, now without a folder for its parent. In general, on a
    running node a request on a folder key that passes the quota test and
    the parent test, and whose command does not raise, succeeds and leaves
    every other entry in the index. *)
Theorem folder_overwrite_orphans :
  (∃ (w : world machine) (inside : VirtualFile),
     reachable w
     ∧ is_running (self w) = true
     ∧ indexed_folder (files (self w)) "a" = true
     ∧ files (self w) !! "a/b.txt" = Some inside
     ∧ parent_missing (files (self w)) "a/b.txt" = false
     ∧ (create_virtual_file "a" 5 None w).1 = Ret (Some (new_file (self w) "a" 5 None))
     ∧ files (self (create_virtual_file "a" 5 None w).2) !! "a"
       = Some (new_file (self w) "a" 5 None)
     ∧ is_folder (new_file (self w) "a" 5 None) = false
     ∧ data.size_bytes (new_file (self w) "a" 5 None) = 5%Z
     ∧ files (self (create_virtual_file "a" 5 None w).2) !! "a/b.txt" = Some inside
     ∧ parent_missing (files (self (create_virtual_file "a" 5 None w).2)) "a/b.txt" = true)
  ∧ (∀ (H : Type) (executor : Host H) (w : world H) key size content out h',
       is_running (self w) = true →
       indexed_folder (files (self w)) key = true →
       (used_storage (self w) + size ≤ total_storage (self w))%Z →
       parent_missing (files (self w)) key = false →
       cmd (host w) (truncate_command (self w) key size) = (Output out, h') →
       (create_virtual_file key size content w).1
       = Ret (Some (new_file (self w) key size content))
       ∧ files (self (create_virtual_file key size content w).2) !! key
         = Some (new_file (self w) key size content)
       ∧ is_folder (new_file (self w) key size content) = false
       ∧ ∀ other, other ≠ key →
           files (self (create_virtual_file key size content w).2) !! other
           = files (self w) !! other).
Proof.
  split.
  - exists (run [Start; Mkdir "a"; Touch "a/b.txt" 10 None] empty_disk).
    exists (VirtualFile_init "a/b.txt" "/mnt/vm1_disk" 10 false None).
    split; [apply reachable_run; constructor |].
    repeat (split; [vm_compute; reflexivity |]). vm_compute. reflexivity.
  - intros H executor w key size content out h' Hrun _ Hq Hp Hc.
    rewrite (create_file_ok w key size content out h' Hrun Hq Hp Hc). cbn.
    split; [done |]. split; [apply lookup_insert_eq |]. split; [done |].
    intros other Hne. by apply lookup_insert_ne.
Qed.

Lemma listing_spec_witness :
  list_contents empty_disk = (Ret "Virtual device is not running.", empty_disk)
  ∧ (list_contents
       (run [Start; Mkdir "docs"; Touch "docs/a.txt" 5 None; Touch "b.txt" 3 None]
            empty_disk)).1
    = Ret ("- 3B         b.txt" +:+ lf +:+ "d ---        docs/")
  ∧ (list_contents
       (run [Start; Mkdir "docs"; Touch "docs/a.txt" 5 None; Touch "b.txt" 3 None; Cd "docs"]
            empty_disk)).1
    = Ret "- 5B         a.txt".
Proof.
  split; [| split].
  - destruct (listing_spec empty_disk) as (Hidle & _).
    apply Hidle. vm_compute. reflexivity.
  - set (w := run _ _).
    assert (Hrun : is_running (self w) = true) by (vm_compute; reflexivity).
    destruct (listing_spec w) as (_ & Hls & _).
    rewrite (Hls Hrun). vm_compute. reflexivity.
  - set (w := run _ _).
    assert (Hrun : is_running (self w) = true) by (vm_compute; reflexivity).
    destruct (listing_spec w) as (_ & Hls & _).
    rewrite (Hls Hrun). vm_compute. reflexivity.
Defined.


(** * Further properties *)

(** ** The rescan *)

Section Rescan.
Context {H : Type} `{Host H}.
Implicit Types (w : world H).

Lemma rescan_entry_cases w (full_path : string) :
  printed (rescan_entry full_path w).2 = printed w
  ∧ getcwd (rescan_entry full_path w).2 = getcwd w
  ∧ (self (rescan_entry full_path w).2 = self w
     ∨ ∃ k size dir,
         posixpath.relpath (getcwd w) full_path (disk_path (self w)) = Some k
         ∧ (rescan_entry full_path w).1 = Ret tt
         ∧ self (rescan_entry full_path w).2 = scanned (self w) k size dir).
Proof.
  unfold rescan_entry. unfold_m.
  destruct (cmd (host w) _) as [[out | text] h']; cbn; [| auto].
  destruct (out =? ""); cbn; [auto |].
  destruct (pystr.split_ws_max1 (pystr.strip out)) as [| size_str [| kind [| ? ?]]];
    cbn; auto.
  destruct (pystr.to_int size_str) as [size |]; cbn; [| auto].
  destruct (posixpath.relpath (getcwd w) full_path (disk_path (self w))) as [k |] eqn:Hk;
    cbn; [| auto].
  destruct (k =? "."); cbn; [auto |].
  split; [| split; [| right; exists k, size,
    (pystr.contains "directory" (pystr.lower kind)); split; [done |]]].
  - by destruct (pystr.contains "directory" (pystr.lower kind)).
  - by destruct (pystr.contains "directory" (pystr.lower kind)).
  - unfold scanned. by destruct (pystr.contains "directory" (pystr.lower kind)).
Qed.

Lemma same_frame_refl (n : StorageVirtualNode) : same_frame n n.
Proof. by repeat split. Qed.

Lemma same_frame_trans (n1 n2 n3 : StorageVirtualNode) :
  same_frame n1 n2 → same_frame n2 n3 → same_frame n1 n3.
Proof.
  intros ((? & ? & ?) & ? & ?) ((? & ? & ?) & ? & ?). repeat split; congruence.
Qed.

Lemma same_frame_scanned (n : StorageVirtualNode) k size dir :
  same_frame n (scanned n k size dir).
Proof. unfold scanned. by destruct dir. Qed.

Lemma rescan_entry_frame w (full_path : string) :
  same_frame (self w) (self (rescan_entry full_path w).2).
Proof.
  destruct (rescan_entry_cases w full_path) as (_ & _ & [-> | (k & size & dir & _ & _ & ->)]).
  - apply same_frame_refl.
  - apply same_frame_scanned.
Qed.

(** What holds before the loop of the rescan and is kept by each of its
    iterations holds when the loop ends, normally or by an exception. *)
Lemma rescan_loop_ind (P : world H → Prop) :
  (∀ w p, P w → P (rescan_entry p w).2) →
  ∀ paths w, P w → P (for_each paths rescan_entry w).2.
Proof.
  intros Hstep paths. induction paths as [| p paths IH]; intros w Hw; [done |].
  cbn. unfold mbind, M_bind.
  pose proof (Hstep w p Hw) as Hp.
  destruct (rescan_entry p w) as [[[] | e] w1]; cbn in *; [by apply IH | done].
Qed.

Lemma rescan_loop_frame w (paths : list string) :
  same_frame (self w) (self (for_each paths rescan_entry w).2)
  ∧ printed (for_each paths rescan_entry w).2 = printed w
  ∧ getcwd (for_each paths rescan_entry w).2 = getcwd w.
Proof.
  apply (rescan_loop_ind
           (λ w', same_frame (self w) (self w') ∧ printed w' = printed w
                  ∧ getcwd w' = getcwd w)); [| by split; [apply same_frame_refl |]].
  intros w' p (Hf & Hp & Hg).
  destruct (rescan_entry_cases w' p) as (Hp' & Hg' & _).
  split; [| split; congruence].
  eapply same_frame_trans; [exact Hf | apply rescan_entry_frame].
Qed.

(** [_rescan_filesystem], step by step. *)
Lemma rescan_unfold w :
  _rescan_filesystem w
  = let said := printed w ++ [Rescanning] in
    match cmd (host w) (find_command (self w)) with
    | (Raised text, h1) =>
        (Exc (HostError text), World (cleared (self w)) h1 said (getcwd w))
    | (Output out, h1) =>
        if out =? "" then
          (Ret tt, World (cleared (self w)) h1 (said ++ [DiskEmpty]) (getcwd w))
        else
          match for_each (pystr.split_crlf (pystr.strip out)) rescan_entry
                         (World (cleared (self w)) h1 said (getcwd w)) with
          | (Ret _, w2) =>
              (Ret tt,
               World (self w2) (host w2)
                     (printed w2
                        ++ [RescanComplete (size (files (self w2))) (used_storage (self w2))])
                     (getcwd w2))
          | (Exc e, w2) => (Exc e, w2)
          end
    end.
Proof.
  unfold _rescan_filesystem, find_command, cleared. unfold_m.
  destruct (cmd (host w) _) as [[out | text] h1]; cbn; [| done].
  destruct (out =? ""); cbn; [done |].
  by destruct (for_each _ _ _) as [[[] | e] w2].
Qed.

Lemma rescan_frame w :
  same_frame (self w) (self (_rescan_filesystem w).2)
  ∧ getcwd (_rescan_filesystem w).2 = getcwd w
  ∧ ∃ rest,
      printed (_rescan_filesystem w).2 = printed w ++ Rescanning :: rest
      ∧ (rest = [] ∨ rest = [DiskEmpty] ∨ ∃ items used, rest = [RescanComplete items used]).
Proof.
  rewrite rescan_unfold. cbv zeta.
  destruct (cmd (host w) _) as [[out | text] h1]; cbn.
  - destruct (out =? ""); cbn.
    + split; [done |]. split; [done |]. exists [DiskEmpty].
      split; [by rewrite <- app_assoc | auto].
    + set (w1 := World _ _ _ _).
      destruct (rescan_loop_frame w1 (pystr.split_crlf (pystr.strip out)))
        as (Hf & Hp & Hg).
      destruct (for_each _ _ w1) as [[[] | e] w2]; cbn in *.
      * split; [done |]. split; [done |]. eexists. rewrite Hp, <- app_assoc.
        split; [done |]. eauto.
      * split; [done |]. split; [done |]. exists []. rewrite Hp. auto.
  - split; [done |]. split; [done |]. exists []. auto.
Qed.

Lemma accounted_scanned (n : StorageVirtualNode) k size dir :
  accounted n → files n !! k = None → accounted (scanned n k size dir).
Proof.
  unfold accounted, scanned. intros Hacc Hk.
  destruct dir; cbn; rewrite file_bytes_insert_fresh by done; unfold weight; cbn; lia.
Qed.

Lemma files_scanned (n : StorageVirtualNode) k size dir :
  files (scanned n k size dir)
  = <[k := VirtualFile_init k (disk_path n) size dir None]> (files n).
Proof. unfold scanned. by destruct dir. Qed.

Lemma rescan_loop_step w (p : string) (paths : list string) :
  (for_each (p :: paths) rescan_entry w).2
  = match (rescan_entry p w).1 with
    | Ret _ => (for_each paths rescan_entry (rescan_entry p w).2).2
    | Exc _ => (rescan_entry p w).2
    end.
Proof. cbn. unfold mbind, M_bind. by destruct (rescan_entry p w) as [[[] | e] w1]. Qed.

Lemma scan_keys_cons (here disk p : string) (paths : list string) :
  scan_keys here disk (p :: paths)
  = match posixpath.relpath here p disk with
    | Some k => k :: scan_keys here disk paths
    | None => scan_keys here disk paths
    end.
Proof. reflexivity. Qed.

Lemma scan_keys_tail (here disk p : string) (paths : list string) k :
  k ∈ scan_keys here disk paths → k ∈ scan_keys here disk (p :: paths).
Proof.
  rewrite scan_keys_cons. destruct (posixpath.relpath here p disk); [by right | done].
Qed.

Lemma rescan_loop_keys w (paths : list string) k :
  is_Some (files (self (for_each paths rescan_entry w).2) !! k) →
  is_Some (files (self w) !! k)
  ∨ k ∈ scan_keys (getcwd w) (disk_path (self w)) paths.
Proof.
  revert w. induction paths as [| p paths IH]; intros w; [by left |].
  rewrite rescan_loop_step.
  destruct (rescan_entry_cases w p) as (_ & Hg & Hcase).
  destruct (rescan_entry_frame w p) as ((_ & Hd & _) & _).
  destruct Hcase as [Hs | (k' & size & dir & Hk' & Hr & Hs)].
  - destruct ((rescan_entry p w).1).
    + intros Hin. apply IH in Hin. rewrite Hg, Hd, Hs in Hin.
      destruct Hin as [Hin | Hin]; [by left | right; by apply scan_keys_tail].
    + rewrite Hs. by left.
  - rewrite Hr. intros Hin. apply IH in Hin. rewrite Hg, Hd in Hin.
    destruct Hin as [Hin | Hin]; [| right; by apply scan_keys_tail].
    rewrite Hs, files_scanned in Hin.
    destruct (decide (k = k')) as [-> | Hne].
    + right. rewrite scan_keys_cons, Hk'. by left.
    + rewrite lookup_insert_ne in Hin by done. by left.
Qed.

Lemma rescan_loop_accounted w (paths : list string) :
  NoDup (scan_keys (getcwd w) (disk_path (self w)) paths) →
  (∀ k, is_Some (files (self w) !! k)
        → k ∉ scan_keys (getcwd w) (disk_path (self w)) paths) →
  accounted (self w) →
  accounted (self (for_each paths rescan_entry w).2).
Proof.
  revert w. induction paths as [| p paths IH]; intros w Hnd Hfresh Hacc; [done |].
  rewrite rescan_loop_step.
  destruct (rescan_entry_cases w p) as (_ & Hg & Hcase).
  destruct (rescan_entry_frame w p) as ((_ & Hd & _) & _).
  destruct Hcase as [Hs | (k' & size & dir & Hk' & Hr & Hs)].
  - destruct ((rescan_entry p w).1); [| by rewrite Hs].
    apply IH; rewrite ?Hg, ?Hd, ?Hs; [| | done].
    + rewrite scan_keys_cons in Hnd.
      destruct (posixpath.relpath (getcwd w) p (disk_path (self w)));
        [by apply NoDup_cons in Hnd as [_ ?] | done].
    + intros k Hk Hin. apply (Hfresh k Hk). by apply scan_keys_tail.
  - rewrite Hr. rewrite scan_keys_cons, Hk' in Hnd. apply NoDup_cons in Hnd as [Hk Hnd].
    assert (Hnone : files (self w) !! k' = None).
    { destruct (files (self w) !! k') eqn:Hl; [| done].
      exfalso. apply (Hfresh k'); [by rewrite Hl |].
      rewrite scan_keys_cons, Hk'. by left. }
    apply IH; rewrite ?Hg, ?Hd, ?Hs; [done | | by apply accounted_scanned].
    rewrite files_scanned. intros k Hin.
    destruct (decide (k = k')) as [-> | Hne]; [done |].
    rewrite lookup_insert_ne in Hin by done.
    intros Hk2. apply (Hfresh k Hin). by apply scan_keys_tail.
Qed.

Lemma rescan_entry_quiet w (table : string → string) (p : string) :
  cmd (host w) (stat_command p) = (Output (table p), host w) →
  scans (getcwd w) (disk_path (self w)) table p →
  ∃ n1,
    rescan_entry p w = (Ret tt, World n1 (host w) (printed w) (getcwd w))
    ∧ same_frame (self w) n1
    ∧ files n1
      = match scan_entry (getcwd w) (disk_path (self w)) table p with
        | Some (k, f) => <[k := f]> (files (self w))
        | None => files (self w)
        end.
Proof.
  intros Hstat Hp. unfold rescan_entry, scan_entry, read_stat in *. unfold_m.
  change ("stat -c " +:+ dq +:+ "%s %F" +:+ dq +:+ " " +:+ dq +:+ p +:+ dq)
    with (stat_command p).
  rewrite Hstat. cbn.
  destruct (table p =? "") eqn:He; cbn.
  { exists (self w). split; [by destruct w |]. split; [apply same_frame_refl | done]. }
  destruct Hp as [Hp | [[x Hx] [k Hk]]]; [by rewrite Hp in He |].
  unfold read_stat in Hx.
  destruct (pystr.split_ws_max1 (pystr.strip (table p)))
    as [| size_str [| kind [| ? ?]]]; try done.
  destruct (pystr.to_int size_str) as [size |]; [| done]. cbn.
  rewrite Hk. cbn.
  destruct (k =? "."); cbn.
  { exists (self w). split; [by destruct w |]. split; [apply same_frame_refl | done]. }
  exists (scanned (self w) k size (pystr.contains "directory" (pystr.lower kind))).
  split; [| split; [apply same_frame_scanned | apply files_scanned]].
  unfold scanned. by destruct (pystr.contains "directory" (pystr.lower kind)).
Qed.

Lemma scan_entry_key (here disk : string) (table : string → string) (p k : string)
    (f : VirtualFile) :
  scan_entry here disk table p = Some (k, f) → posixpath.relpath here p disk = Some k.
Proof.
  unfold scan_entry. destruct (table p =? ""); [done |].
  destruct (read_stat (table p)) as [[size dir] |]; [| done].
  destruct (posixpath.relpath here p disk) as [k' |]; [| done].
  destruct (k' =? "."); [done |]. by intros [= -> _].
Qed.

Lemma scan_entries_keys (here disk : string) (table : string → string)
    (paths : list string) (k : string) :
  k ∈ (omap (scan_entry here disk table) paths).*1 → k ∈ scan_keys here disk paths.
Proof.
  induction paths as [| p paths IH]; [done |].
  rewrite scan_keys_cons.
  change (omap (scan_entry here disk table) (p :: paths))
    with (match scan_entry here disk table p with
          | Some e => e :: omap (scan_entry here disk table) paths
          | None => omap (scan_entry here disk table) paths
          end).
  destruct (scan_entry here disk table p) as [[k' f] |] eqn:He; cbn [fmap list_fmap fst].
  - rewrite (scan_entry_key _ _ _ _ _ _ He).
    intros [-> | Hin]%elem_of_cons; [by left | right; by apply IH].
  - intros Hin. destruct (posixpath.relpath here p disk); [right |]; by apply IH.
Qed.

(** With a [stat] that answers from a table and changes nothing, the
    loop indexes the entries of the paths, one after the other. *)
Lemma rescan_loop_quiet w (table : string → string) (paths : list string) :
  (∀ p, p ∈ paths → cmd (host w) (stat_command p) = (Output (table p), host w)) →
  Forall (scans (getcwd w) (disk_path (self w)) table) paths →
  NoDup (scan_keys (getcwd w) (disk_path (self w)) paths) →
  ∃ n',
    for_each paths rescan_entry w = (Ret tt, World n' (host w) (printed w) (getcwd w))
    ∧ same_frame (self w) n'
    ∧ files n'
      = list_to_map (omap (scan_entry (getcwd w) (disk_path (self w)) table) paths)
          ∪ files (self w).
Proof.
  revert w. induction paths as [| p paths IH]; intros w Hstat Hall Hnd.
  { exists (self w). split; [by destruct w |]. split; [apply same_frame_refl |].
    cbn. by rewrite (left_id ∅ (∪)). }
  apply Forall_cons in Hall as [Hp Hall].
  destruct (rescan_entry_quiet w table p (Hstat p ltac:(by left)) Hp)
    as (n1 & Hrun & Hf1 & Hfiles1).
  set (w1 := World n1 (host w) (printed w) (getcwd w)).
  assert (Hd : disk_path n1 = disk_path (self w)) by apply Hf1.
  destruct (IH w1) as (n' & Hloop & Hf' & Hfiles').
  { intros q Hq. apply Hstat. by right. }
  { cbn. by rewrite Hd. }
  { cbn. rewrite Hd. rewrite scan_keys_cons in Hnd.
    destruct (posixpath.relpath (getcwd w) p (disk_path (self w)));
      [by apply NoDup_cons in Hnd as [_ ?] | done]. }
  exists n'. split; [| split; [by eapply same_frame_trans |]].
  - cbn [for_each]. unfold mbind, M_bind. rewrite Hrun. exact Hloop.
  - rewrite Hfiles'. cbn [self getcwd w1]. rewrite Hd, Hfiles1.
    change (omap (scan_entry (getcwd w) (disk_path (self w)) table) (p :: paths))
      with (match scan_entry (getcwd w) (disk_path (self w)) table p with
            | Some e => e :: omap (scan_entry (getcwd w) (disk_path (self w)) table) paths
            | None => omap (scan_entry (getcwd w) (disk_path (self w)) table) paths
            end).
    destruct (scan_entry (getcwd w) (disk_path (self w)) table p) as [[k f] |] eqn:He;
      [| done].
    rewrite list_to_map_cons, <- insert_union_l.
    symmetry. apply insert_union_r, not_elem_of_list_to_map_1.
    intros Hin%scan_entries_keys.
    rewrite scan_keys_cons, (scan_entry_key _ _ _ _ _ _ He) in Hnd.
    by apply NoDup_cons in Hnd as [? _].
Qed.

(** X1: [_rescan_filesystem] rebuilds the index from nothing, whatever
    was indexed before. Whatever the executor does, every key it leaves
    is the path, relative to the mount point, of a path [find] listed;
    and when no two listed paths have the same relative path,
    [used_storage] is the total size of the indexed files, whether the
    scan ended normally or by an exception. When [stat] answers from a
    table and changes nothing, and prints for each listed path nothing
    or a size and a type, the index is rebuilt exactly: it holds, under
    its relative path, one entry for each listed path for which [stat]
    printed something, the mount point apart, with the size [stat]
    printed, as a folder exactly when the type contains [directory] in
    some case; nothing but the index and the counter is changed. *)
Theorem rescan_rebuilds w :
  (∀ k, is_Some (files (self (_rescan_filesystem w).2) !! k) →
     ∃ out h1,
       cmd (host w) (find_command (self w)) = (Output out, h1)
       ∧ k ∈ scan_keys (getcwd w) (disk_path (self w))
                       (pystr.split_crlf (pystr.strip out)))
  ∧ ((∀ out h1,
        cmd (host w) (find_command (self w)) = (Output out, h1) →
        NoDup (scan_keys (getcwd w) (disk_path (self w))
                         (pystr.split_crlf (pystr.strip out)))) →
     accounted (self (_rescan_filesystem w).2))
  ∧ (∀ out h1 (table : string → string),
       cmd (host w) (find_command (self w)) = (Output out, h1) →
       out ≠ "" →
       (∀ p, p ∈ pystr.split_crlf (pystr.strip out) →
             cmd h1 (stat_command p) = (Output (table p), h1)) →
       Forall (scans (getcwd w) (disk_path (self w)) table)
              (pystr.split_crlf (pystr.strip out)) →
       NoDup (scan_keys (getcwd w) (disk_path (self w))
                        (pystr.split_crlf (pystr.strip out))) →
       files (self (_rescan_filesystem w).2)
       = list_to_map (omap (scan_entry (getcwd w) (disk_path (self w)) table)
                           (pystr.split_crlf (pystr.strip out)))
       ∧ used_storage (self (_rescan_filesystem w).2)
         = file_bytes (files (self (_rescan_filesystem w).2))
       ∧ same_frame (self w) (self (_rescan_filesystem w).2)
       ∧ host (_rescan_filesystem w).2 = h1).
Proof.
  split; [| split].
  - rewrite rescan_unfold. cbv zeta.
    destruct (cmd (host w) (find_command (self w))) as [[out | text] h1] eqn:Hc; cbn;
      [| intros k [? Hk]; by rewrite lookup_empty in Hk].
    destruct (out =? ""); cbn; [intros k [? Hk]; by rewrite lookup_empty in Hk |].
    set (w1 := World (cleared (self w)) h1 (printed w ++ [Rescanning]) (getcwd w)).
    pose proof (rescan_loop_keys w1 (pystr.split_crlf (pystr.strip out))) as Hkeys.
    destruct (for_each _ rescan_entry w1) as [[[] | e] w2]; cbn in *.
    all: intros k Hk; exists out, h1; split; [done |].
    all: destruct (Hkeys k Hk) as [[? Hk'] | ?]; [by rewrite lookup_empty in Hk' | done].
  - intros Hnd. rewrite rescan_unfold. cbv zeta.
    destruct (cmd (host w) (find_command (self w))) as [[out | text] h1] eqn:Hc; cbn;
      [| done].
    specialize (Hnd out h1 eq_refl).
    destruct (out =? ""); cbn; [done |].
    set (w1 := World (cleared (self w)) h1 (printed w ++ [Rescanning]) (getcwd w)).
    pose proof (rescan_loop_accounted w1 (pystr.split_crlf (pystr.strip out))) as Hacc.
    destruct (for_each _ rescan_entry w1) as [[[] | e] w2]; cbn in *.
    all: apply Hacc; [done | | done].
    all: intros k [? Hk]; by rewrite lookup_empty in Hk.
  - intros out h1 table Hc Hout Hstat Hall Hnd.
    rewrite rescan_unfold. cbv zeta. rewrite Hc.
    apply String.eqb_neq in Hout. rewrite Hout.
    set (w1 := World (cleared (self w)) h1 (printed w ++ [Rescanning]) (getcwd w)).
    pose proof (rescan_loop_accounted w1 (pystr.split_crlf (pystr.strip out)) Hnd) as Hacc.
    destruct (rescan_loop_quiet w1 table (pystr.split_crlf (pystr.strip out)) Hstat Hall Hnd)
      as (n' & Hloop & Hframe & Hfiles).
    rewrite Hloop in Hacc |- *. cbn in *.
    split; [by rewrite Hfiles, (right_id ∅ (∪)) |].
    split; [apply Hacc; [| done]; intros k [? Hk]; by rewrite lookup_empty in Hk |].
    split; [| done].
    destruct Hframe as ((? & ? & ?) & ? & ?). by repeat split.
Qed.

End Rescan.

(** ** Starting *)

Ltac not_in_log :=
  let Hin := fresh in
  intros Hin;
  repeat (apply elem_of_cons in Hin as [Hin | Hin]; [discriminate Hin |]);
  by apply elem_of_nil in Hin.

Ltac start_failed :=
  left; eexists _, _;
  split; [rewrite <- ?app_assoc; reflexivity | split; not_in_log].

Ltac start_scanned :=
  rewrite <- ?app_assoc; cbn [app];
  match goal with
  | |- context [_rescan_filesystem (World _ ?h (printed _ ++ ?pre) _)] =>
      right; exists h, pre; split; [not_in_log |]; split; [not_in_log |];
      by destruct (_rescan_filesystem _) as [[[] | ?] ?]
  end.

Ltac start_mounts :=
  repeat (match goal with
          | |- context [cmd ?h ?c] =>
              destruct (cmd h c) as [[? | ?] ?]; cbn; [| start_failed]
          end);
  match goal with
  | |- context [negb (?mounted =? "")] =>
      destruct (negb (mounted =? "")); cbn; [start_scanned | start_failed]
  end.

Section Starting.
Context {H : Type} `{Host H}.
Implicit Types (w : world H).

(** [start] on a stopped node either fails before the rescan, the node
    untouched, or marks the node running, rescans, and succeeds exactly
    when the rescan does not raise. *)
Lemma start_cases w :
  is_running (self w) = false →
  (∃ h' said,
     start w = (Ret false, World (self w) h' (printed w ++ said) (getcwd w))
     ∧ (Rescanning ∉ said) ∧ (Started (disk_path (self w)) ∉ said))
  ∨ (∃ h1 pre,
       (Rescanning ∉ pre) ∧ (Started (disk_path (self w)) ∉ pre)
       ∧ start w
         = match _rescan_filesystem
                   (World (set_is_running true (self w)) h1 (printed w ++ pre) (getcwd w))
           with
           | (Ret _, w2) =>
               (Ret true,
                World (self w2) (host w2) (printed w2 ++ [Started (disk_path (self w))])
                      (getcwd w2))
           | (Exc e, w2) =>
               (Ret false,
                World (self w2) (host w2) (printed w2 ++ [StartError e]) (getcwd w2))
           end).
Proof.
  intros Hrun. unfold start. unfold_m. rewrite Hrun. cbn.
  destruct (cmd (host w) _) as [[probe | t] h0]; cbn; [| start_failed].
  destruct (negb (pystr.contains "exists" probe)); cbn.
  - destruct (cmd h0 _) as [[? | t] h0a]; cbn; [| start_failed].
    destruct (cmd h0a _) as [[? | t] h0b]; cbn; [| start_failed].
    start_mounts.
  - start_mounts.
Qed.

(** X2: [start] on a stopped node returns [True] or [False], never
    raises, and only adds to the output; it returns [True] exactly when the
    last thing it prints is the "started" message; the node is left running
    exactly when the rescan was begun, so a start that fails inside the
    rescan returns [False] and leaves the node running; a node left stopped
    is left as it was; the configuration and the current directory are
    never touched. *)
Theorem start_outcome w :
  is_running (self w) = false →
  ∃ b said w',
    start w = (Ret b, w')
    ∧ printed w' = printed w ++ said
    ∧ (b = true ↔ last said = Some (Started (disk_path (self w))))
    ∧ (is_running (self w') = true ↔ Rescanning ∈ said)
    ∧ (b = true → is_running (self w') = true)
    ∧ (is_running (self w') = false → self w' = self w)
    ∧ same_config (self w) (self w')
    ∧ cwd (self w') = cwd (self w).
Proof.
  intros Hrun.
  destruct (start_cases w Hrun)
    as [(h' & said & -> & Hre & Hst) | (h1 & pre & Hre & Hst & ->)].
  - exists false, said, (World (self w) h' (printed w ++ said) (getcwd w)). cbn.
    split; [done |]. split; [done |]. split.
    { split; [done |]. intros Hl%last_Some_elem_of. done. }
    split; [rewrite Hrun; split; [done | intros ?; done] |].
    split; [done |]. split; [done |]. by split.
  - set (w1 := World (set_is_running true (self w)) h1 (printed w ++ pre) (getcwd w)).
    destruct (rescan_frame w1) as (((Ht & Hd & Hi) & Hr & Hc) & _ & rest & Hp & Hrest).
    assert (Hlast : ∀ m, last ((pre ++ Rescanning :: rest) ++ [m]) = Some m)
      by (intros m; apply last_snoc).
    assert (Hin : ∀ m, Rescanning ∈ (pre ++ Rescanning :: rest) ++ [m])
      by (intros m; apply elem_of_app; left; apply elem_of_app; right; by left).
    destruct (_rescan_filesystem w1) as [[[] | e] w2]; cbn in *.
    + exists true, ((pre ++ Rescanning :: rest) ++ [Started (disk_path (self w))]). eexists.
      split; [done |]. cbn. rewrite Hp, <- !app_assoc.
      split; [done |]. rewrite !app_assoc. rewrite Hlast.
      repeat split; try done; congruence.
    + exists false, ((pre ++ Rescanning :: rest) ++ [StartError e]). eexists.
      split; [done |]. cbn. rewrite Hp, <- !app_assoc.
      split; [done |]. rewrite !app_assoc. rewrite Hlast.
      repeat split; try done; try congruence.
Qed.

(** [try: ... except Exception: ...] with a handler that returns. *)
End Starting.

(** ** What the calls leave alone *)

Section Frames.
Context {H : Type} `{Host H}.
Implicit Types (w : world H) (key : string) (size : Z) (content : option string).

Lemma stop_self w :
  self (stop w).2 = self w ∨ self (stop w).2 = stopped_node (self w).
Proof.
  unfold stop. unfold_m. destruct (is_running (self w)); cbn; [| auto].
  destruct (cmd (host w) _) as [[o1 | e1] h1]; cbn; [| auto].
  destruct (cmd h1 _) as [[o2 | e2] h2]; cbn; auto.
Qed.

Lemma start_self w :
  same_config (self w) (self (start w).2) ∧ cwd (self (start w).2) = cwd (self w).
Proof.
  destruct (is_running (self w)) eqn:Hrun; [by rewrite (start_running w Hrun) |].
  destruct (start_cases w Hrun) as [(h' & said & -> & _) | (h1 & pre & _ & _ & ->)];
    [done |].
  set (w1 := World (set_is_running true (self w)) h1 (printed w ++ pre) (getcwd w)).
  destruct (rescan_frame w1) as ((? & _ & ?) & _).
  by destruct (_rescan_filesystem w1) as [[[] | e] w2].
Qed.

Lemma cd_self w (path : string) :
  self (change_directory path w).2 = self w
  ∨ self (change_directory path w).2 = set_cwd (resolve (cwd (self w)) path) (self w).
Proof.
  destruct (String.eqb_spec (resolve (cwd (self w)) path) "/") as [Ht | Ht];
    [rewrite (cd_root w path Ht), Ht; auto |].
  destruct (indexed_folder (files (self w))
              (pystr.lstrip "/"%char (resolve (cwd (self w)) path))) eqn:Hf.
  - rewrite (cd_folder w path Ht Hf). auto.
  - rewrite (cd_missing w path Ht Hf). auto.
Qed.

Lemma ls_self w : (list_contents w).2 = w.
Proof. unfold list_contents. unfold_m. by destruct (negb (is_running (self w))). Qed.

Lemma invoke_config (c : call) w : same_config (self w) (self (invoke c w)).
Proof.
  destruct c as [| | path | key size content | key |]; cbn.
  - apply start_self.
  - by destruct (stop_self w) as [-> | ->].
  - by destruct (cd_self w path) as [-> | ->].
  - by destruct (create_file_self w key size content) as [-> | ->].
  - by destruct (create_folder_self w key) as [-> | [_ ->]].
  - by rewrite ls_self.
Qed.

Lemma invoke_cwd (c : call) w : stays c → cwd (self (invoke c w)) = cwd (self w).
Proof.
  destruct c as [| | path | key size content | key |]; cbn; intros Hc; try done.
  - apply start_self.
  - by destruct (stop_self w) as [-> | ->].
  - by destruct (create_file_self w key size content) as [-> | ->].
  - by destruct (create_folder_self w key) as [-> | [_ ->]].
  - by rewrite ls_self.
Qed.

Lemma invoke_running (c : call) w :
  no_switch c → is_running (self (invoke c w)) = is_running (self w).
Proof.
  destruct c as [| | path | key size content | key |]; cbn; intros Hc; try done.
  - by destruct (cd_self w path) as [-> | ->].
  - by destruct (create_file_self w key size content) as [-> | ->].
  - by destruct (create_folder_self w key) as [-> | [_ ->]].
  - by rewrite ls_self.
Qed.

(** X4: no sequence of calls changes the capacity, the mount path or the
    image path of a node; the current directory changes under
    [change_directory] only, so [stop] and [start] keep it; and the device
    switches between running and stopped under [start] and [stop] only. *)
Theorem calls_frame (cs : list call) w :
  same_config (self w) (self (run cs w))
  ∧ (Forall stays cs → cwd (self (run cs w)) = cwd (self w))
  ∧ (Forall no_switch cs → is_running (self (run cs w)) = is_running (self w)).
Proof.
  revert w. induction cs as [| c cs IH]; intros w; [by repeat split |].
  change (run (c :: cs) w) with (run cs (invoke c w)).
  destruct (IH (invoke c w)) as ((Ht & Hd & Hi) & Hcwd & Hrun).
  destruct (invoke_config c w) as (Ht' & Hd' & Hi').
  split; [repeat split; congruence |]. split.
  - intros [Hc Hcs]%Forall_cons. rewrite Hcwd by done. by apply invoke_cwd.
  - intros [Hc Hcs]%Forall_cons. rewrite Hrun by done. by apply invoke_running.
Qed.

Lemma create_file_outcome w key size content :
  (∃ w', create_virtual_file key size content w
         = (Ret (Some (new_file (self w) key size content)), w')
         ∧ self w' = with_file (self w) key size content)
  ∨ (∃ w', create_virtual_file key size content w = (Ret None, w') ∧ self w' = self w).
Proof.
  destruct (is_running (self w)) eqn:Hrun;
    [| right; rewrite (create_file_stopped w key size content Hrun); eauto].
  destruct (Z_le_gt_dec (used_storage (self w) + size) (total_storage (self w)))
    as [Hq | Hq];
    [| right; rewrite (create_file_over_quota w key size content Hrun Hq); eauto].
  destruct (parent_missing (files (self w)) key) eqn:Hp;
    [right; rewrite (create_file_no_parent w key size content Hrun Hq Hp); eauto |].
  destruct (cmd (host w) (truncate_command (self w) key size)) as [[out | text] h'] eqn:Hc.
  - left. rewrite (create_file_ok w key size content out h' Hrun Hq Hp Hc). eauto.
  - right. rewrite (create_file_raises w key size content text h' Hrun Hq Hp Hc). eauto.
Qed.

Lemma create_folder_outcome w key :
  (∃ w', create_virtual_folder key w = (Ret (Some (new_folder (self w) key)), w')
         ∧ self w' = with_folder (self w) key
         ∧ files (self w) !! key = None)
  ∨ (∃ w', create_virtual_folder key w = (Ret None, w') ∧ self w' = self w).
Proof.
  destruct (is_running (self w)) eqn:Hrun;
    [| right; rewrite (create_folder_stopped w key Hrun); eauto].
  destruct (files (self w) !! key) as [old |] eqn:Hk;
    [right; rewrite (create_folder_exists w key Hrun); [eauto | by rewrite Hk] |].
  destruct (parent_missing (files (self w)) key) eqn:Hp;
    [right; rewrite (create_folder_no_parent w key Hrun Hk Hp); eauto |].
  destruct (cmd (host w) (mkdir_command (self w) key)) as [[out | text] h'] eqn:Hm.
  - left. rewrite (create_folder_ok w key out h' Hrun Hk Hp Hm). eauto.
  - right. rewrite (create_folder_raises w key text h' Hrun Hk Hp Hm). eauto.
Qed.

(** X5: a creation is all or nothing. When [create_virtual_file] returns
    an entry, that entry is indexed under the key and [used_storage] has
    moved by the new size less the size of the entry it replaced; when it
    returns [None], for whatever reason, the node is as it was. Likewise
    for [create_virtual_folder], which indexes a folder of size 0 under a
    key that was free. *)
Theorem creation_is_atomic w key size content :
  ((∃ w', create_virtual_file key size content w
          = (Ret (Some (new_file (self w) key size content)), w')
          ∧ self w' = with_file (self w) key size content
          ∧ files (self w') !! key = Some (new_file (self w) key size content)
          ∧ used_storage (self w')
            = (used_storage (self w) - original_size (files (self w)) key + size)%Z)
   ∨ (∃ w', create_virtual_file key size content w = (Ret None, w')
            ∧ self w' = self w))
  ∧ ((∃ w', create_virtual_folder key w = (Ret (Some (new_folder (self w) key)), w')
            ∧ self w' = with_folder (self w) key
            ∧ files (self w) !! key = None
            ∧ files (self w') !! key = Some (new_folder (self w) key)
            ∧ data.size_bytes (new_folder (self w) key) = 0%Z)
     ∨ (∃ w', create_virtual_folder key w = (Ret None, w') ∧ self w' = self w)).
Proof.
  split.
  - destruct (create_file_outcome w key size content) as [(w' & Hr & Hs) | ?]; [| by right].
    left. exists w'. split; [done |]. split; [done |]. rewrite Hs. cbn.
    split; [apply lookup_insert_eq | done].
  - destruct (create_folder_outcome w key) as [(w' & Hr & Hs & Hk) | ?]; [| by right].
    left. exists w'. split; [done |]. split; [done |]. split; [done |]. rewrite Hs. cbn.
    split; [apply lookup_insert_eq | done].
Qed.

Lemma invoke_modest (c : call) w :
  modest c →
  sizes_nonneg (files (self w)) →
  (used_storage (self w) ≤ total_storage (self w))%Z →
  sizes_nonneg (files (self (invoke c w)))
  ∧ (used_storage (self (invoke c w)) ≤ total_storage (self (invoke c w)))%Z.
Proof.
  intros Hc Hnn Hle.
  destruct c as [| | path | key size content | key |]; cbn in *; try done.
  - by destruct (cd_self w path) as [-> | ->].
  - destruct (is_running (self w)) eqn:Hrun;
      [| by rewrite (create_file_stopped w key size content Hrun)].
    destruct (Z_le_gt_dec (used_storage (self w) + size) (total_storage (self w)))
      as [Hq | Hq]; [| by rewrite (create_file_over_quota w key size content Hrun Hq)].
    destruct (create_file_under_quota_says w key size content Hrun Hq)
      as ([vf |] & h' & m & -> & _); [| done].
    cbn. split; [by apply map_Forall_insert_2 |].
    unfold original_size.
    destruct (files (self w) !! key) as [old |] eqn:Hk; [| lia].
    pose proof (Hnn key old Hk). cbn in *. lia.
  - destruct (create_folder_self w key) as [-> | [Hk ->]]; [done |].
    split; [by apply map_Forall_insert_2 | done].
  - by rewrite ls_self.
Qed.

(** X6: the quota is a ceiling. On a node within its capacity whose
    entries have no negative size, no sequence of creations of
    non-negative size, directory changes and listings brings
    [used_storage] above [total_storage]. *)
Theorem quota_is_a_ceiling (cs : list call) w :
  Forall modest cs →
  sizes_nonneg (files (self w)) →
  (used_storage (self w) ≤ total_storage (self w))%Z →
  (used_storage (self (run cs w)) ≤ total_storage (self (run cs w)))%Z
  ∧ sizes_nonneg (files (self (run cs w))).
Proof.
  intros Hcs. revert w. induction Hcs as [| c cs Hc _ IH]; intros w Hnn Hle; [done |].
  change (run (c :: cs) w) with (run cs (invoke c w)).
  destruct (invoke_modest c w Hc Hnn Hle). by apply IH.
Qed.

End Frames.

(** ** Normal forms of paths *)

Lemma split_nonnil (sep : ascii) (s : string) : pystr.split sep s ≠ [].
Proof.
  destruct s as [| a r]; cbn; [done |].
  destruct (Ascii.eqb a sep); [done |]. by destruct (pystr.split sep r).
Qed.

Lemma slashless_cons (a : ascii) (r : string) :
  slashless (String a r) ↔ a ≠ "/"%char ∧ slashless r.
Proof.
  unfold slashless. cbn. destruct (Ascii.eqb_spec a "/") as [-> | Hne].
  - split; [intros [=] | by intros [? _]].
  - pose proof (split_nonnil "/" r).
    destruct (pystr.split "/" r) as [| w ws]; [done |].
    split; [intros [= -> ->]; done | intros [_ [= -> ->]]; done].
Qed.

Lemma slashless_empty : slashless "".
Proof. reflexivity. Qed.

Lemma name_slashless (c : string) : name c → slashless c.
Proof. by intros (_ & _ & _ & ?). Qed.

Lemma split_app_sep (c rest : string) :
  slashless c → pystr.split "/"%char (c +:+ String "/" rest) = c :: pystr.split "/"%char rest.
Proof.
  induction c as [| a c IH]; [done |].
  intros [Ha Hc]%slashless_cons.
  change (String a c +:+ String "/" rest) with (String a (c +:+ String "/" rest)).
  cbn [pystr.split]. rewrite IH by done.
  by destruct (Ascii.eqb_spec a "/").
Qed.

Lemma join_cons (x y : string) (l : list string) :
  pystr.join "/" (x :: y :: l) = x +:+ String "/" (pystr.join "/" (y :: l)).
Proof. reflexivity. Qed.

Lemma split_join (l : list string) :
  Forall slashless l → l ≠ [] → pystr.split "/"%char (pystr.join "/" l) = l.
Proof.
  induction 1 as [| x l Hx Hl IH]; [done |]. intros _.
  destruct l as [| y l]; [done |].
  rewrite join_cons, split_app_sep by done. by rewrite IH.
Qed.

Lemma startswith_slashless (c : string) : slashless c → pystr.startswith c "/" = false.
Proof.
  destruct c as [| a r]; [done |]. intros [Ha _]%slashless_cons. cbn.
  by destruct (Ascii.eqb_spec a "/").
Qed.

Lemma startswith_app (c rest pre : string) :
  c ≠ "" → pystr.startswith (c +:+ rest) (String "/" EmptyString)
           = pystr.startswith c (String "/" EmptyString).
Proof. by destruct c. Qed.

Lemma join_relative (l : list string) :
  Forall slashless l → head l ≠ Some "" → pystr.startswith (pystr.join "/" l) "/" = false.
Proof.
  intros Hl Hh. destruct Hl as [| x l Hx Hl]; [done |].
  destruct l as [| y l]; [by apply startswith_slashless |].
  rewrite join_cons, (startswith_app x _ "") by (intros ->; done).
  by apply startswith_slashless.
Qed.

Lemma endswith_slashless (c : string) : slashless c → pystr.endswith c "/" = false.
Proof.
  induction c as [| a r IH]; [done |]. intros [Ha Hr]%slashless_cons.
  cbn. destruct r; [by destruct (Ascii.eqb_spec a "/") | by apply IH].
Qed.

Lemma endswith_cons (a c : ascii) (r : string) :
  r ≠ "" → pystr.endswith (String a r) c = pystr.endswith r c.
Proof. by destruct r. Qed.

Lemma endswith_app (s1 s2 : string) (c : ascii) :
  s2 ≠ "" → pystr.endswith (s1 +:+ s2) c = pystr.endswith s2 c.
Proof.
  intros Hne. induction s1 as [| a s1 IH]; [done |].
  change (String a s1 +:+ s2) with (String a (s1 +:+ s2)).
  rewrite endswith_cons; [done |]. by destruct s1, s2.
Qed.

Lemma append_assoc (a b c : string) : (a +:+ b) +:+ c = a +:+ b +:+ c.
Proof.
  induction a as [| x a IH]; [done |].
  change (String x ((a +:+ b) +:+ c) = String x (a +:+ b +:+ c)). by f_equal.
Qed.

Lemma join_snoc (l : list string) (x : string) :
  l ≠ [] → pystr.join "/" (l ++ [x]) = pystr.join "/" l +:+ String "/" x.
Proof.
  induction l as [| y l IH]; [done |]. intros _.
  destruct l as [| z l]; [done |].
  cbn [app]. rewrite !join_cons. cbn [app] in IH. rewrite IH by done.
  by rewrite append_assoc.
Qed.

Section Pushes.
Variable k : nat.
Hypothesis nonzero : k ≠ 0.

Lemma walk_push (cs s : list string) :
  Forall name cs → Forall name s → fold_left (posixpath.norm_step k) cs s = s ++ cs.
Proof.
  intros Hcs. revert s. induction Hcs as [| c cs Hc _ IH]; intros s Hs.
  - by rewrite app_nil_r.
  - cbn. rewrite norm_step_rooted by done.
    destruct Hc as (He & Hd & Hu & Hsl).
    destruct (String.eqb_spec c ""); [done |].
    destruct (String.eqb_spec c "."); [done |].
    destruct (String.eqb_spec c ".."); [done |]. cbn.
    rewrite IH; [by rewrite <- app_assoc |].
    apply Forall_app. split; [done |]. by repeat constructor.
Qed.

End Pushes.

Lemma normpath_of_join (k : nat) (l : list string) :
  k = 1 ∨ k = 2 → Forall slashless l → head l ≠ Some "" →
  posixpath.normpath (pystr.times "/"%char k +:+ pystr.join "/" l)
  = pystr.times "/"%char k
      +:+ pystr.join "/" (fold_left (posixpath.norm_step k) l []).
Proof.
  intros Hk Hl Hh.
  pose proof (join_relative l Hl Hh) as Hrel.
  assert (Hfold : ∀ n, fold_left (posixpath.norm_step n)
                                 (pystr.split "/"%char (pystr.join "/" l)) []
                       = fold_left (posixpath.norm_step n) l []).
  { intros n. destruct l as [| x l]; [done |]. by rewrite split_join. }
  destruct Hk as [-> | ->].
  - change (pystr.times "/"%char 1 +:+ pystr.join "/" l)
      with (String "/" (pystr.join "/" l)).
    rewrite normpath_rooted, initial_slashes_single by done. by rewrite Hfold.
  - change (pystr.times "/"%char 2 +:+ pystr.join "/" l)
      with (String "/" (String "/" (pystr.join "/" l))).
    rewrite normpath_rooted.
    assert (Hi : posixpath.initial_slashes (String "/" (String "/" (pystr.join "/" l))) = 2).
    { unfold posixpath.initial_slashes.
      change (pystr.startswith (String "/" (String "/" (pystr.join "/" l))) "///")
        with (true && (true && pystr.startswith (pystr.join "/" l) "/")).
      by rewrite Hrel. }
    rewrite Hi.
    change (pystr.split "/"%char (String "/" (pystr.join "/" l)))
      with ("" :: pystr.split "/"%char (pystr.join "/" l)).
    cbn [fold_left].
    change (posixpath.norm_step 2 [] "") with (@nil string).
    by rewrite Hfold.
Qed.

Lemma names_head (l : list string) : Forall name l → head l ≠ Some "".
Proof. destruct 1 as [| x l (Hx & _) _]; [done |]. cbn. congruence. Qed.

Lemma names_slashless (l : list string) : Forall name l → Forall slashless l.
Proof.
  intros Hl. eapply Forall_impl; [exact Hl |]. intros c. apply name_slashless.
Qed.

(** [normpath] leaves a normalized path as it is. *)
Lemma normpath_normalized (p : string) : normalized p → posixpath.normpath p = p.
Proof.
  intros (k & names & Hk & -> & Hn).
  rewrite normpath_of_join by auto using names_head, names_slashless.
  rewrite walk_push; [done | by destruct Hk as [-> | ->] | done | done].
Qed.

Lemma normpath_absolute_normalized (r : string) :
  normalized (posixpath.normpath (String "/" r)).
Proof.
  rewrite normpath_rooted.
  exists (posixpath.initial_slashes (String "/" r)),
         (fold_left (posixpath.norm_step (posixpath.initial_slashes (String "/" r)))
                    (pystr.split "/"%char r) []).
  split; [apply initial_slashes_cases |]. split; [done |].
  apply walk_names; [| done | apply split_pieces].
  destruct (initial_slashes_cases r) as [-> | ->]; done.
Qed.

Lemma normalized_absolute (p : string) : normalized p → ∃ r, p = String "/" r.
Proof. intros (k & names & [-> | ->] & -> & _); cbn; eauto. Qed.

Lemma join_absolute (r path : string) :
  pystr.startswith path "/" = false → ∃ r', posixpath.join (String "/" r) path = String "/" r'.
Proof.
  intros Hp. unfold posixpath.join. rewrite Hp. cbn [String.eqb orb].
  destruct (pystr.endswith (String "/" r) "/"); cbn; eauto.
Qed.

(** From a normalized directory [_resolve_path] gives a normalized path. *)
Lemma resolve_normalized (here path : string) :
  normalized here → normalized (resolve here path).
Proof.
  intros Hh. unfold resolve.
  destruct (String.eqb_spec path ""); [done |].
  destruct (pystr.startswith path "/" || pystr.startswith path "~") eqn:Habs.
  - destruct (replace1_absolute path Habs) as [r ->]. apply normpath_absolute_normalized.
  - apply orb_false_iff in Habs as [Hs _].
    destruct (normalized_absolute here Hh) as [r ->].
    destruct (join_absolute r path Hs) as [r' ->]. apply normpath_absolute_normalized.
Qed.

Lemma dotdot_slashless : slashless "..".
Proof. reflexivity. Qed.

Lemma normalized_not_closed (k : nat) (names : list string) (x : string) :
  k = 1 ∨ k = 2 → Forall name names → name x →
  pystr.endswith (pystr.times "/"%char k +:+ pystr.join "/" (names ++ [x])) "/" = false.
Proof.
  intros Hk Hn Hx. pose proof Hx as (Hne & _).
  destruct names as [| y names].
  - cbn [app]. change (pystr.join "/" [x]) with x.
    rewrite endswith_app by done. by apply endswith_slashless, name_slashless.
  - rewrite join_snoc by done. rewrite <- append_assoc.
    rewrite endswith_app by done.
    rewrite endswith_cons by done. by apply endswith_slashless, name_slashless.
Qed.

Lemma join_below (here below : string) :
  here ≠ "" → pystr.endswith here "/" = false → pystr.startswith below "/" = false →
  posixpath.join here below = here +:+ String "/" below.
Proof.
  intros Hh He Hb. unfold posixpath.join. rewrite Hb, He.
  by destruct (String.eqb_spec here "").
Qed.

Lemma times_nonempty (k : nat) (rest : string) :
  k = 1 ∨ k = 2 → pystr.times "/"%char k +:+ rest ≠ "".
Proof. by intros [-> | ->]. Qed.

Lemma resolve_joined (here path : string) :
  relative path → resolve here path = posixpath.normpath (posixpath.join here path).
Proof.
  intros (Hne & Hs & Ht). unfold resolve.
  destruct (String.eqb_spec path ""); [done |]. by rewrite Hs, Ht.
Qed.

(** From a normalized directory, [..] resolves to the directory without
    its last name. *)
Lemma resolve_dotdot (k : nat) (names : list string) (x : string) :
  k = 1 ∨ k = 2 → Forall name names → name x →
  resolve (pystr.times "/"%char k +:+ pystr.join "/" (names ++ [x])) ".."
  = pystr.times "/"%char k +:+ pystr.join "/" names.
Proof.
  intros Hk Hn Hx. rewrite resolve_joined by (by repeat split).
  rewrite join_below;
    [| by apply times_nonempty | by apply normalized_not_closed | done].
  rewrite append_assoc.
  rewrite <- (join_snoc (names ++ [x]) "..") by (by destruct names).
  assert (Hk0 : k ≠ 0) by (by destruct Hk as [-> | ->]).
  assert (Hall : Forall name (names ++ [x])) by (apply Forall_app; by split; [| constructor]).
  rewrite normpath_of_join; [| done | | ].
  - rewrite fold_left_app, (walk_push k Hk0 (names ++ [x]) []) by (done || constructor).
    cbn [fold_left app].
    rewrite norm_step_rooted by done. cbn. by rewrite removelast_last.
  - apply Forall_app. split; [by apply names_slashless |].
    constructor; [apply dotdot_slashless | done].
  - destruct names as [| y names]; cbn.
    + destruct Hx as (? & _). congruence.
    + inversion_clear Hn as [| ? ? (? & _) _]. congruence.
Qed.


Lemma join_names_nonempty (names : list string) (x : string) :
  Forall name names → name x → pystr.join "/" (names ++ [x]) ≠ "".
Proof.
  intros Hn Hx Hj.
  assert (Hall : Forall slashless (names ++ [x])).
  { apply names_slashless, Forall_app. by split; [| constructor]. }
  pose proof (split_join (names ++ [x]) Hall ltac:(by destruct names)) as Hs.
  rewrite Hj in Hs. cbn in Hs. destruct Hx as (Hne & _).
  destruct names as [| y [| z names]]; cbn in Hs; [congruence | done | done].
Qed.

(** ** Resolution of absolute inputs *)




(** ** How the calls compose *)

Section Composition.
Context {H : Type} `{Host H}.
Implicit Types (w : world H) (key path : string) (size : Z) (content : option string).

Lemma reachable_cwd w : reachable w → normalized (cwd (self w)).
Proof.
  induction 1 as [total disk image h here | c w Hw IH].
  - exists 1, []. by split; [left |].
  - destruct c as [| | path | key size content | key |];
      try (rewrite invoke_cwd by done; exact IH).
    cbn. destruct (cd_self w path) as [-> | ->]; [done |].
    cbn. by apply resolve_normalized.
Qed.

(** X7: on every node a caller can bring about, the current directory is
    an absolute path in normal form: one or two separators followed by
    names, none of them empty, [.] or [..]; normalizing it again changes
    nothing. *)
Theorem cwd_is_normalized w :
  reachable w →
  normalized (cwd (self w))
  ∧ posixpath.normpath (cwd (self w)) = cwd (self w)
  ∧ pystr.startswith (cwd (self w)) "/" = true.
Proof.
  intros Hw. pose proof (reachable_cwd w Hw) as Hn.
  split; [done |]. split; [by apply normpath_normalized |].
  destruct (normalized_absolute _ Hn) as [r ->]. done.
Qed.

(** X8: [cd ..] goes to the parent: from a normalized directory the input
    [..] resolves to the directory without its last name, and from a
    directory directly under a single separator [change_directory] of
    [..] succeeds and ends at the root. Under two leading separators, as
    left by an input beginning with [~/], the parent of a top-level
    directory resolves to two separators, which is not the root path, so
    that [change_directory] fails there unless the empty key is indexed as
    a folder. *)
Theorem dotdot_is_the_parent w (k : nat) (names : list string) (x : string) :
  k = 1 ∨ k = 2 → Forall name names → name x →
  resolve (pystr.times "/"%char k +:+ pystr.join "/" (names ++ [x])) ".."
  = pystr.times "/"%char k +:+ pystr.join "/" names
  ∧ (cwd (self w) = String "/" x →
     change_directory ".." w
     = (Ret (true, "/"), World (set_cwd "/" (self w)) (host w) (printed w) (getcwd w)))
  ∧ (cwd (self w) = String "/" (String "/" x) →
     indexed_folder (files (self w)) "" = false →
     change_directory ".." w
     = (Ret (false, cwd (self w)),
        World (self w) (host w) (printed w ++ [NoSuchDirectory ".."]) (getcwd w))).
Proof.
  intros Hk Hn Hx. split; [by apply resolve_dotdot |]. split.
  - intros Hc. apply cd_root. rewrite Hc.
    by apply (resolve_dotdot 1 [] x); [left | |].
  - intros Hc Hf.
    assert (Hr : resolve (cwd (self w)) ".." = "//")
      by (rewrite Hc; by apply (resolve_dotdot 2 [] x); [right | |]).
    apply cd_missing; by rewrite Hr.
Qed.

Lemma shown_with (n n' : StorageVirtualNode) key (vf : VirtualFile) :
  files n' = <[key := vf]> (files n) → cwd n' = cwd n →
  ∀ k f, (k, f) ∈ shown n'
         ↔ (k = key ∧ f = vf
            ∧ (posixpath.split key).1 = pystr.lstrip "/"%char (cwd n))
           ∨ (k ≠ key ∧ (k, f) ∈ shown n).
Proof.
  intros Hf Hc k f. rewrite !shown_elem, Hf, Hc.
  destruct (decide (k = key)) as [-> | Hne].
  - rewrite lookup_insert_eq. split.
    + intros [[= ->] ?]. by left.
    + intros [(_ & -> & ?) | [? _]]; done.
  - rewrite lookup_insert_ne by done. split; [by right | intros [(? & _) | [_ ?]]; done].
Qed.

(** X9: a created entry shows up where it belongs. After a creation that
    returned an entry, [list_contents] shows that entry exactly when the
    parent component of its key is the current directory, shows every other
    entry it showed before, and nothing else; the line of a new folder ends
    with a separator, that of a new file carries its size. *)
Theorem created_entry_is_listed w key size content :
  (∀ vf w', create_virtual_file key size content w = (Ret (Some vf), w') →
     (∀ k f, (k, f) ∈ shown (self w')
             ↔ (k = key ∧ f = vf
                ∧ (posixpath.split key).1 = pystr.lstrip "/"%char (cwd (self w)))
               ∨ (k ≠ key ∧ (k, f) ∈ shown (self w)))
     ∧ line (key, vf)
       = "- " +:+ pystr.ljust 10 (pystr.of_int size +:+ "B") +:+ " "
           +:+ (posixpath.split key).2)
  ∧ (∀ vf w', create_virtual_folder key w = (Ret (Some vf), w') →
       (∀ k f, (k, f) ∈ shown (self w')
               ↔ (k = key ∧ f = vf
                  ∧ (posixpath.split key).1 = pystr.lstrip "/"%char (cwd (self w)))
                 ∨ (k ≠ key ∧ (k, f) ∈ shown (self w)))
       ∧ line (key, vf) = "d ---        " +:+ (posixpath.split key).2 +:+ "/").
Proof.
  split.
  - intros vf w' Hr.
    destruct (create_file_outcome w key size content) as [(w1 & Hr1 & Hs) | (w1 & Hr1 & _)];
      rewrite Hr1 in Hr; [| congruence].
    injection Hr as <- <-. split; [| done].
    apply shown_with; by rewrite Hs.
  - intros vf w' Hr.
    destruct (create_folder_outcome w key) as [(w1 & Hr1 & Hs & _) | (w1 & Hr1 & _)];
      rewrite Hr1 in Hr; [| congruence].
    injection Hr as <- <-. split; [| done].
    apply shown_with; by rewrite Hs.
Qed.



(** X11: what [stop] leaves behind. A successful [stop] empties the index
    and keeps the current directory; afterwards [change_directory]
    succeeds exactly on the inputs that resolve to the root, and every
    creation is refused. *)
Theorem stopped_node_is_sealed w w' path key size content :
  stop w = (Ret true, w') →
  cwd (self w') = cwd (self w)
  ∧ ((∃ d, (change_directory path w').1 = Ret (true, d))
     ↔ resolve (cwd (self w)) path = "/")
  ∧ fails_with (create_virtual_file key size content) w' [FileNotRunning]
  ∧ fails_with (create_virtual_folder key) w' [FolderNotRunning]
  ∧ (list_contents w').1 = Ret "Virtual device is not running.".
Proof.
  intros Hs. pose proof (stop_true w w' Hs) as Hn.
  assert (Hc : cwd (self w') = cwd (self w)) by (by rewrite Hn).
  assert (Hrun : is_running (self w') = false) by (by rewrite Hn).
  split; [done |]. split; [| split; [| split]].
  - destruct (String.eqb_spec (resolve (cwd (self w)) path) "/") as [Ht | Ht].
    + split; [done |]. intros _. exists "/". rewrite cd_root by (by rewrite Hc). done.
    + split; [| done]. intros [d Hd].
      rewrite cd_missing in Hd; rewrite ?Hc; [by cbn in Hd | done |].
      unfold indexed_folder. by rewrite Hn.
  - by apply create_file_stopped.
  - by apply create_folder_stopped.
  - unfold list_contents. unfold_m. by rewrite Hrun.
Qed.

End Composition.

(** ** The command shell *)

Lemma lstrip_relative (j : string) :
  pystr.startswith j "/" = false → pystr.lstrip "/"%char j = j.
Proof.
  destruct j as [| a r]; [done |]. cbn. rewrite andb_true_r. by intros ->.
Qed.

Lemma lstrip_normalized (k : nat) (j : string) :
  k = 1 ∨ k = 2 → pystr.startswith j "/" = false →
  pystr.lstrip "/"%char (pystr.times "/"%char k +:+ j) = j.
Proof.
  intros [-> | ->] Hj.
  - change (pystr.lstrip "/"%char (pystr.times "/"%char 1 +:+ j))
      with (pystr.lstrip "/"%char j). by apply lstrip_relative.
  - change (pystr.lstrip "/"%char (pystr.times "/"%char 2 +:+ j))
      with (pystr.lstrip "/"%char j). by apply lstrip_relative.
Qed.

(** The key the shell derives from a normalized path is empty, for the
    root, or in normal form. *)
Lemma key_of_normalized (p : string) :
  normalized p →
  pystr.lstrip "/"%char p = "" ∨ normal_key (pystr.lstrip "/"%char p).
Proof.
  intros (k & names & Hk & -> & Hn).
  rewrite lstrip_normalized;
    [| done | by apply join_relative; [apply names_slashless | apply names_head]].
  destruct names as [| x names]; [by left |]. right. by exists (x :: names).
Qed.

Section ShellFacts.
Context {H : Type} `{Host H}.
Implicit Types (sh : shell H) (line : string).

Lemma cd_returns (w : world H) (path : string) :
  ∃ b d, change_directory path w = (Ret (b, d), (change_directory path w).2)
         ∧ (b = true → d = cwd (self (change_directory path w).2))
         ∧ (b = false → self (change_directory path w).2 = self w).
Proof.
  destruct (String.eqb_spec (resolve (cwd (self w)) path) "/") as [Ht | Ht];
    [rewrite (cd_root w path Ht); by exists true, "/" |].
  destruct (indexed_folder (files (self w))
              (pystr.lstrip "/"%char (resolve (cwd (self w)) path))) eqn:Hf.
  - rewrite (cd_folder w path Ht Hf). by eexists true, _.
  - rewrite (cd_missing w path Ht Hf). by eexists false, _.
Qed.

Lemma do_cd_cases line sh :
  (do_cd line sh).1 = Ret tt
  ∧ console (do_cd line sh).2 = console sh
  ∧ (prompt_shows (do_cd line sh).2
     ∨ prompt (do_cd line sh).2 = prompt sh
       ∧ self (under (do_cd line sh).2) = self (under sh)).
Proof.
  unfold do_cd. cbv zeta.
  set (path := if pystr.strip line =? "" then "/" else pystr.strip line).
  destruct (cd_returns (under sh) path) as (b & d & -> & Ht & Hf). cbn.
  split; [done |]. split; [done |].
  destruct b; [left | right; auto].
  unfold prompt_shows. cbn. by rewrite Ht.
Qed.

Lemma do_mkdir_cases line sh :
  (do_mkdir line sh).1 = Ret tt
  ∧ prompt (do_mkdir line sh).2 = prompt sh
  ∧ (self (under (do_mkdir line sh).2) = self (under sh)
     ∨ pystr.lstrip "/"%char (resolve (cwd (self (under sh))) (pystr.strip line)) ≠ ""
       ∧ self (under (do_mkdir line sh).2)
         = with_folder (self (under sh))
             (pystr.lstrip "/"%char (resolve (cwd (self (under sh))) (pystr.strip line)))).
Proof.
  unfold do_mkdir. cbv zeta. destruct (pystr.strip line =? ""); [by auto |].
  unfold_m.
  destruct (String.eqb_spec
              (pystr.lstrip "/"%char (resolve (cwd (self (under sh))) (pystr.strip line)))
              "") as [Hk | Hk]; [by auto |].
  set (key := pystr.lstrip "/"%char _) in *.
  destruct (create_folder_outcome (under sh) key) as [(w' & -> & Hs & _) | (w' & -> & Hs)];
    cbn; auto.
Qed.

Lemma do_touch_cases line sh :
  ((do_touch line sh).1 = Ret tt
   ∨ ∃ file_name size more,
       words (pystr.strip line) = file_name :: size :: more
       ∧ pystr.to_int size = None
       ∧ do_touch line sh = (Exc (InvalidLiteral size), sh))
  ∧ prompt (do_touch line sh).2 = prompt sh
  ∧ (self (under (do_touch line sh).2) = self (under sh)
     ∨ ∃ file_name more size_mb,
         words (pystr.strip line) = file_name :: more
         ∧ match more with
           | [] => Some 0%Z
           | size :: _ => pystr.to_int size
           end = Some size_mb
         ∧ pystr.lstrip "/"%char (resolve (cwd (self (under sh))) file_name) ≠ ""
         ∧ self (under (do_touch line sh).2)
           = with_file (self (under sh))
               (pystr.lstrip "/"%char (resolve (cwd (self (under sh))) file_name))
               (size_mb * 1024 * 1024) None).
Proof.
  unfold do_touch.
  destruct (words (pystr.strip line)) as [| file_name more] eqn:Hw; [by auto |].
  cbv zeta.
  assert (Hgo : ∀ size_mb,
    match more with
    | [] => Some 0%Z
    | size :: _ => pystr.to_int size
    end = Some size_mb →
    let r :=
      match _resolve_path file_name (under sh) with
      | (Ret full_path, w1) =>
          if pystr.lstrip "/"%char full_path =? "" then
            (Ret tt, say TouchRoot (Shell w1 (prompt sh) (console sh)))
          else
            match create_virtual_file (pystr.lstrip "/"%char full_path)
                    (size_mb * 1024 * 1024) None w1 with
            | (Ret _, w2) => (Ret tt, Shell w2 (prompt sh) (console sh))
            | (Exc e, w2) => (Exc e, Shell w2 (prompt sh) (console sh))
            end
      | (Exc e, w1) => (Exc e, Shell w1 (prompt sh) (console sh))
      end in
    (r.1 = Ret tt
     ∨ ∃ f size more',
         file_name :: more = f :: size :: more'
         ∧ pystr.to_int size = None ∧ r = (Exc (InvalidLiteral size), sh))
    ∧ prompt r.2 = prompt sh
    ∧ (self (under r.2) = self (under sh)
       ∨ ∃ f more' m,
           file_name :: more = f :: more'
           ∧ match more' with
             | [] => Some 0%Z
             | size :: _ => pystr.to_int size
             end = Some m
           ∧ pystr.lstrip "/"%char (resolve (cwd (self (under sh))) f) ≠ ""
           ∧ self (under r.2)
             = with_file (self (under sh))
                 (pystr.lstrip "/"%char (resolve (cwd (self (under sh))) f))
                 (m * 1024 * 1024) None)).
  { intros size_mb Hsz. cbv zeta. unfold_m.
    destruct (String.eqb_spec
                (pystr.lstrip "/"%char (resolve (cwd (self (under sh))) file_name)) "")
      as [Hk | Hk]; [by auto |].
    set (key := pystr.lstrip "/"%char _) in *.
    destruct (create_file_outcome (under sh) key (size_mb * 1024 * 1024) None)
      as [(w' & -> & Hs) | (w' & -> & Hs)]; cbn; [| by auto].
    split; [by left |]. split; [done |]. right.
    exists file_name, more, size_mb. auto. }
  destruct more as [| size more'].
  - apply (Hgo 0%Z). done.
  - destruct (pystr.to_int size) as [size_mb |] eqn:Hi.
    + apply (Hgo size_mb). done.
    + split; [right; by exists file_name, size, more' |]. auto.
Qed.

Lemma do_ls_cases line sh :
  (do_ls line sh).1 = Ret tt
  ∧ prompt (do_ls line sh).2 = prompt sh
  ∧ under (do_ls line sh).2 = under sh.
Proof.
  unfold do_ls, list_contents. unfold_m.
  by destruct (negb (is_running (self (under sh)))).
Qed.

Lemma exec_prompt (c : command) sh : prompt_shows sh → prompt_shows (exec c sh).2.
Proof.
  unfold prompt_shows. intros Hp. destruct c as [line | line | line | line]; cbn.
  - destruct (do_cd_cases line sh) as (_ & _ & [Hs | [-> ->]]); done.
  - destruct (do_mkdir_cases line sh) as (_ & -> & [-> | [_ ->]]); done.
  - destruct (do_touch_cases line sh) as (_ & -> & [-> | (f & m & z & _ & _ & _ & ->)]); done.
  - destruct (do_ls_cases line sh) as (_ & -> & ->). done.
Qed.

Lemma session_ind (P : shell H → Prop) :
  (∀ c sh, P sh → P (exec c sh).2) → ∀ cs sh, P sh → P (session cs sh).2.
Proof.
  intros Hstep cs. induction cs as [| c cs IH]; intros sh Hsh; [done |].
  cbn. pose proof (Hstep c sh Hsh) as Hc.
  destruct (exec c sh) as [[[] | e] sh']; cbn in *; [by apply IH | done].
Qed.

(** X14: the prompt follows the current directory. [cd] without an
    argument goes to the root and always succeeds; a [cd] that succeeds
    sets the prompt to the new current directory, one that fails changes
    neither; and once the prompt shows the current directory it shows it
    after every session, however the session ends. *)
Theorem prompt_follows_cwd (cs : list command) line sh :
  (pystr.strip line = "" →
     cwd (self (under (do_cd line sh).2)) = "/"
     ∧ prompt (do_cd line sh).2 = "mininet:/> ")
  ∧ (prompt_shows (do_cd line sh).2
     ∨ prompt (do_cd line sh).2 = prompt sh
       ∧ cwd (self (under (do_cd line sh).2)) = cwd (self (under sh)))
  ∧ (prompt_shows sh → prompt_shows (session cs sh).2).
Proof.
  split; [| split].
  - intros Hl. unfold do_cd. rewrite Hl. cbv zeta. cbn [String.eqb].
    assert (Hr : resolve (cwd (self (under sh))) "/" = "/") by done.
    by rewrite (cd_root (under sh) "/" Hr).
  - destruct (do_cd_cases line sh) as (_ & _ & [? | [? ->]]); auto.
  - apply session_ind. apply exec_prompt.
Qed.

Lemma normal_key_facts (key : string) :
  normal_key key → key ≠ "" ∧ pystr.startswith key "/" = false.
Proof.
  intros (names & Hne & -> & Hn). split.
  - destruct (stack_cases names) as [? | (l & x & ->)]; [done |].
    apply Forall_app in Hn as [Hl Hx]. inversion_clear Hx.
    by apply join_names_nonempty.
  - apply join_relative; [by apply names_slashless | by apply names_head].
Qed.

Lemma exec_normal (c : command) sh :
  normalized (cwd (self (under sh))) ∧ keys_normal (files (self (under sh))) →
  normalized (cwd (self (under (exec c sh).2)))
  ∧ keys_normal (files (self (under (exec c sh).2))).
Proof.
  intros [Hc Hk].
  assert (Hins : ∀ p f,
    pystr.lstrip "/"%char (resolve (cwd (self (under sh))) p) ≠ "" →
    keys_normal (<[pystr.lstrip "/"%char (resolve (cwd (self (under sh))) p) := f]>
                   (files (self (under sh))))).
  { intros p f Hne k Hin.
    destruct (decide (k = pystr.lstrip "/"%char (resolve (cwd (self (under sh))) p)))
      as [-> | Hd].
    - destruct (key_of_normalized _ (resolve_normalized _ p Hc)); done.
    - rewrite lookup_insert_ne in Hin by done. by apply Hk. }
  destruct c as [line | line | line | line]; cbn.
  - unfold do_cd. cbv zeta.
    set (path := if pystr.strip line =? "" then "/" else pystr.strip line).
    destruct (cd_returns (under sh) path) as (b & d & -> & _). cbn.
    destruct (cd_self (under sh) path) as [-> | ->]; [done |].
    cbn. split; [by apply resolve_normalized | done].
  - destruct (do_mkdir_cases line sh) as (_ & _ & [-> | [Hne ->]]); [done |].
    cbn. split; [done | by apply Hins].
  - destruct (do_touch_cases line sh)
      as (_ & _ & [-> | (f & m & z & _ & _ & Hne & ->)]); [done |].
    cbn. split; [done | by apply Hins].
  - destruct (do_ls_cases line sh) as (_ & _ & ->). done.
Qed.

(** X15: the shell keeps paths in normal form. If the current directory
    is normalized and every indexed key is a list of names joined by
    separators, the same holds after every session: whatever is typed, no
    key is created that is empty, begins with a separator or has an empty,
    [.] or [..] component; and a [mkdir] or [touch] of a path that resolves
    to the root is refused without calling the node. *)
Theorem shell_keeps_normal_forms (cs : list command) line sh :
  normalized (cwd (self (under sh))) →
  keys_normal (files (self (under sh))) →
  normalized (cwd (self (under (session cs sh).2)))
  ∧ keys_normal (files (self (under (session cs sh).2)))
  ∧ (∀ k, is_Some (files (self (under (session cs sh).2)) !! k) →
       k ≠ "" ∧ pystr.startswith k "/" = false)
  ∧ (pystr.strip line ≠ "" →
     pystr.lstrip "/"%char (resolve (cwd (self (under sh))) (pystr.strip line)) = "" →
     do_mkdir line sh = (Ret tt, say MkdirRoot sh)).
Proof.
  intros Hc Hk.
  pose proof (session_ind
                (λ sh', normalized (cwd (self (under sh')))
                        ∧ keys_normal (files (self (under sh'))))
                exec_normal cs sh (conj Hc Hk)) as [Hc' Hk'].
  split; [done |]. split; [done |]. split.
  - intros k Hin. by apply normal_key_facts, Hk'.
  - intros Hl Hroot. unfold do_mkdir. cbv zeta.
    destruct (String.eqb_spec (pystr.strip line) ""); [done |].
    unfold_m. rewrite Hroot. cbn. by destruct sh.
Qed.

End ShellFacts.

(** ** The shape of the index *)

Lemma join_many_relative (ps : list string) (a : string) :
  a ≠ "" → pystr.startswith a "/" = false →
  Forall (λ c, pystr.startswith c "/" = false) ps →
  pystr.startswith (posixpath.join_many a ps) "/" = false.
Proof.
  unfold posixpath.join_many. intros Ha Hs Hps. revert a Ha Hs.
  induction Hps as [| c ps Hc _ IH]; intros a Ha Hs; [done |].
  cbn [fold_left]. apply IH.
  - unfold posixpath.join. rewrite Hc.
    destruct ((a =? "") || pystr.endswith a "/"); by destruct a.
  - unfold posixpath.join. rewrite Hc.
    destruct ((a =? "") || pystr.endswith a "/");
      by rewrite (startswith_app a _ "").
Qed.

Lemma relpath_relative (here p disk k : string) :
  posixpath.relpath here p disk = Some k → pystr.startswith k "/" = false.
Proof.
  unfold posixpath.relpath. destruct (p =? ""); [done |]. cbv zeta.
  set (start_list := List.filter _ (pystr.split "/"%char (posixpath.abspath here disk))).
  set (path_list := List.filter _ (pystr.split "/"%char (posixpath.abspath here p))).
  set (i := posixpath.common start_list path_list).
  assert (Hall : Forall (λ c, c ≠ "" ∧ pystr.startswith c "/" = false)
                        (repeat ".." (length start_list - i) ++ skipn i path_list)).
  { apply Forall_app. split.
    - apply Forall_forall. intros c Hc%list_elem_of_In%repeat_spec. by subst.
    - apply Forall_forall. intros c Hc%list_elem_of_In.
      assert (Hin : In c path_list).
      { rewrite <- (firstn_skipn i path_list). apply in_or_app. by right. }
      apply filter_In in Hin as [Hin Hne]. split.
      + intros ->. done.
      + pose proof (split_pieces "/" (posixpath.abspath here p)) as Hp.
        rewrite Forall_forall in Hp. apply startswith_slashless, Hp.
        by apply list_elem_of_In. }
  destruct (repeat ".." _ ++ _) as [| a ps]; [by intros [= <-] |].
  intros [= <-]. inversion_clear Hall as [| ? ? [Ha Hs] Hps].
  apply join_many_relative; [done | done |].
  eapply Forall_impl; [exact Hps |]. by intros c [_ ?].
Qed.

Lemma rstrip_empty (c : ascii) (s : string) :
  pystr.rstrip c s = "" → s = pystr.times c (String.length s).
Proof.
  induction s as [| a r IH]; [done |]. cbn.
  destruct (pystr.rstrip c r) eqn:Hr; [| done].
  destruct (Ascii.eqb_spec a c) as [-> |]; [| done].
  intros _. by rewrite <- IH.
Qed.

Lemma cut_absolute (r : string) : ∃ h, (posixpath.cut (String "/" r)).1 = String "/" h.
Proof.
  cbn. destruct (posixpath.cut r) as [[| a h] t]; cbn; eauto.
Qed.

(** The parent component of a key that begins with a separator begins
    with a separator. *)
Lemma split_absolute (key : string) :
  pystr.startswith key "/" = true →
  pystr.startswith (posixpath.split key).1 "/" = true.
Proof.
  intros [r ->]%startswith_slash. unfold posixpath.split.
  destruct (cut_absolute r) as [h Hh].
  destruct (posixpath.cut (String "/" r)) as [head tail]. cbn in Hh. subst head. cbn [fst].
  destruct (negb (String "/" h =? "")
            && negb (String "/" h
                     =? pystr.times "/"%char (String.length (String "/" h)))) eqn:Hc;
    [| done].
  apply andb_true_iff in Hc as [_ Hc]. apply negb_true_iff, String.eqb_neq in Hc.
  cbn [pystr.rstrip].
  destruct (pystr.rstrip "/" h) eqn:Hr; [| done].
  exfalso. apply Hc. cbn. f_equal. by apply rstrip_empty.
Qed.

Lemma join_extends (base key : string) :
  pystr.startswith key "/" = false → ∃ rest, posixpath.join base key = base +:+ rest.
Proof.
  intros Hk. unfold posixpath.join. rewrite Hk.
  destruct ((base =? "") || pystr.endswith base "/"); eauto.
Qed.

Section Index.
Context {H : Type} `{Host H}.
Implicit Types (w : world H) (key : string) (size : Z) (content : option string).

Lemma parent_of_absolute (n : StorageVirtualNode) key :
  index_ok n → pystr.startswith key "/" = true → parent_missing (files n) key = true.
Proof.
  intros Hok Hk. unfold parent_missing.
  pose proof (split_absolute key Hk) as Hp.
  destruct ((posixpath.split key).1) as [| a r] eqn:Hs; [done |]. cbn [String.eqb negb andb].
  destruct (files n !! String a r) as [f |] eqn:Hf; [| done].
  destruct (Hok _ f Hf) as (Hrel & _). congruence.
Qed.

Lemma index_ok_insert (n n' : StorageVirtualNode) key (f : VirtualFile) :
  index_ok n → disk_path n' = disk_path n → files n' = <[key := f]> (files n) →
  pystr.startswith key "/" = false → file_id f = key →
  path f = posixpath.join (disk_path n) key →
  index_ok n'.
Proof.
  intros Hok Hd Hf Hk Hid Hp k g. rewrite Hf, Hd.
  destruct (decide (k = key)) as [-> | Hne].
  - rewrite lookup_insert_eq. by intros [= <-].
  - rewrite lookup_insert_ne by done. apply Hok.
Qed.

Lemma create_file_guarded w key size content :
  self (create_virtual_file key size content w).2 = self w
  ∨ parent_missing (files (self w)) key = false
    ∧ self (create_virtual_file key size content w).2 = with_file (self w) key size content.
Proof.
  destruct (is_running (self w)) eqn:Hrun;
    [| left; by rewrite (create_file_stopped w key size content Hrun)].
  destruct (Z_le_gt_dec (used_storage (self w) + size) (total_storage (self w)))
    as [Hq | Hq]; [| left; by rewrite (create_file_over_quota w key size content Hrun Hq)].
  destruct (parent_missing (files (self w)) key) eqn:Hp;
    [left; by rewrite (create_file_no_parent w key size content Hrun Hq Hp) |].
  destruct (cmd (host w) (truncate_command (self w) key size)) as [[out | text] h'] eqn:Hc.
  - right. by rewrite (create_file_ok w key size content out h' Hrun Hq Hp Hc).
  - left. by rewrite (create_file_raises w key size content text h' Hrun Hq Hp Hc).
Qed.

Lemma create_folder_guarded w key :
  self (create_virtual_folder key w).2 = self w
  ∨ parent_missing (files (self w)) key = false
    ∧ self (create_virtual_folder key w).2 = with_folder (self w) key.
Proof.
  destruct (is_running (self w)) eqn:Hrun;
    [| left; by rewrite (create_folder_stopped w key Hrun)].
  destruct (files (self w) !! key) as [old |] eqn:Hk;
    [left; rewrite (create_folder_exists w key Hrun); [done | by rewrite Hk] |].
  destruct (parent_missing (files (self w)) key) eqn:Hp;
    [left; by rewrite (create_folder_no_parent w key Hrun Hk Hp) |].
  destruct (cmd (host w) (mkdir_command (self w) key)) as [[out | text] h'] eqn:Hm.
  - right. by rewrite (create_folder_ok w key out h' Hrun Hk Hp Hm).
  - left. by rewrite (create_folder_raises w key text h' Hrun Hk Hp Hm).
Qed.

Lemma index_ok_frame (n n' : StorageVirtualNode) :
  index_ok n → files n' = files n → disk_path n' = disk_path n → index_ok n'.
Proof. intros Hok Hf Hd k f. rewrite Hf, Hd. apply Hok. Qed.

Lemma rescan_entry_ok w (p : string) :
  index_ok (self w) → index_ok (self (rescan_entry p w).2).
Proof.
  intros Hok.
  destruct (rescan_entry_cases w p) as (_ & _ & [-> | (k & size & dir & Hk & _ & ->)]);
    [done |].
  eapply index_ok_insert; [exact Hok | | apply files_scanned | | done | done].
  - apply same_frame_scanned.
  - by eapply relpath_relative.
Qed.

Lemma rescan_ok w : index_ok (self (_rescan_filesystem w).2).
Proof.
  assert (Hclear : index_ok (cleared (self w))) by (intros k f Hf; by cbn in Hf).
  rewrite rescan_unfold. cbv zeta.
  destruct (cmd (host w) (find_command (self w))) as [[out | text] h1]; cbn; [| done].
  destruct (out =? ""); cbn; [done |].
  set (w1 := World (cleared (self w)) h1 (printed w ++ [Rescanning]) (getcwd w)).
  pose proof (rescan_loop_ind (λ w', index_ok (self w')) rescan_entry_ok
                (pystr.split_crlf (pystr.strip out)) w1 Hclear) as Hloop.
  by destruct (for_each _ rescan_entry w1) as [[[] | e] w2].
Qed.

Lemma invoke_ok (c : call) w : index_ok (self w) → index_ok (self (invoke c w)).
Proof.
  intros Hok. destruct c as [| | path | key size content | key |]; cbn.
  - destruct (is_running (self w)) eqn:Hrun; [by rewrite (start_running w Hrun) |].
    destruct (start_cases w Hrun) as [(h' & said & -> & _) | (h1 & pre & _ & _ & ->)];
      [done |].
    set (w1 := World (set_is_running true (self w)) h1 (printed w ++ pre) (getcwd w)).
    pose proof (rescan_ok w1).
    by destruct (_rescan_filesystem w1) as [[[] | e] w2].
  - destruct (stop_self w) as [-> | ->]; [done |]. intros k f Hf. by cbn in Hf.
  - destruct (cd_self w path) as [-> | ->]; [done |]. by eapply index_ok_frame.
  - destruct (create_file_guarded w key size content) as [-> | [Hp ->]]; [done |].
    eapply index_ok_insert; [exact Hok | done | done | | done | done].
    destruct (pystr.startswith key "/") eqn:Hk; [| done].
    by rewrite (parent_of_absolute (self w) key Hok Hk) in Hp.
  - destruct (create_folder_guarded w key) as [-> | [Hp ->]]; [done |].
    eapply index_ok_insert; [exact Hok | done | done | | done | done].
    destruct (pystr.startswith key "/") eqn:Hk; [| done].
    by rewrite (parent_of_absolute (self w) key Hok Hk) in Hp.
  - by rewrite ls_self.
Qed.

(** X16: on every node a caller can bring about, however the methods were
    called, no indexed key begins with a separator, every entry carries the
    key it is indexed under, and its path on the disk is the mount path
    joined with that key, so that it begins with the mount path. *)
Theorem index_is_well_formed w :
  reachable w →
  ∀ k f, files (self w) !! k = Some f →
    pystr.startswith k "/" = false
    ∧ file_id f = k
    ∧ path f = posixpath.join (disk_path (self w)) k
    ∧ ∃ rest, path f = disk_path (self w) +:+ rest.
Proof.
  intros Hw.
  assert (Hok : index_ok (self w)).
  { induction Hw as [total disk image h here | c w Hw IH].
    - intros k f Hf. by cbn in Hf.
    - by apply invoke_ok. }
  intros k f Hf. destruct (Hok k f Hf) as (Hk & Hid & Hp).
  split; [done |]. split; [done |]. split; [done |].
  rewrite Hp. by apply join_extends.
Qed.

End Index.

(** ** The timed transfer *)

Lemma startswith_self_app (sub rest : string) : pystr.startswith (sub +:+ rest) sub = true.
Proof.
  induction sub as [| a sub IH]; [by destruct rest |].
  change (String a sub +:+ rest) with (String a (sub +:+ rest)). cbn.
  by rewrite Ascii.eqb_refl, IH.
Qed.

Lemma contains_app (sub pre post : string) :
  pystr.contains sub (pre +:+ sub +:+ post) = true.
Proof.
  induction pre as [| a pre IH].
  - change ("" +:+ sub +:+ post) with (sub +:+ post).
    destruct (sub +:+ post) eqn:E; cbn; rewrite <- E, startswith_self_app; done.
  - change (String a pre +:+ sub +:+ post) with (String a (pre +:+ sub +:+ post)).
    cbn [pystr.contains]. rewrite IH. apply orb_true_r.
Qed.

Section TransferFacts.
Import transfer.
Context {N : Type} `{Network N}.
Implicit Types (n : N) (source_vm dest_vm : vm) (file_size_mb : Z).

Ltac run_transfer :=
  unfold observe, transfer_file, try_except, host_cmd, time_time, time_sleep, print, raise,
    mbind, mret, T_bind, T_ret;
  cbn;
  repeat (match goal with
          | |- context [time ?n] => destruct (time n) as [? ?] eqn:?
          | |- context [cmd ?n ?h ?c] => destruct (cmd n h c) as [[?|?] ?] eqn:?
          | |- context [negb (pystr.contains ?a ?b)] =>
              destruct (pystr.contains a b) eqn:?
          | |- context [PrimFloat.ltb ?a ?b] => destruct (PrimFloat.ltb a b) eqn:?
          | |- context [float_of_int ?z] => destruct (float_of_int z) eqn:?
          end; cbn).



Ltac cases_of_transfer :=
  let Hrun := fresh "Hrun" in
  intros Hrun; revert Hrun; run_transfer; intros [= <- <-]; cbn.

Ltac cut_log :=
  (exists []) + (eexists [_]) + (eexists [_; _]) + (eexists [_; _; _])
  + (eexists [_; _; _; _]) + (eexists [_; _; _; _; _]).

Ltac all_answered := repeat (constructor; [by eexists |]); by constructor.

(** The recorder changes nothing. *)
Lemma recorder_is_transparent source_vm dest_vm sp dp file_size_mb n :
  let plain := transfer_file source_vm dest_vm sp dp file_size_mb (State n []) in
  let seen := observe source_vm dest_vm sp dp file_size_mb n in
  seen.1 = plain.1
  ∧ inner (net seen.2) = net plain.2
  ∧ printed seen.2 = printed plain.2.
Proof.
  cbv zeta. run_transfer; done.
Qed.

(** X17: [transfer_file] absorbs one exception. The first command that
    raises ends the attempt and is answered by one [pkill] on the source,
    after which [-1] is returned; an exception escapes the function only
    when that [pkill] raises too, or, with every command answered, as the
    [OverflowError] of a size too large for a float. *)
Theorem one_exception_is_absorbed source_vm dest_vm sp dp file_size_mb n r s' :
  observe source_vm dest_vm sp dp file_size_mb n = (r, s') →
  (∀ text, r = Exc (HostError text) →
     ∃ earlier host c first,
       log (net s')
       = earlier ++ [(host, c, Raised first); (source_vm, pkill_command, Raised text)]
       ∧ Forall answered earlier)
  ∧ (r = Exc OverflowError →
       float_of_int (file_size_mb * 1024 * 1024 * 8) = None
       ∧ Forall answered (log (net s')))
  ∧ (∀ v, r = Ret v →
       Forall answered (log (net s'))
       ∨ ∃ earlier host c first o,
           log (net s')
           = earlier ++ [(host, c, Raised first); (source_vm, pkill_command, Output o)]
           ∧ Forall answered earlier
           ∧ v = Minus1
           ∧ last (printed s') = Some (ErrorDuring (HostError first))).
Proof.
  cases_of_transfer.
  all: split; [intros ? Hr | split; [intros Hr | intros ? Hr]].
  all: try discriminate Hr.
  all: try (injection Hr as <-).
  all: try (cut_log; do 3 eexists; split; [reflexivity | all_answered]).
  all: try (split; [done | all_answered]).
  all: try (left; all_answered).
  all: try (right; cut_log; do 4 eexists; split; [reflexivity |]; split; [all_answered |]; done).
Qed.


Lemma pkill_differs (sp dp ip : string) (size : Z) :
  pkill_command ≠ truncate_command sp size
  ∧ pkill_command ≠ server_command sp
  ∧ pkill_command ≠ wget_command ip dp
  ∧ pkill_command ≠ ls_command dp.
Proof. repeat split; intros Heq; cbv [pkill_command truncate_command server_command
         wget_command ls_command String.append] in Heq; discriminate. Qed.

Ltac not_sent Hin :=
  repeat (apply elem_of_cons in Hin as [Hin | Hin];
          [apply (f_equal (λ e, e.1.2)) in Hin; cbn in Hin;
           cbv [pkill_command String.append] in Hin; discriminate Hin |]);
  by apply elem_of_nil in Hin.

Ltac not_said Hsaid :=
  repeat (apply elem_of_cons in Hsaid as [Hsaid | Hsaid]; [discriminate Hsaid |]);
  by apply elem_of_nil in Hsaid.

Ltac is_in := repeat first [apply list_elem_of_here | apply list_elem_of_further].

(** X18: a refused download leaves the web server running. Whenever
    [transfer_file] returns, [pkill] was sent to the source exactly when the
    "File transfer failed" message was not printed; when it was printed,
    [-1] is returned after three answered commands, the last of them the
    [wget] whose output, in lower case, does not contain [saved]. *)
Theorem refused_download_leaves_the_server source_vm dest_vm sp dp file_size_mb n v s' :
  observe source_vm dest_vm sp dp file_size_mb n = (Ret v, s') →
  ((∃ answer, (source_vm, pkill_command, answer) ∈ log (net s'))
   ↔ ¬ ∃ wget_output, TransferFailed wget_output ∈ printed s')
  ∧ (∀ wget_output, TransferFailed wget_output ∈ printed s' →
       v = Minus1
       ∧ pystr.contains "saved" (pystr.lower wget_output) = false
       ∧ ∃ o1 o2,
           log (net s')
           = [(source_vm, truncate_command sp file_size_mb, Output o1);
              (source_vm, server_command sp, Output o2);
              (dest_vm, wget_command (IP source_vm) dp, Output wget_output)]).
Proof.
  cases_of_transfer.
  all: split; [split; [intros [answer Hin] [wget_output Hsaid] | intros Hnot]
              | intros wget_output Hsaid].
  all: try (exfalso; not_said Hsaid).
  all: try (eexists; is_in; fail).
  - not_sent Hin.
  - exfalso. apply Hnot. eexists. is_in.
  - repeat (apply elem_of_cons in Hsaid as [Hsaid | Hsaid]; [try discriminate Hsaid |]);
      [| by apply elem_of_nil in Hsaid].
    injection Hsaid as ->. split; [done |]. split; [done |]. by eexists _, _.
Qed.


(** X19: what a returned duration stands for. When [transfer_file]
    returns a float, exactly five commands were sent and answered, in the
    order truncate, server, wget, pkill, ls; the output of [wget] contains
    [saved] in some case and that of [ls] contains the file name; the
    float is the last reading of the clock less the first, both printed,
    and the "completed" message is the last thing printed. *)
Theorem completed_transfer source_vm dest_vm sp dp file_size_mb n d s' :
  observe source_vm dest_vm sp dp file_size_mb n = (Ret (Seconds d), s') →
  ∃ o1 o2 wget_output o4 ls_output end_time,
    log (net s')
    = [(source_vm, truncate_command sp file_size_mb, Output o1);
       (source_vm, server_command sp, Output o2);
       (dest_vm, wget_command (IP source_vm) dp, Output wget_output);
       (source_vm, pkill_command, Output o4);
       (dest_vm, ls_command dp, Output ls_output)]
    ∧ pystr.contains "saved" (pystr.lower wget_output) = true
    ∧ pystr.contains file_name ls_output = true
    ∧ d = PrimFloat.sub end_time (time n).1
    ∧ StartedAt (time n).1 ∈ printed s'
    ∧ EndedAt end_time ∈ printed s'
    ∧ last (printed s') = Some (Completed (name source_vm) (name dest_vm)).
Proof.
  cases_of_transfer.
  all: eexists _, _, _, _, _, _.
  all: split; [reflexivity |]. all: split; [done |]. all: split; [done |].
  all: split; [reflexivity |]. all: split; [is_in |]. all: split; [is_in | done].
Qed.

(** X20: the check of the listing passes on every output that mentions
    the path. If the last command of a run is the [ls] of the destination
    file and its output contains the path it was given, as the error
    message of [ls] does, the "not found" message is not printed and the
    transfer is reported as completed. *)
Theorem echoed_path_passes_the_check source_vm dest_vm sp dp file_size_mb n r s'
    earlier pre post :
  observe source_vm dest_vm sp dp file_size_mb n = (r, s') →
  log (net s')
  = earlier ++ [(dest_vm, ls_command dp, Output (pre +:+ dest_file_path dp +:+ post))] →
  (∀ path, NotFound path ∉ printed s')
  ∧ ((∃ d, r = Ret (Seconds d)) ∨ r = Exc OverflowError).
Proof.
  cases_of_transfer.
  all: intros Hlog; apply (f_equal last) in Hlog; rewrite last_snoc in Hlog; cbn in Hlog.
  all: try (apply (f_equal (λ o, match o with Some e => e.1.2 | None => "" end)) in Hlog;
            cbn in Hlog; cbv [pkill_command ls_command String.append] in Hlog;
            discriminate Hlog).
  all: apply (f_equal (λ o, match o with Some e => e.2 | None => Output "" end)) in Hlog;
    cbn in Hlog; try discriminate Hlog; injection Hlog as ->.
  all: try match goal with
           | Hno : pystr.contains _ _ = false |- _ =>
               exfalso; revert Hno;
               replace (pre +:+ dest_file_path dp +:+ post)
                 with ((pre +:+ dp +:+ "/received_") +:+ "transfer_test.dat" +:+ post)
                 by (unfold dest_file_path, file_name; by rewrite !append_assoc);
               by rewrite contains_app
           end.
  all: split; [intros path Hsaid; not_said Hsaid | eauto].
Qed.

End TransferFacts.

(** ** The further properties at work *)





Lemma rescan_rebuilds_witness :
  files (self (_rescan_filesystem stocked_disk).2)
  = {[ "docs" := VirtualFile_init "docs" "/mnt/vm1_disk" 4096 true None;
       "docs/a.txt" := VirtualFile_init "docs/a.txt" "/mnt/vm1_disk" 1048576 false None ]}
  ∧ used_storage (self (_rescan_filesystem stocked_disk).2) = 1048576%Z.
Proof.
  assert (Hfind : cmd (host stocked_disk) (find_command (self stocked_disk))
                  = (Output ("/mnt/vm1_disk/docs" +:+ crlf +:+ "/mnt/vm1_disk/docs/a.txt"),
                     host stocked_disk)) by (vm_compute; reflexivity).
  assert (Hpaths : pystr.split_crlf
                     (pystr.strip
                        ("/mnt/vm1_disk/docs" +:+ crlf +:+ "/mnt/vm1_disk/docs/a.txt"))
                   = ["/mnt/vm1_disk/docs"; "/mnt/vm1_disk/docs/a.txt"])
    by (vm_compute; reflexivity).
  destruct (rescan_rebuilds stocked_disk) as (_ & _ & Hexact).
  destruct (Hexact _ _ stocked_table Hfind) as (Hfiles & Hused & _).
  - discriminate.
  - rewrite Hpaths. intros p Hp.
    apply elem_of_cons in Hp as [-> | Hp]; [vm_compute; reflexivity |].
    apply elem_of_cons in Hp as [-> | Hp]; [vm_compute; reflexivity |].
    apply elem_of_nil in Hp. destruct Hp.
  - rewrite Hpaths.
    repeat (constructor; [right; split; vm_compute; eexists; reflexivity |]).
    constructor.
  - rewrite Hpaths.
    assert (Hkeys : scan_keys (getcwd stocked_disk) (disk_path (self stocked_disk))
                      ["/mnt/vm1_disk/docs"; "/mnt/vm1_disk/docs/a.txt"]
                    = ["docs"; "docs/a.txt"]) by (vm_compute; reflexivity).
    rewrite Hkeys. apply NoDup_cons. split; [| apply NoDup_singleton].
    intros Hin%list_elem_of_singleton. discriminate.
  - split.
    + rewrite Hfiles, Hpaths. vm_compute. reflexivity.
    + rewrite Hused, Hfiles, Hpaths. vm_compute. reflexivity.
Defined.

Lemma start_outcome_witness :
  ∃ said w',
    start vanishing_disk = (Ret false, w')
    ∧ printed w' = printed vanishing_disk ++ said
    ∧ Rescanning ∈ said
    ∧ is_running (self w') = true.
Proof.
  assert (Hidle : is_running (self vanishing_disk) = false) by reflexivity.
  destruct (start_outcome vanishing_disk Hidle)
    as (b & said & w' & Hs & Hp & _ & Hrun & _).
  assert (Hv : (start vanishing_disk).1 = Ret false) by (vm_compute; reflexivity).
  assert (Hr : is_running (self (start vanishing_disk).2) = true)
    by (vm_compute; reflexivity).
  rewrite Hs in Hv, Hr. cbn in Hv, Hr. injection Hv as ->.
  exists said, w'. split; [exact Hs |]. split; [exact Hp |].
  split; [by apply Hrun | exact Hr].
Defined.

Lemma quota_is_a_ceiling_witness :
  (used_storage (self (run [Touch "g" 6 None; Mkdir "d"; Cd "d"; Touch "d/h" 5 None; Ls]
                           tight_disk))
   ≤ total_storage (self (run [Touch "g" 6 None; Mkdir "d"; Cd "d"; Touch "d/h" 5 None; Ls]
                              tight_disk)))%Z.
Proof.
  assert (Hcs : Forall modest [Touch "g" 6 None; Mkdir "d"; Cd "d"; Touch "d/h" 5 None; Ls])
    by (repeat constructor; cbn; lia).
  assert (Hfiles : files (self tight_disk)
                   = {[ "f" := VirtualFile_init "f" "/mnt/vm1_disk" 4 false None ]})
    by (vm_compute; reflexivity).
  assert (Hsizes : sizes_nonneg (files (self tight_disk))).
  { rewrite Hfiles. apply map_Forall_singleton. cbn. lia. }
  assert (Hused : (used_storage (self tight_disk) ≤ total_storage (self tight_disk))%Z)
    by (vm_compute; discriminate).
  exact (proj1 (quota_is_a_ceiling _ tight_disk Hcs Hsizes Hused)).
Defined.

Lemma cwd_is_normalized_witness :
  normalized (cwd (self (run [Start; Mkdir "a"; Cd "a"; Cd "~/a/./../a/"] empty_disk)))
  ∧ cwd (self (run [Start; Mkdir "a"; Cd "a"; Cd "~/a/./../a/"] empty_disk)) = "//a".
Proof.
  assert (Hw : reachable (run [Start; Mkdir "a"; Cd "a"; Cd "~/a/./../a/"] empty_disk))
    by (apply reachable_run, reachable_fresh).
  split; [exact (proj1 (cwd_is_normalized _ Hw)) | vm_compute; reflexivity].
Defined.

Lemma dotdot_is_the_parent_witness :
  resolve "/a/b" ".." = "/a"
  ∧ (change_directory ".." (run [Start; Mkdir "a"; Cd "a"] empty_disk)).1
    = Ret (true, "/")
  ∧ (change_directory ".." (run [Start; Mkdir "a"; Cd "~/a"] empty_disk)).1
    = Ret (false, "//a").
Proof.
  assert (Ha : name "a") by (repeat split; discriminate).
  assert (Hb : name "b") by (repeat split; discriminate).
  destruct (dotdot_is_the_parent (run [Start; Mkdir "a"; Cd "a"] empty_disk) 1 ["a"] "b"
              (or_introl eq_refl) (Forall_cons_2 _ _ _ Ha (Forall_nil_2 _)) Hb)
    as (Hres & _).
  destruct (dotdot_is_the_parent (run [Start; Mkdir "a"; Cd "a"] empty_disk) 1 [] "a"
              (or_introl eq_refl) (Forall_nil_2 _) Ha)
    as (_ & Hup & _).
  destruct (dotdot_is_the_parent (run [Start; Mkdir "a"; Cd "~/a"] empty_disk) 1 [] "a"
              (or_introl eq_refl) (Forall_nil_2 _) Ha)
    as (_ & _ & Hstuck).
  assert (H1 : cwd (self (run [Start; Mkdir "a"; Cd "a"] empty_disk)) = "/a")
    by (vm_compute; reflexivity).
  assert (H2 : cwd (self (run [Start; Mkdir "a"; Cd "~/a"] empty_disk)) = "//a")
    by (vm_compute; reflexivity).
  assert (H3 : indexed_folder (files (self (run [Start; Mkdir "a"; Cd "~/a"] empty_disk))) ""
               = false) by (vm_compute; reflexivity).
  split; [exact Hres |]. split.
  - by rewrite (Hup H1).
  - rewrite (Hstuck H2 H3). cbn [fst]. by rewrite H2.
Defined.

Lemma created_entry_is_listed_witness :
  ("a.txt", new_file (self (run [Start] empty_disk)) "a.txt" 5 None)
    ∈ shown (self (run [Start; Touch "a.txt" 5 None] empty_disk))
  ∧ ¬ ("a.txt", new_file (self (run [Start] empty_disk)) "a.txt" 6 None)
      ∈ shown (self (run [Start; Touch "a.txt" 5 None] empty_disk)).
Proof.
  destruct (created_entry_is_listed (run [Start] empty_disk) "a.txt" 5 None) as [Hfile _].
  assert (Hc : create_virtual_file "a.txt" 5 None (run [Start] empty_disk)
               = (Ret (Some (new_file (self (run [Start] empty_disk)) "a.txt" 5 None)),
                  run [Start; Touch "a.txt" 5 None] empty_disk))
    by (vm_compute; reflexivity).
  destruct (Hfile _ _ Hc) as [Hshown _].
  assert (Hdir : (posixpath.split "a.txt").1
                 = pystr.lstrip "/"%char (cwd (self (run [Start] empty_disk))))
    by (vm_compute; reflexivity).
  split.
  - apply Hshown. left. split; [reflexivity |]. split; [reflexivity | exact Hdir].
  - intros Hin. apply Hshown in Hin as [(_ & Hf & _) | [Hne _]].
    + vm_compute in Hf. discriminate Hf.
    + apply Hne. reflexivity.
Defined.


Lemma stopped_node_is_sealed_witness :
  cwd (self (run [Start; Mkdir "a"; Cd "a"; Stop] empty_disk)) = "/a"
  ∧ (∃ d, (change_directory "../a/.." (run [Start; Mkdir "a"; Cd "a"; Stop] empty_disk)).1
          = Ret (true, d))
  ∧ ¬ (∃ d, (change_directory "." (run [Start; Mkdir "a"; Cd "a"; Stop] empty_disk)).1
            = Ret (true, d))
  ∧ fails_with (create_virtual_folder "b")
               (run [Start; Mkdir "a"; Cd "a"; Stop] empty_disk) [FolderNotRunning].
Proof.
  assert (Hs : stop (run [Start; Mkdir "a"; Cd "a"] empty_disk)
               = (Ret true, run [Start; Mkdir "a"; Cd "a"; Stop] empty_disk))
    by (vm_compute; reflexivity).
  assert (Hcwd : cwd (self (run [Start; Mkdir "a"; Cd "a"] empty_disk)) = "/a")
    by (vm_compute; reflexivity).
  destruct (stopped_node_is_sealed _ _ "../a/.." "b" 0 None Hs) as (Hkeep & Hup & _ & Hno & _).
  destruct (stopped_node_is_sealed _ _ "." "b" 0 None Hs) as (_ & Hhere & _).
  split; [by rewrite Hkeep |]. split; [| split].
  - apply Hup. vm_compute; reflexivity.
  - intros Hd. apply Hhere in Hd. vm_compute in Hd. discriminate.
  - exact Hno.
Defined.

Lemma shell_keeps_normal_forms_witness :
  keys_normal
    (files (self (under (session [DoMkdir "a"; DoCd "a/"; DoTouch "../a/./b.txt 1";
                                  DoMkdir "~//c"; DoLs ""] new_shell).2)))
  ∧ do_mkdir " ../.. " new_shell = (Ret tt, say MkdirRoot new_shell).
Proof.
  assert (Hcwd : normalized (cwd (self (under new_shell)))).
  { exists 1, []. split; [by left |]. split; [vm_compute; reflexivity | constructor]. }
  assert (Hfiles : files (self (under new_shell)) = ∅) by (vm_compute; reflexivity).
  assert (Hkeys : keys_normal (files (self (under new_shell)))).
  { intros k. rewrite Hfiles, lookup_empty. by intros [? ?]. }
  destruct (shell_keeps_normal_forms
              [DoMkdir "a"; DoCd "a/"; DoTouch "../a/./b.txt 1"; DoMkdir "~//c"; DoLs ""]
              " ../.. " new_shell Hcwd Hkeys) as (_ & Hk & _ & Hroot).
  split; [exact Hk |].
  apply Hroot; [vm_compute; discriminate | vm_compute; reflexivity].
Defined.

Lemma index_is_well_formed_witness :
  ∃ f, files (self (run [Start; Mkdir "a"; Touch "a/b.txt" 10 None] formatted_disk))
         !! "a/b.txt" = Some f
       ∧ file_id f = "a/b.txt"
       ∧ ∃ rest, path f = "/mnt/vm1_disk" +:+ rest.
Proof.
  assert (Hw : reachable (run [Start; Mkdir "a"; Touch "a/b.txt" 10 None] formatted_disk))
    by (apply reachable_run, reachable_fresh).
  assert (Hd : disk_path (self (run [Start; Mkdir "a"; Touch "a/b.txt" 10 None]
                                    formatted_disk)) = "/mnt/vm1_disk")
    by (vm_compute; reflexivity).
  assert (Hf : files (self (run [Start; Mkdir "a"; Touch "a/b.txt" 10 None] formatted_disk))
                 !! "a/b.txt"
               = Some (VirtualFile_init "a/b.txt" "/mnt/vm1_disk" 10 false None))
    by (vm_compute; reflexivity).
  destruct (index_is_well_formed _ Hw _ _ Hf) as (_ & Hid & _ & Hrest).
  rewrite Hd in Hrest. eexists. split; [exact Hf |]. split; [exact Hid | exact Hrest].
Defined.

Section TransferRuns.
Import transfer.
Import PrimFloat.

Lemma one_exception_is_absorbed_witness :
  ∃ earlier host c first,
    log (net (observe vm1 vm2 "/mnt/vm1_disk" "/mnt/vm2_disk" 10
                (Script [Output ""; Raised "Interrupted"; Raised "Interrupted again"]
                        [])).2)
    = earlier ++ [(host, c, Raised first); (vm1, pkill_command, Raised "Interrupted again")]
    ∧ Forall answered earlier.
Proof.
  assert (Hrun : observe vm1 vm2 "/mnt/vm1_disk" "/mnt/vm2_disk" 10
                   (Script [Output ""; Raised "Interrupted"; Raised "Interrupted again"] [])
                 = (Exc (HostError "Interrupted again"),
                    (observe vm1 vm2 "/mnt/vm1_disk" "/mnt/vm2_disk" 10
                       (Script [Output ""; Raised "Interrupted";
                                Raised "Interrupted again"] [])).2))
    by (vm_compute; reflexivity).
  destruct (one_exception_is_absorbed _ _ _ _ _ _ _ _ Hrun) as (Hraise & _).
  exact (Hraise _ eq_refl).
Defined.

Lemma refused_download_leaves_the_server_witness :
  ∃ o1 o2,
    log (net (observe vm1 vm2 "/mnt/vm1_disk" "/mnt/vm2_disk" 10
                (Script [Output ""; Output ""; Output "wget: unable to resolve host"]
                        [])).2)
    = [(vm1, truncate_command "/mnt/vm1_disk" 10, Output o1);
       (vm1, server_command "/mnt/vm1_disk", Output o2);
       (vm2, wget_command (IP vm1) "/mnt/vm2_disk", Output "wget: unable to resolve host")].
Proof.
  assert (Hrun : observe vm1 vm2 "/mnt/vm1_disk" "/mnt/vm2_disk" 10
                   (Script [Output ""; Output ""; Output "wget: unable to resolve host"] [])
                 = (Ret Minus1,
                    (observe vm1 vm2 "/mnt/vm1_disk" "/mnt/vm2_disk" 10
                       (Script [Output ""; Output "";
                                Output "wget: unable to resolve host"] [])).2))
    by (vm_compute; reflexivity).
  assert (Hsaid : TransferFailed "wget: unable to resolve host"
                  ∈ printed (observe vm1 vm2 "/mnt/vm1_disk" "/mnt/vm2_disk" 10
                               (Script [Output ""; Output "";
                                        Output "wget: unable to resolve host"] [])).2).
  { vm_compute. repeat first [apply list_elem_of_here | apply list_elem_of_further]. }
  destruct (refused_download_leaves_the_server _ _ _ _ _ _ _ _ Hrun) as [_ Hthree].
  destruct (Hthree _ Hsaid) as (_ & _ & Hlog). exact Hlog.
Defined.

Lemma completed_transfer_witness :
  ∃ s',
    observe vm1 vm2 "/mnt/vm1_disk" "/mnt/vm2_disk" 10
      (Script [Output ""; Output ""; Output "2026-01-01 (8.1 MB/s) - file Saved [10485760]";
               Output ""; Output "/mnt/vm2_disk/received_transfer_test.dat"]
              [100%float; 101.5%float])
    = (Ret (Seconds 1.5%float), s')
    ∧ length (log (net s')) = 5.
Proof.
  eexists. split; [vm_compute; reflexivity |].
  match goal with
  | |- context [log (net ?s)] =>
      assert (Hrun : observe vm1 vm2 "/mnt/vm1_disk" "/mnt/vm2_disk" 10
                (Script [Output ""; Output "";
                         Output "2026-01-01 (8.1 MB/s) - file Saved [10485760]";
                         Output ""; Output "/mnt/vm2_disk/received_transfer_test.dat"]
                        [100%float; 101.5%float])
              = (Ret (Seconds 1.5%float), s)) by (vm_compute; reflexivity)
  end.
  destruct (completed_transfer _ _ _ _ _ _ _ _ Hrun) as (? & ? & ? & ? & ? & ? & -> & _).
  reflexivity.
Defined.

Lemma echoed_path_passes_the_check_witness :
  ∃ d, (observe vm1 vm2 "/mnt/vm1_disk" "/mnt/vm2_disk" 10 missing_file).1
       = Ret (Seconds d).
Proof.
  assert (Hlog : log (net (observe vm1 vm2 "/mnt/vm1_disk" "/mnt/vm2_disk" 10
                             missing_file).2)
                 = [(vm1, truncate_command "/mnt/vm1_disk" 10, Output "");
                    (vm1, server_command "/mnt/vm1_disk", Output "");
                    (vm2, wget_command "192.168.1.1" "/mnt/vm2_disk", Output "saved");
                    (vm1, pkill_command, Output "")]
                   ++ [(vm2, ls_command "/mnt/vm2_disk",
                        Output ("ls: cannot access '" +:+ dest_file_path "/mnt/vm2_disk"
                                  +:+ "': No such file or directory"))])
    by (vm_compute; reflexivity).
  destruct (echoed_path_passes_the_check vm1 vm2 "/mnt/vm1_disk" "/mnt/vm2_disk" 10
              missing_file _ _ _ _ _ (surjective_pairing _) Hlog) as [_ [Hd | Hover]].
  - exact Hd.
  - vm_compute in Hover. discriminate Hover.
Defined.

End TransferRuns.
